(** * Truck-dump waiting-time optimiser: queueing and departure-time core

    A shallow embedding of [config.py], [queue_simulation.py] and the
    simulation / optimisation part of [departure_optimizer.py].

    Conventions of the embedding

    - Python [int] is [Z]; Python [float] is an exact rational [Q]
      (binary64 rounding, infinities and NaN are outside the model; the
      one use of [float('inf')] is an [option Q] whose [None] is +inf).
      Results in [Q] are compared with [Qeq] ([==]).  Module [Binary64]
      repeats [multi_server_queue] on binary64 floats, where the
      rounding of the worked example is measured.
    - Python [str] is [string]; [str.split], [str.strip], [str.upper] and
      [int(str)] are modelled on ASCII text.
    - A Python [dict] whose iteration order is observable is an
      association list in insertion order with unique keys.
    - Code that can raise returns a [result]; [try/except] is
      [try_except]. *)

From Stdlib Require Import ZArith QArith Qminmax Lia Lqa String Ascii List.
From Stdlib Require PrimFloat FloatOps SpecFloat Uint63.
From stdpp Require Import base list strings gmap.
Import ListNotations.
Import (notations) PrimFloat.

Set Warnings "-inexact-float".

Local Open Scope string_scope.
Local Open Scope Z_scope.

(** ** Python runtime fragments *)

Module Py.

Inductive exn : Type := ValueError | KeyError | IndexError | ZeroDivisionError.

Inductive result (A : Type) : Type :=
| Ok (a : A)
| Raise (e : exn).
Arguments Ok {A} a.
Arguments Raise {A} e.

#[global] Instance result_ret : MRet result := fun A a => Ok a.

#[global] Instance result_bind : MBind result := fun A B k m =>
  match m with
  | Ok a => k a
  | Raise e => Raise e
  end.

(** [try: body except Exception: handler] *)
Definition try_except {A : Type} (body : result A) (handler : exn -> result A) : result A :=
  match body with
  | Ok a => Ok a
  | Raise e => handler e
  end.

(** *** Strings *)

(** [s.split(sep)] for a one-character separator: every occurrence
    splits, so the result has one more element than there are
    separators. *)
Fixpoint split (sep : ascii) (s : string) : list string :=
  match s with
  | EmptyString => [EmptyString]
  | String c rest =>
      if Ascii.eqb c sep then EmptyString :: split sep rest
      else match split sep rest with
           | hd :: tl => String c hd :: tl
           | [] => [String c EmptyString]
           end
  end.

(** ASCII white space as [str.strip()] and [int()] see it:
    0x09-0x0D, 0x1C-0x1F and the blank. *)
Definition is_space (c : ascii) : bool :=
  let n := nat_of_ascii c in
  ((9 <=? n)%nat && (n <=? 13)%nat) || ((28 <=? n)%nat && (n <=? 32)%nat).

Fixpoint lstrip (s : string) : string :=
  match s with
  | EmptyString => EmptyString
  | String c rest => if is_space c then lstrip rest else s
  end.

Fixpoint rstrip (s : string) : string :=
  match s with
  | EmptyString => EmptyString
  | String c rest =>
      match rstrip rest with
      | EmptyString => if is_space c then EmptyString else String c EmptyString
      | r => String c r
      end
  end.

Definition strip (s : string) : string := rstrip (lstrip s).

Definition upper_ascii (c : ascii) : ascii :=
  let n := nat_of_ascii c in
  if ((97 <=? n)%nat && (n <=? 122)%nat) then ascii_of_nat (n - 32) else c.

Fixpoint upper (s : string) : string :=
  match s with
  | EmptyString => EmptyString
  | String c rest => String (upper_ascii c) (upper rest)
  end.

(** *** [int(str)] in base 10

    Optional surrounding white space, an optional sign, then decimal
    digits in which single underscores may separate digits. *)

Definition digit_value (c : ascii) : option Z :=
  let n := nat_of_ascii c in
  if ((48 <=? n)%nat && (n <=? 57)%nat) then Some (Z.of_nat (n - 48)) else None.

Fixpoint int_digits (s : string) (acc : Z) (after_digit : bool) : option Z :=
  match s with
  | EmptyString => if after_digit then Some acc else None
  | String c rest =>
      match digit_value c with
      | Some d => int_digits rest (10 * acc + d) true
      | None =>
          if Ascii.eqb c "_" && after_digit then int_digits rest acc false
          else None
      end
  end.

Definition int_literal (s : string) : option Z :=
  match strip s with
  | String "+" rest => int_digits rest 0 false
  | String "-" rest => option_map Z.opp (int_digits rest 0 false)
  | t => int_digits t 0 false
  end.

Definition int (s : string) : result Z :=
  match int_literal s with
  | Some z => Ok z
  | None => Raise ValueError
  end.

(** *** Dictionaries in insertion order *)

Section Dict.
Context {V : Type}.

Fixpoint dict_get (k : string) (d : list (string * V)) : option V :=
  match d with
  | [] => None
  | (k', v) :: rest => if String.eqb k k' then Some v else dict_get k rest
  end.

(** [k in d] *)
Definition dict_mem (k : string) (d : list (string * V)) : bool :=
  match dict_get k d with
  | Some _ => true
  | None => false
  end.

(** [d[k] = v]: replaces in place, or appends a new key. *)
Fixpoint dict_set (k : string) (v : V) (d : list (string * V)) : list (string * V) :=
  match d with
  | [] => [(k, v)]
  | (k', v') :: rest =>
      if String.eqb k k' then (k', v) :: rest else (k', v') :: dict_set k v rest
  end.

(** [d[k]], which raises [KeyError] on a missing key. *)
Definition dict_item (k : string) (d : list (string * V)) : result V :=
  match dict_get k d with
  | Some v => Ok v
  | None => Raise KeyError
  end.
End Dict.

(** [max(a, b)] and [min(a, b)] on [float]: the first argument is kept
    unless the second is strictly greater (smaller). *)
Definition max_float (a b : Q) : Q := if Qlt_le_dec a b then b else a.

End Py.

Export Py.

(** ** config.py: the location hierarchy *)

Module Config.

Record sub_point_cfg : Type := { lines : string; priority : Z }.

Record zone_cfg : Type := {
  location_code : string;
  distance_base : string;
  sub_points : list (string * sub_point_cfg)
}.

(** The type of the module-level dictionary [FENI_DUMP_POINTS]. *)
Definition hierarchy : Type := list (string * zone_cfg).

Definition sp (name lines_ : string) (prio : Z) : string * sub_point_cfg :=
  (name, {| lines := lines_; priority := prio |}).

Definition FENI_DUMP_POINTS : hierarchy :=
  [ ("FENI KM 0",
     {| location_code := "FENI KM0";
        distance_base := "FENI KM0";
        sub_points :=
          [ sp "FENI A (LINE 1-2)" "1-2" 1;
            sp "FENI A (LINE 3-4)" "3-4" 1;
            sp "FENI B (LINE 5-6)" "5-6" 2;
            sp "FENI B (LINE 7-8)" "7-8" 2;
            sp "FENI C (LINE 9-10)" "9-10" 3;
            sp "FENI C (LINE 11-12)" "11-12" 3;
            sp "FENI D (LINE 13-14)" "13-14" 4;
            sp "FENI D (LINE 15-16)" "15-16" 4;
            sp "FENI E (LINE 17-18)" "17-18" 5;
            sp "FENI E (LINE 19-20)" "19-20" 5;
            sp "FENI F1 (LINE 21-22)" "21-22" 6;
            sp "FENI F2 (LINE 23-24)" "23-24" 6;
            sp "FENI G (LINE 25-26)" "25-26" 7;
            sp "FENI G (LINE 27-28)" "27-28" 7;
            sp "FENI H (LINE 29-30)" "29-30" 8;
            sp "FENI H (LINE 31-32)" "31-32" 8;
            sp "FENI K (LINE 33-34)" "33-34" 9;
            sp "FENI K (LINE 35-36)" "35-36" 9;
            sp "FENI L1 (LINE 37-38)" "37-38" 10;
            sp "FENI L2 (LINE 39-40)" "39-40" 10;
            sp "FENI L3 (LINE 41-42)" "41-42" 10;
            sp "FENI M (LINE 43-44)" "43-44" 11;
            sp "FENI M (LINE 45-46)" "45-46" 11;
            sp "FENI O1 (LINE 47-48)" "47-48" 12;
            sp "FENI O2 (LINE 49-50)" "49-50" 12;
            sp "FENI Q (LINE 51-52)" "51-52" 13;
            sp "FENI Q (LINE 53-54)" "53-54" 13;
            sp "FENI R (LINE 55-56)" "55-56" 14;
            sp "FENI S (LINE 57-58)" "57-58" 15;
            sp "FENI S (LINE 59-60)" "59-60" 15 ] |});
    ("FENI KM 15",
     {| location_code := "FENI KM15";
        distance_base := "FENI KM15";
        sub_points :=
          [ sp "FENI U1 (LINE 65-66)" "65-66" 1;
            sp "FENI U2 (LINE 67-68)" "67-68" 2;
            sp "FENI W (LINE 69-70)" "69-70" 3;
            sp "FENI W (LINE 71-72)" "71-72" 4 ] |}) ].

(** [get_main_feni_from_sub_point]: the zone whose [sub_points] has
    the name as a key, [None] otherwise. *)
Fixpoint get_main_feni_from_sub_point (points : hierarchy) (sub_point_name : string)
  : option string :=
  match points with
  | [] => None
  | (main_feni, config) :: rest =>
      if dict_mem sub_point_name (sub_points config) then Some main_feni
      else get_main_feni_from_sub_point rest sub_point_name
  end.

End Config.

Export Config.

(** ** queue_simulation.py *)

Module QueueSimulation.

Section Hierarchy.
(** The module global [FENI_DUMP_POINTS] the functions read. *)
Variable dump_points : hierarchy.

(** The body of the [try] block that reads a line range:
    [Ok (Some n)] when it returns [n] from inside the block,
    [Ok None] when the block falls through (not two parts),
    [Raise] when an [int()] fails. *)
Definition line_range_try (line_str : string) : result (option Z) :=
  let parts := split "-" line_str in
  if (length parts =? 2)%nat then
    start ← int (nth 0 parts "");
    end_ ← int (nth 1 parts "");
    Ok (Some (Z.max 1 (end_ - start + 1)))
  else Ok None.

(** The first loop of [get_server_count]: over the zones' items,
    returning at the first zone that has the name as sub-point;
    [Ok None] when the loop ends without returning. *)
Fixpoint explicit_sub_point (points : hierarchy) (subpoint_name : string)
  : result (option Z) :=
  match points with
  | [] => Ok None
  | (main_feni, cfg) :: rest =>
      match dict_get subpoint_name (sub_points cfg) with
      | Some sp_cfg =>
          let line_str := lines sp_cfg in
          r ← try_except (line_range_try line_str) (fun _ => Ok None);
          match r with
          | Some n => Ok (Some n)
          | None => Ok (Some 1)
          end
      | None => explicit_sub_point rest subpoint_name
      end
  end.

(** One iteration of the summing loop over a zone's sub-points. *)
Definition add_lines (total : Z) (sp_cfg : sub_point_cfg) : result Z :=
  try_except
    (let parts := split "-" (lines sp_cfg) in
     if (length parts =? 2)%nat then
       start ← int (nth 0 parts "");
       end_ ← int (nth 1 parts "");
       Ok (total + Z.max 1 (end_ - start + 1))
     else Ok (total + 1))
    (fun _ => Ok (total + 1)).

Fixpoint sum_lines (total : Z) (sps : list (string * sub_point_cfg)) : result Z :=
  match sps with
  | [] => Ok total
  | (_, sp_cfg) :: rest => total' ← add_lines total sp_cfg; sum_lines total' rest
  end.

Definition get_server_count (subpoint_name : string) : result Z :=
  if String.eqb subpoint_name "" then Ok 2
  else
    r ← explicit_sub_point dump_points subpoint_name;
    match r with
    | Some n => Ok n
    | None =>
        match get_main_feni_from_sub_point dump_points subpoint_name with
        | Some main_feni =>
            if negb (String.eqb main_feni "") then
              match dict_get main_feni dump_points with
              | Some zone =>
                  total ← sum_lines 0 (sub_points zone);
                  Ok (Z.max 1 total)
              | None => Ok 2
              end
            else Ok 2
        | None => Ok 2
        end
    end.
End Hierarchy.

(** [min(range(len(xs)), key=lambda i: xs[i])]: the first index of a
    least element; [ValueError] on an empty range. *)
Fixpoint min_index_from (xs : list Q) (i best : nat) (best_v : Q) : nat :=
  match xs with
  | [] => best
  | x :: rest =>
      if Qlt_le_dec x best_v then min_index_from rest (S i) i x
      else min_index_from rest (S i) best best_v
  end.

Definition min_index (xs : list Q) : result nat :=
  match xs with
  | [] => Raise ValueError
  | x :: rest => Ok (min_index_from rest 1 0 x)
  end.

(** [xs[i]] *)
Definition list_item (i : nat) (xs : list Q) : result Q :=
  match xs !! i with
  | Some x => Ok x
  | None => Raise IndexError
  end.

(** [max(xs)] on a list of floats. *)
Definition max_list (xs : list Q) : result Q :=
  match xs with
  | [] => Raise ValueError
  | x :: rest => Ok (fold_left max_float rest x)
  end.

(** A [for] loop whose body may raise. *)
Fixpoint for_each {A S : Type} (body : S -> A -> result S) (s : S) (xs : list A)
  : result S :=
  match xs with
  | [] => Ok s
  | x :: rest => s' ← body s x; for_each body s' rest
  end.

(** The loop body of [multi_server_queue] on the pair
    [(server_free_times, total_wait)]. *)
Definition serve (st : list Q * Q) (ev : Q * Q) : result (list Q * Q) :=
  let '(server_free_times, total_wait) := st in
  let '(arrival_time, service_time) := ev in
  idx ← min_index server_free_times;
  free ← list_item idx server_free_times;
  let wait := max_float 0 (free - arrival_time) in
  let total_wait := (total_wait + wait)%Q in
  let start_service := (arrival_time + wait)%Q in
  Ok (<[idx := (start_service + service_time)%Q]> server_free_times, total_wait).

Definition multi_server_queue (arrivals : list (Q * Q)) (num_servers : Z)
  : result (Q * Q) :=
  match arrivals with
  | [] => Ok (0%Q, 0%Q)
  | _ =>
      let server_free_times := replicate (Z.to_nat (Z.max 1 num_servers)) 0%Q in
      '(server_free_times, total_wait) ← for_each serve (server_free_times, 0%Q) arrivals;
      let avg_wait_minutes := ((total_wait / inject_Z (Z.of_nat (length arrivals))) * 60)%Q in
      end_time ← max_list server_free_times;
      Ok (avg_wait_minutes, end_time)
  end.

Section Subpoints.
Variable dump_points : hierarchy.

Definition simulate_subpoint (results : list (string * Q)) (item : string * list (Q * Q))
  : result (list (string * Q)) :=
  let '(subpoint, arrivals) := item in
  match arrivals with
  | [] => Ok (dict_set subpoint 0%Q results)
  | _ =>
      servers ← get_server_count dump_points subpoint;
      '(avg_wait, _) ← multi_server_queue arrivals servers;
      Ok (dict_set subpoint avg_wait results)
  end.

Definition simulate_subpoint_queues (events : list (string * list (Q * Q)))
  : result (list (string * Q)) :=
  for_each simulate_subpoint [] events.
End Subpoints.

End QueueSimulation.

Export QueueSimulation.

(** ** departure_optimizer.py: timing resolver and arrival events *)

Module DepartureOptimizer.

Local Open Scope Q_scope.

(** Reference speed of the timing table, km/h. *)
Definition REFERENCE_SPEED : Q := 25.

(** A row of the timing table.  A cell is [None] when the table holds
    no number there ([pd.notna] is false). *)
Record time_row : Type := {
  travel_parking_loading_h : option Q;
  waiting_for_loading_h : option Q;
  spoting_loading : option Q;
  loading_h : option Q;
  loaded_travel_h : option Q;
  dumping_h : option Q;
  dumping_spoting_h : option Q
}.

(** [RouteTimeLookup]: the mapping that [__init__] builds from the
    table, keyed by stripped upper-case (parking, loading, dump). *)
Record RouteTimeLookup : Type := {
  lookup_rows : list ((string * string * string) * time_row)
}.

Definition key_eqb (a b : string * string * string) : bool :=
  let '(p, l, d) := a in
  let '(p', l', d') := b in
  String.eqb p p' && String.eqb l l' && String.eqb d d'.

Fixpoint find_row (key : string * string * string)
    (rows : list ((string * string * string) * time_row)) : option time_row :=
  match rows with
  | [] => None
  | (k, r) :: rest => if key_eqb key k then Some r else find_row key rest
  end.

Definition get_row (self : RouteTimeLookup) (parking loading dump : string)
  : option time_row :=
  let key := (upper (strip parking), upper (strip loading), upper (strip dump)) in
  find_row key (lookup_rows self).

(** [x / y] on floats. *)
Definition div_float (x y : Q) : result Q :=
  if Qeq_bool y 0 then Raise ZeroDivisionError else Ok (x / y)%Q.

Definition or_default (cell : option Q) (default : Q) : Q :=
  match cell with
  | Some x => x
  | None => default
  end.

Definition compute_route_times (parking loading dump : string)
    (empty_speed loaded_speed : Q) (lookup : option RouteTimeLookup)
  : result (Q * Q) :=
  let row :=
    match lookup with
    | Some l => get_row l parking loading dump
    | None => None
    end in
  let default_wait_loading : Q := 0.10 in
  let default_spot_loading : Q := 0.02 in
  let default_loading_time : Q := 0.25 in
  let default_loaded_travel_distance : Q := 40 in
  let default_empty_travel_distance : Q := 40 in
  let default_service_time : Q := 0.10 in
  match row with
  | Some row =>
      travel_parking_loading ←
        try_except
          (match travel_parking_loading_h row with
           | Some t =>
               let distance_pl := (t * REFERENCE_SPEED)%Q in
               div_float distance_pl empty_speed
           | None => div_float default_empty_travel_distance empty_speed
           end)
          (fun _ => div_float default_empty_travel_distance empty_speed);
      let wait_loading := or_default (waiting_for_loading_h row) default_wait_loading in
      let spot_loading := or_default (spoting_loading row) default_spot_loading in
      let loading_time := or_default (loading_h row) default_loading_time in
      loaded_travel ←
        match loaded_travel_h row with
        | Some t =>
            let distance_ld := (t * REFERENCE_SPEED)%Q in
            div_float distance_ld loaded_speed
        | None => div_float default_loaded_travel_distance loaded_speed
        end;
      let dumping := or_default (dumping_h row) default_service_time in
      let dump_spot := or_default (dumping_spoting_h row) 0%Q in
      let service_time := (dumping + dump_spot)%Q in
      let travel_time :=
        (travel_parking_loading + wait_loading + spot_loading + loading_time
         + loaded_travel)%Q in
      Ok (travel_time, service_time)
  | None =>
      travel_parking_loading ← div_float default_empty_travel_distance empty_speed;
      let wait_loading := default_wait_loading in
      let spot_loading := default_spot_loading in
      let loading_time := default_loading_time in
      loaded_travel ← div_float default_loaded_travel_distance loaded_speed;
      let service_time := default_service_time in
      let travel_time :=
        (travel_parking_loading + wait_loading + spot_loading + loading_time
         + loaded_travel)%Q in
      Ok (travel_time, service_time)
  end.

(** A route's settings.  An absent key is the default its [.get] reads:
    [""] for the two locations and [0] for the truck count; the
    departure time keeps the distinction, since the optimiser writes
    that key. *)
Record route_cfg : Type := {
  loading_location : string;
  dumping_location : string;
  departure_time : option string;
  number_of_trucks : Z
}.

(** contractor -> parking location -> settings, as a value. *)
Definition contractor_configs : Type := list (string * list (string * route_cfg)).

Definition departure_time_or (cfg : route_cfg) (default : string) : string :=
  match departure_time cfg with
  | Some t => t
  | None => default
  end.

(** [range(n)] *)
Definition range (n : Z) : list Z := map Z.of_nat (seq 0 (Z.to_nat n)).

(** [xs.sort(key=lambda x: x[0])]: stable, ascending. *)
Fixpoint insert_by_arrival (x : Q * Q) (xs : list (Q * Q)) : list (Q * Q) :=
  match xs with
  | [] => [x]
  | y :: rest =>
      if Qle_bool (fst x) (fst y) then x :: y :: rest
      else y :: insert_by_arrival x rest
  end.

Definition sort_by_arrival (xs : list (Q * Q)) : list (Q * Q) :=
  fold_right insert_by_arrival [] xs.

(** "H:MM" to fractional hours, as the expression
    [int(parts[0]) + int(parts[1]) / 60.0 if len(parts) == 2 else 7.0]. *)
Definition parse_departure (departure_time_str : string) : result Q :=
  let parts := split ":" departure_time_str in
  if (length parts =? 2)%nat then
    h ← int (nth 0 parts "");
    m ← int (nth 1 parts "");
    Ok (inject_Z h + inject_Z m / 60)%Q
  else Ok 7%Q.

Section Pipeline.
Variable dump_points : hierarchy.
Variables empty_speed loaded_speed : Q.
Variable lookup : option RouteTimeLookup.
Variable spacing : Q.

(** The body of the [try] block for one route; [events] is returned
    unchanged where the code says [continue]. *)
Definition route_arrivals (events : list (string * list (Q * Q)))
    (parking_location : string) (cfg : route_cfg)
  : result (list (string * list (Q * Q))) :=
  let dump_location := dumping_location cfg in
  let loading_location := loading_location cfg in
  let departure_time_str := departure_time_or cfg "7:00" in
  let num_trucks := number_of_trucks cfg in
  if String.eqb dump_location "" || String.eqb loading_location ""
     || (num_trucks <=? 0)%Z
  then Ok events
  else
    match get_main_feni_from_sub_point dump_points dump_location with
    | None => Ok events
    | Some main_feni =>
        depart_hour ← parse_departure departure_time_str;
        '(travel_time, service_time) ←
          compute_route_times parking_location loading_location dump_location
            empty_speed loaded_speed lookup;
        let events :=
          if dict_mem dump_location events then events
          else dict_set dump_location [] events in
        let arrivals :=
          map (fun i => ((depart_hour + travel_time + inject_Z i * spacing)%Q,
                         service_time))
              (range num_trucks) in
        Ok (dict_set dump_location
              (default [] (dict_get dump_location events) ++ arrivals)%list events)
    end.

Definition add_route (events : list (string * list (Q * Q)))
    (route : string * route_cfg) : result (list (string * list (Q * Q))) :=
  let '(parking_location, cfg) := route in
  try_except (route_arrivals events parking_location cfg) (fun _ => Ok events).

Definition add_contractor (events : list (string * list (Q * Q)))
    (item : string * list (string * route_cfg))
  : result (list (string * list (Q * Q))) :=
  let '(contractor, routes) := item in
  for_each add_route events routes.

(** [build_arrival_events], its [events] component (the parallel
    [detailed_events], which only adds labels, is left out). *)
Definition build_arrival_events (configs : contractor_configs)
  : result (list (string * list (Q * Q))) :=
  events ← for_each add_contractor [] configs;
  Ok (map (fun kv => (fst kv, sort_by_arrival (snd kv))) events).


(** *** [simulate_wait_times] *)

(** [lo, hi = map(int, line_str.split('-'))]: the unpacking needs
    exactly two parts and each must be an integer literal. *)
Definition lo_hi (line_str : string) : result (Z * Z) :=
  match split "-" line_str with
  | [a; b] => lo ← int a; hi ← int b; Ok (lo, hi)
  | _ => Raise ValueError
  end.

Definition add_zone_lines (total : Z) (sp_cfg : sub_point_cfg) : result Z :=
  '(lo, hi) ← lo_hi (lines sp_cfg);
  Ok (total + Z.max 1 (hi - lo + 1))%Z.

(** The nested helper [_num_servers_for]. *)
Definition _num_servers_for (sub_point : string) : result Z :=
  match get_main_feni_from_sub_point dump_points sub_point with
  | None => Ok 1%Z
  | Some main =>
      if String.eqb main "" then Ok 1%Z
      else
        match dict_get main dump_points with
        | None => Ok 1%Z
        | Some cfg =>
            match dict_get sub_point (sub_points cfg) with
            | Some sp_cfg =>
                '(lo, hi) ← lo_hi (lines sp_cfg);
                Ok (Z.max 1 (hi - lo + 1))
            | None =>
                total ← for_each add_zone_lines 0%Z (map snd (sub_points cfg));
                Ok (Z.max 1 total)
            end
        end
  end.

(** The inner loop body on [(free_times, total_wait)]. *)
Definition assign (st : list Q * Q) (ev : Q * Q) : result (list Q * Q) :=
  let '(free_times, total_wait) := st in
  let '(arrival_time, service_time) := ev in
  idx ← min_index free_times;
  free ← list_item idx free_times;
  let start := max_float arrival_time free in
  let total_wait := total_wait + (start - arrival_time) in
  Ok (<[idx := start + service_time]> free_times, total_wait).

Definition subpoint_wait (subpoint_waits : list (string * Q))
    (item : string * list (Q * Q)) : result (list (string * Q)) :=
  let '(subpoint, arrivals) := item in
  servers ← _num_servers_for subpoint;
  let free_times := replicate (Z.to_nat servers) 0 in
  let total_wait := 0 in
  match arrivals with
  | [] => Ok (dict_set subpoint 0 subpoint_waits)
  | _ =>
      '(free_times, total_wait) ← for_each assign (free_times, total_wait) arrivals;
      Ok (dict_set subpoint
            ((total_wait / inject_Z (Z.of_nat (length arrivals))) * 60)
            subpoint_waits)
  end.

(** [trucks_per_subpoint] *)
Definition count_route (trucks_per_subpoint : list (string * Z))
    (route : string * route_cfg) : list (string * Z) :=
  let cfg := snd route in
  let dump_location := dumping_location cfg in
  let num_trucks := number_of_trucks cfg in
  if String.eqb dump_location "" then trucks_per_subpoint
  else dict_set dump_location
         (default 0%Z (dict_get dump_location trucks_per_subpoint) + num_trucks)%Z
         trucks_per_subpoint.

Definition count_trucks (configs : contractor_configs) : list (string * Z) :=
  fold_left (fun acc item => fold_left count_route (snd item) acc) configs [].

(** The aggregation loop on [(zone_wait_totals, zone_truck_totals)];
    [d[k] += v] reads [d[k]] first and so raises on a missing key. *)
Definition add_to_zone (trucks_per_subpoint : list (string * Z))
    (st : list (string * Q) * list (string * Z)) (item : string * Q)
  : result (list (string * Q) * list (string * Z)) :=
  let '(zone_wait_totals, zone_truck_totals) := st in
  let '(subpoint, avg_wait) := item in
  match get_main_feni_from_sub_point dump_points subpoint with
  | None => Ok st
  | Some main_feni =>
      let trucks := default 0%Z (dict_get subpoint trucks_per_subpoint) in
      w ← dict_item main_feni zone_wait_totals;
      let zone_wait_totals :=
        dict_set main_feni (w + avg_wait * inject_Z trucks) zone_wait_totals in
      t ← dict_item main_feni zone_truck_totals;
      let zone_truck_totals := dict_set main_feni (t + trucks)%Z zone_truck_totals in
      Ok (zone_wait_totals, zone_truck_totals)
  end.

Definition zone_average (zone_truck_totals : list (string * Z))
    (zone_waits : list (string * Q)) (item : string * Q)
  : result (list (string * Q)) :=
  let '(zone, wait_total) := item in
  t ← dict_item zone zone_truck_totals;
  if (0 <? t)%Z then Ok (dict_set zone (wait_total / inject_Z t) zone_waits)
  else Ok (dict_set zone 0 zone_waits).

(** The zone aggregation of [simulate_wait_times], from the
    sub-point waits and truck counts to [zone_waits]. *)
Definition aggregate_zones (subpoint_waits : list (string * Q))
    (trucks_per_subpoint : list (string * Z)) : result (list (string * Q)) :=
  let zone_wait_totals := [("FENI KM 0", 0); ("FENI KM 15", 0)] in
  let zone_truck_totals := [("FENI KM 0", 0%Z); ("FENI KM 15", 0%Z)] in
  '(zone_wait_totals, zone_truck_totals) ←
    for_each (add_to_zone trucks_per_subpoint)
      (zone_wait_totals, zone_truck_totals) subpoint_waits;
  for_each (zone_average zone_truck_totals) [] zone_wait_totals.

Definition simulate_wait_times (configs : contractor_configs)
  : result (list (string * Q)) :=
  events ← build_arrival_events configs;
  subpoint_waits ← for_each subpoint_wait [] events;
  let trucks_per_subpoint := count_trucks configs in
  aggregate_zones subpoint_waits trucks_per_subpoint.

(** *** The weighted total of [evaluate_departure_for_route] *)

Definition trucks_in_zone (zone : string) (config : contractor_configs) : Z :=
  fold_left
    (fun trucks_zone item =>
       fold_left
         (fun trucks_zone route =>
            let cfg := snd route in
            match get_main_feni_from_sub_point dump_points (dumping_location cfg) with
            | Some main_feni =>
                if String.eqb main_feni zone
                then (trucks_zone + number_of_trucks cfg)%Z
                else trucks_zone
            | None => trucks_zone
            end)
         (snd item) trucks_zone)
    config 0%Z.

Definition weighted_total (config : contractor_configs) (wait_times : list (string * Q))
  : Q :=
  fold_left
    (fun total_wait_minutes zone =>
       total_wait_minutes
       + default 0 (dict_get zone wait_times) * inject_Z (trucks_in_zone zone config))
    ["FENI KM 0"; "FENI KM 15"] 0.

End Pipeline.

End DepartureOptimizer.

Export DepartureOptimizer.

(** ** Configuration objects on the heap

    The optimiser receives a reference to a dictionary of dictionaries
    of dictionaries, copies it with [copy.deepcopy] and assigns into the
    copy.  The three levels of dictionary objects live in three stores,
    addressed by position; the strings and numbers they hold are
    immutable values. *)

Module Heap.

(** References are positions in a store. *)
Abbreviation loc := nat (only parsing).

Record heap : Type := mk_heap {
  top_dicts : list (list (string * loc));
  route_dicts : list (list (string * loc));
  cfg_dicts : list route_cfg
}.

Definition empty_cfg : route_cfg :=
  {| loading_location := ""; dumping_location := "";
     departure_time := None; number_of_trucks := 0 |}.

Definition get_top (σ : heap) (l : loc) : list (string * loc) :=
  default [] (top_dicts σ !! l).
Definition get_routes (σ : heap) (l : loc) : list (string * loc) :=
  default [] (route_dicts σ !! l).
Definition get_cfg (σ : heap) (l : loc) : route_cfg :=
  default empty_cfg (cfg_dicts σ !! l).

(** What iterating [.items()] through the three levels sees. *)
Definition read_routes (σ : heap) (l : loc) : list (string * route_cfg) :=
  map (fun kv => (fst kv, get_cfg σ (snd kv))) (get_routes σ l).
Definition read_config (σ : heap) (l : loc) : contractor_configs :=
  map (fun kv => (fst kv, read_routes σ (snd kv))) (get_top σ l).

(** The root denotes a nested dictionary: every reference reachable
    from it points into its store, and the keys of each dictionary are
    distinct. *)
Definition wf_routes (σ : heap) (l : loc) : bool :=
  bool_decide (l < length (route_dicts σ))%nat
  && bool_decide (NoDup (map fst (get_routes σ l)))
  && forallb (fun kv => bool_decide (snd kv < length (cfg_dicts σ))%nat) (get_routes σ l).
Definition wf_config (σ : heap) (l : loc) : bool :=
  bool_decide (l < length (top_dicts σ))%nat
  && bool_decide (NoDup (map fst (get_top σ l)))
  && forallb (fun kv => wf_routes σ (snd kv)) (get_top σ l).

(** The dictionaries reachable from the root are pairwise distinct
    objects (a nested mapping without sharing, as [json.load] or a
    literal builds it). *)
Definition route_refs (σ : heap) (l : loc) : list loc := map snd (get_top σ l).
Definition cfg_refs (σ : heap) (l : loc) : list loc :=
  concat (map (fun r => map snd (get_routes σ r)) (route_refs σ l)).
Definition unshared (σ : heap) (l : loc) : Prop :=
  NoDup (route_refs σ l) /\ NoDup (cfg_refs σ l).

(** *** [copy.deepcopy] with its memo of already copied objects *)

Definition copy_cfg (st : gmap loc loc * heap) (l : loc) : (gmap loc loc * heap) * loc :=
  let '(memo, σ) := st in
  match memo !! l with
  | Some l' => (st, l')
  | None =>
      let l' := length (cfg_dicts σ) in
      ((<[l := l']> memo,
        mk_heap (top_dicts σ) (route_dicts σ) (cfg_dicts σ ++ [get_cfg σ l])), l')
  end.

(** Copying the values of a dictionary's items, in order. *)
Fixpoint copy_items {S : Type} (copy_value : S -> loc -> S * loc) (st : S)
    (items : list (string * loc)) : S * list (string * loc) :=
  match items with
  | [] => (st, [])
  | (k, l) :: rest =>
      let '(st, l') := copy_value st l in
      let '(st, rest') := copy_items copy_value st rest in
      (st, (k, l') :: rest')
  end.

Definition copy_routes (st : gmap loc loc * (gmap loc loc * heap)) (l : loc)
  : (gmap loc loc * (gmap loc loc * heap)) * loc :=
  let '(memo_r, inner) := st in
  match memo_r !! l with
  | Some l' => (st, l')
  | None =>
      let '((memo_c, σ), items') := copy_items copy_cfg inner (get_routes (snd inner) l) in
      let l' := length (route_dicts σ) in
      ((<[l := l']> memo_r,
        (memo_c, mk_heap (top_dicts σ) (route_dicts σ ++ [items']) (cfg_dicts σ))), l')
  end.

Definition deepcopy (σ : heap) (l : loc) : heap * loc :=
  let '((_, (_, σ)), items') := copy_items copy_routes (∅, (∅, σ)) (get_top σ l) in
  (mk_heap (top_dicts σ ++ [items']) (route_dicts σ) (cfg_dicts σ),
   length (top_dicts σ)).

Definition set_departure_time (cfg : route_cfg) (t : string) : route_cfg :=
  {| loading_location := loading_location cfg;
     dumping_location := dumping_location cfg;
     departure_time := Some t;
     number_of_trucks := number_of_trucks cfg |}.

(** [if contractor in config and route in config[contractor]:
       config[contractor][route]['departure_time'] = t] *)
Definition store_departure (σ : heap) (config : loc) (contractor route t : string) : heap :=
  match dict_get contractor (get_top σ config) with
  | Some r =>
      match dict_get route (get_routes σ r) with
      | Some c =>
          mk_heap (top_dicts σ) (route_dicts σ)
            (<[c := set_departure_time (get_cfg σ c) t]> (cfg_dicts σ))
      | None => σ
      end
  | None => σ
  end.

(** *** Computations on the heap that may raise *)

Definition M (A : Type) : Type := heap -> heap * result A.

Definition ret {A : Type} (a : A) : M A := fun σ => (σ, Ok a).
Definition bind {A B : Type} (m : M A) (k : A -> M B) : M B :=
  fun σ =>
    match m σ with
    | (σ', Ok a) => k a σ'
    | (σ', Raise e) => (σ', Raise e)
    end.
#[global] Instance M_ret : MRet M := @ret.
#[global] Instance M_bind : MBind M := fun A B k m => bind m k.
Definition gets {A : Type} (f : heap -> A) : M A := fun σ => (σ, Ok (f σ)).
Definition modify (f : heap -> heap) : M unit := fun σ => (f σ, Ok tt).
Definition lift {A : Type} (r : result A) : M A := fun σ => (σ, r).
Definition alloc_copy (l : loc) : M loc := fun σ => let '(σ', l') := deepcopy σ l in (σ', Ok l').

Fixpoint for_eachM {A S : Type} (body : S -> A -> M S) (s : S) (xs : list A) : M S :=
  match xs with
  | [] => ret s
  | x :: rest => bind (body s x) (fun s' => for_eachM body s' rest)
  end.

End Heap.

Export Heap.

(** ** departure_optimizer.py: the optimiser *)

Module Optimiser.

Local Open Scope Q_scope.

Section Optimise.
Variable dump_points : hierarchy.
Variables empty_speed loaded_speed : Q.
Variable lookup : option RouteTimeLookup.
Variable spacing : Q.

(** The first half of [evaluate_departure_for_route]: clone the
    configuration, assign the candidate time in the clone, and hand the
    clone to the simulation, which iterates over its items. *)
Definition candidate_config (contractor_configs : loc)
    (contractor route candidate_time : string) (baseline_configs : option loc)
  : M (loc * DepartureOptimizer.contractor_configs) :=
  config ← alloc_copy (match baseline_configs with
                       | Some b => b
                       | None => contractor_configs
                       end);
  _ ← modify (fun σ => store_departure σ config contractor route candidate_time);
  config_items ← gets (fun σ => read_config σ config);
  mret (config, config_items).

Definition evaluate_departure_for_route (contractor_configs : loc)
    (contractor route candidate_time : string) (baseline_configs : option loc)
  : M (Q * list (string * Q)) :=
  '(config, config_items) ← candidate_config contractor_configs contractor route
                              candidate_time baseline_configs;
  wait_times ← lift (simulate_wait_times dump_points empty_speed loaded_speed lookup
                       spacing config_items);
  let total_wait_minutes := weighted_total dump_points config_items wait_times in
  mret (total_wait_minutes, wait_times).

(** [total_wait < best_total_wait], where [None] is [float('inf')]. *)
Definition below (total_wait : Q) (best_total_wait : option Q) : bool :=
  match best_total_wait with
  | None => true
  | Some b => if Qlt_le_dec total_wait b then true else false
  end.

Definition try_candidate (contractor_configs : loc) (contractor route : string)
    (st : string * option Q) (candidate : string) : M (string * option Q) :=
  let '(best_depart, best_total_wait) := st in
  '(total_wait, _) ← evaluate_departure_for_route contractor_configs contractor route
                       candidate (Some contractor_configs);
  if below total_wait best_total_wait then ret (candidate, Some total_wait)
  else ret (best_depart, best_total_wait).

Definition recommendations : Type := list (string * list (string * (string * string))).

Definition optimise_route (contractor_configs : loc) (candidate_times : list string)
    (contractor : string) (recommended : recommendations) (item : string * loc)
  : M recommendations :=
  let '(route, cfg) := item in
  cfg_now ← gets (fun σ => get_cfg σ cfg);
  let current_depart := departure_time_or cfg_now "7:00" in
  '(best_depart, _) ←
    for_eachM (try_candidate contractor_configs contractor route)
      (current_depart, None) candidate_times;
  ret (dict_set contractor
         (dict_set route (current_depart, best_depart)
            (default [] (dict_get contractor recommended)))
         recommended).

Definition optimise_contractor (contractor_configs : loc) (candidate_times : list string)
    (recommended : recommendations) (item : string * loc) : M recommendations :=
  let '(contractor, routes) := item in
  let recommended :=
    if dict_mem contractor recommended then recommended
    else dict_set contractor [] recommended in
  routes_items ← gets (fun σ => get_routes σ routes);
  for_eachM (optimise_route contractor_configs candidate_times contractor)
    recommended routes_items.

Definition apply_recommended (updated_config : loc) (item : string * list (string * (string * string)))
  : M unit :=
  let '(contractor, routes) := item in
  for_eachM
    (fun (_ : unit) (rt : string * (string * string)) =>
       let '(route, times) := rt in
       modify (fun σ => store_departure σ updated_config contractor route (snd times)))
    tt routes.

Definition optimise_departure_times (contractor_configs : loc)
    (candidate_times : list string)
  : M (recommendations * list (string * Q) * list (string * Q)) :=
  original ← gets (fun σ => read_config σ contractor_configs);
  baseline_waits ← lift (simulate_wait_times dump_points empty_speed loaded_speed lookup
                           spacing original);
  top_items ← gets (fun σ => get_top σ contractor_configs);
  recommended ← for_eachM (optimise_contractor contractor_configs candidate_times)
                  [] top_items;
  updated_config ← alloc_copy contractor_configs;
  _ ← for_eachM (fun (_ : unit) item => apply_recommended updated_config item)
        tt recommended;
  updated ← gets (fun σ => read_config σ updated_config);
  optimised_waits ← lift (simulate_wait_times dump_points empty_speed loaded_speed lookup
                            spacing updated);
  ret (recommended, baseline_waits, optimised_waits).

End Optimise.

End Optimiser.

Export Optimiser.

(** ** Sample data used by the concrete statements below *)

Module Samples.

Local Open Scope Q_scope.

(** A hierarchy in the shape of [FENI_DUMP_POINTS] whose one line
    range is not two integers. *)
Definition malformed_points : hierarchy :=
  [ ("FENI KM 0",
     {| location_code := "FENI KM0";
        distance_base := "FENI KM0";
        sub_points := [ sp "FENI A (LINE 1-2)" "1-two" 1 ] |}) ].

Definition route (loading dump depart : string) (trucks : Z) : route_cfg :=
  {| loading_location := loading; dumping_location := dump;
     departure_time := Some depart; number_of_trucks := trucks |}.

(** One contractor, one route, two trucks, with the given departure. *)
Definition one_route (depart : string) : contractor_configs :=
  [ ("RIM", [ ("TF", route "TF" "FENI A (LINE 1-2)" depart 2) ]) ].

(** The two trucks of the one-server scenario. *)
Definition two_trucks : list (Q * Q) := [ (7.0, 0.1); (7.02, 0.1) ].

(** Three routes of two contractors, stored as objects. *)
Definition small_heap : heap :=
  mk_heap
    [ [ ("RIM", 0%nat); ("GMG", 1%nat) ] ]
    [ [ ("TF", 0%nat); ("KR", 1%nat) ]; [ ("TF", 2%nat) ] ]
    [ route "TF" "FENI U1 (LINE 65-66)" "7:00" 3;
      route "KR" "FENI U1 (LINE 65-66)" "7:00" 2;
      route "KR" "FENI A (LINE 1-2)" "6:00" 4 ].

Definition small_candidates : list string := [ "6:00"; "7:00"; "7:30" ].

End Samples.

Export Samples.

(** ** Notions used to state the properties *)

Module Notions.

Local Open Scope Q_scope.

(** The event list is in ascending order of arrival time. *)
Fixpoint sorted_by_arrival (xs : list (Q * Q)) : bool :=
  match xs with
  | [] => true
  | x :: rest =>
      match rest with
      | [] => true
      | y :: _ => Qle_bool (fst x) (fst y) && sorted_by_arrival rest
      end
  end.

(** Whether a server that is free from [x] on is free by time [t],
    as a number, and how many servers of a pool are. *)
Definition free_by (t x : Q) : nat := if Qle_bool x t then 1%nat else 0%nat.

Fixpoint count_le (t : Q) (free_times : list Q) : nat :=
  match free_times with
  | [] => 0
  | x :: rest => (free_by t x + count_le t rest)%nat
  end.

(** Pool [vs] is ahead of pool [ws]: by any time, at least as many of
    its servers are free. *)
Definition ahead (vs ws : list Q) : Prop :=
  forall t, (count_le t ws <= count_le t vs)%nat.

(** The zone average in the words of the specification: the sum over
    the zone's sub-points of wait times truck count, over the zone's
    truck count, and 0 for a zone without trucks. *)
Definition in_zone (points : hierarchy) (zone subpoint : string) : bool :=
  match get_main_feni_from_sub_point points subpoint with
  | Some main => String.eqb main zone
  | None => false
  end.

Fixpoint spec_zone_wait (points : hierarchy) (zone : string)
    (waits : list (string * Q)) (trucks : list (string * Z)) : Q :=
  match waits with
  | [] => 0
  | (subpoint, avg_wait) :: rest =>
      (if in_zone points zone subpoint
       then avg_wait * inject_Z (default 0%Z (dict_get subpoint trucks))
       else 0)
      + spec_zone_wait points zone rest trucks
  end.

Fixpoint spec_zone_trucks (points : hierarchy) (zone : string)
    (waits : list (string * Q)) (trucks : list (string * Z)) : Z :=
  match waits with
  | [] => 0%Z
  | (subpoint, _) :: rest =>
      ((if in_zone points zone subpoint
        then default 0%Z (dict_get subpoint trucks)
        else 0)
       + spec_zone_trucks points zone rest trucks)%Z
  end.

Definition spec_zone_average (points : hierarchy) (zone : string)
    (waits : list (string * Q)) (trucks : list (string * Z)) : Q :=
  if (0 <? spec_zone_trucks points zone waits trucks)%Z
  then spec_zone_wait points zone waits trucks
       / inject_Z (spec_zone_trucks points zone waits trucks)
  else 0.

(** *** The candidate configuration, as a value

    "Clone the original full configuration, overwrite only this route's
    departure_time": the first route under the key [route] of the first
    contractor under the key [contractor] gets the new time; nothing
    else changes. *)
Fixpoint with_departure_route (route t : string) (routes : list (string * route_cfg))
  : list (string * route_cfg) :=
  match routes with
  | [] => []
  | (k, cfg) :: rest =>
      if String.eqb route k then (k, set_departure_time cfg t) :: rest
      else (k, cfg) :: with_departure_route route t rest
  end.

Fixpoint with_departure (contractor route t : string) (config : contractor_configs)
  : contractor_configs :=
  match config with
  | [] => []
  | (k, routes) :: rest =>
      if String.eqb contractor k then (k, with_departure_route route t routes) :: rest
      else (k, routes) :: with_departure contractor route t rest
  end.

(** The settings object that [config[contractor][route]] denotes. *)
Definition target (σ : heap) (top_items : list (string * loc)) (contractor route : string)
  : option loc :=
  match dict_get contractor top_items with
  | Some r => dict_get route (get_routes σ r)
  | None => None
  end.

(** Reading the items of a dictionary through a view of the settings. *)
Definition view_routes (see : loc -> route_cfg) (items : list (string * loc))
  : list (string * route_cfg) :=
  map (fun kv => (fst kv, see (snd kv))) items.

Definition view_config (σ : heap) (see : loc -> route_cfg) (top_items : list (string * loc))
  : contractor_configs :=
  map (fun kv => (fst kv, view_routes see (get_routes σ (snd kv)))) top_items.

(** The view after the settings object [c_] has its departure time
    replaced by [t]. *)
Definition assigned (see : loc -> route_cfg) (c_ : loc) (t : string) (x : loc) : route_cfg :=
  if decide (x = c_) then set_departure_time (see c_) t else see x.

(** *** The deep copy of an unshared configuration, in closed form

    New settings objects get consecutive references in the order of
    iteration, and so do the new route dictionaries. *)
Definition fresh_refs (base : nat) (items : list (string * loc)) : list (string * loc) :=
  zip (map fst items) (seq base (length items)).

Fixpoint relocate (base : nat) (dicts : list (list (string * loc)))
  : list (list (string * loc)) :=
  match dicts with
  | [] => []
  | d :: rest => fresh_refs base d :: relocate (base + length d) rest
  end.

Definition plain_copy (σ : heap) (l : loc) : heap :=
  let top_items := get_top σ l in
  mk_heap (top_dicts σ ++ [fresh_refs (length (route_dicts σ)) top_items])
          (route_dicts σ
           ++ relocate (length (cfg_dicts σ))
                (map (fun kv => get_routes σ (snd kv)) top_items))
          (cfg_dicts σ
           ++ map (get_cfg σ)
                (concat (map (fun kv => map snd (get_routes σ (snd kv))) top_items))).

(** *** The search, on configuration values

    What one route's candidate loop computes when every candidate is
    simulated on [with_departure] of one fixed configuration. *)
Definition evaluate_on (points : hierarchy) (empty_speed loaded_speed : Q)
    (lookup : option RouteTimeLookup) (spacing : Q) (config : contractor_configs)
  : result (Q * list (string * Q)) :=
  wait_times ← simulate_wait_times points empty_speed loaded_speed lookup spacing config;
  Ok (weighted_total points config wait_times, wait_times).

Definition search_step (eval : string -> result (Q * list (string * Q)))
    (st : string * option Q) (candidate : string) : result (string * option Q) :=
  let '(best_depart, best_total_wait) := st in
  '(total_wait, _) ← eval candidate;
  if below total_wait best_total_wait then Ok (candidate, Some total_wait)
  else Ok (best_depart, best_total_wait).

Definition search (eval : string -> result (Q * list (string * Q)))
    (current : string) (candidates : list string) : result (string * option Q) :=
  for_each (search_step eval) (current, None) candidates.

(** The entry of a recommendation table, and of a configuration, under
    a contractor and a route. *)
Definition entry_of {V : Type} (contractor route : string)
    (table : list (string * list (string * V))) : option V :=
  match dict_get contractor table with
  | Some routes => dict_get route routes
  | None => None
  end.

(** Every recommendation in the table is the outcome of the search for
    its route over the candidates, each simulated on the configuration
    [original] with that route's departure time replaced. *)
Definition searched_on (points : hierarchy) (empty_speed loaded_speed : Q)
    (lookup : option RouteTimeLookup) (spacing : Q) (original : contractor_configs)
    (candidates : list string) (recommended : recommendations) : Prop :=
  forall contractor route current optimal,
    entry_of contractor route recommended = Some (current, optimal) ->
    exists best_total,
      search (fun t => evaluate_on points empty_speed loaded_speed lookup spacing
                         (with_departure contractor route t original))
        current candidates
      = Ok (optimal, best_total).



(** *** Heaps over time *)

(** Heap [σ'] still holds every object of [σ], unchanged, at the same
    place. *)
Definition extends (σ σ' : heap) : Prop :=
  top_dicts σ `prefix_of` top_dicts σ'
  /\ route_dicts σ `prefix_of` route_dicts σ'
  /\ cfg_dicts σ `prefix_of` cfg_dicts σ'.

Definition refs_from (bound : nat) (items : list (string * loc)) : Prop :=
  Forall (fun kv => (bound <= snd kv)%nat) items.

(** The objects of [σ0] are untouched in [σ], and the dictionaries made
    since [σ0] only refer to dictionaries made since [σ0]. *)
Record frame (σ0 σ : heap) : Prop := {
  frame_extends : extends σ0 σ;
  frame_tops : forall t items,
    (length (top_dicts σ0) <= t)%nat -> top_dicts σ !! t = Some items ->
    refs_from (length (route_dicts σ0)) items;
  frame_routes : forall r items,
    (length (route_dicts σ0) <= r)%nat -> route_dicts σ !! r = Some items ->
    refs_from (length (cfg_dicts σ0)) items
}.

(** Computation [m] keeps the frame of [σ0], whether it returns or
    raises, and what it returns satisfies [Q]. *)
Definition keeps {A : Type} (σ0 : heap) (m : M A) (Q : A -> Prop) : Prop :=
  forall σ, frame σ0 σ ->
    frame σ0 (fst (m σ)) /\ forall a, snd (m σ) = Ok a -> Q a.

(** What holds of the memo and heap while [deepcopy] runs: the memo
    only maps to objects made since [σ0]. *)
Definition cfg_copy_state (σ0 : heap) (st : gmap loc loc * heap) : Prop :=
  frame σ0 (snd st)
  /\ map_Forall (fun _ v => (length (cfg_dicts σ0) <= v)%nat) (fst st).

Definition route_copy_state (σ0 : heap) (st : gmap loc loc * (gmap loc loc * heap)) : Prop :=
  map_Forall (fun _ v => (length (route_dicts σ0) <= v)%nat) (fst st)
  /\ cfg_copy_state σ0 (snd st).

(** Computation [m] returns, whatever the heap: it never raises. *)
Definition returns {A : Type} (m : M A) : Prop :=
  forall σ, exists σ' a, m σ = (σ', Ok a).

(** Every range string of the hierarchy reads as two integers. *)
Definition ranges_ok (zone : zone_cfg) : bool :=
  forallb (fun kv => match lo_hi (lines (snd kv)) with
                     | Ok _ => true
                     | Raise _ => false
                     end)
    (sub_points zone).

(** A hierarchy whose zone names are distinct and not empty and whose
    ranges all read. *)
Definition hierarchy_ok (points : hierarchy) : bool :=
  bool_decide (NoDup (map fst points))
  && forallb (fun kv => negb (String.eqb (fst kv) "") && ranges_ok (snd kv)) points.

End Notions.

Export Notions.

(** ** config.py: further helpers *)

Module ConfigHelpers.

(** [x in [a, b, ...]] for a list of strings. *)
Definition list_mem (x : string) (xs : list string) : bool := existsb (String.eqb x) xs.

(** The loop of [get_distance_base_for_feni]: the [distance_base] of
    the first zone that has the name as a sub-point. *)
Fixpoint distance_base_of_sub_point (points : hierarchy) (dump_location : string)
  : option string :=
  match points with
  | [] => None
  | (main_feni, config) :: rest =>
      if dict_mem dump_location (sub_points config) then Some (distance_base config)
      else distance_base_of_sub_point rest dump_location
  end.

Definition get_distance_base_for_feni (points : hierarchy) (dump_location : string) : string :=
  if list_mem dump_location ["FENI KM0"; "FENI KM15"] then dump_location
  else match distance_base_of_sub_point points dump_location with
       | Some base => base
       | None => dump_location
       end.

(** [sorted(xs)] on strings: ascending in the order of [str], which
    compares character codes from the left. *)
Fixpoint insert_sorted (x : string) (xs : list string) : list string :=
  match xs with
  | [] => [x]
  | y :: rest => if String.leb x y then x :: y :: rest else y :: insert_sorted x rest
  end.

Definition sorted (xs : list string) : list string := fold_right insert_sorted [] xs.

Definition get_all_feni_dump_options (points : hierarchy) : list string :=
  let options :=
    fold_left (fun options item => options ++ map fst (sub_points (snd item)))%list
      points [] in
  sorted options.

End ConfigHelpers.

Export ConfigHelpers.

(** ** Callers in data_handlers.py and ui_components.py *)

Module Callers.

(** [data_handlers.validate_time_format]; of the two exceptions it
    catches, a string argument can only raise [ValueError]. *)
Definition validate_time_format (time_str : string) : result bool :=
  try_except
    (let parts := split ":" time_str in
     if negb (length parts =? 2)%nat then Ok false
     else
       hours ← int (nth 0 parts "");
       minutes ← int (nth 1 parts "");
       Ok ((0 <=? hours) && (hours <=? 23) && ((0 <=? minutes) && (minutes <=? 59))))
    (fun e => match e with
              | ValueError => Ok false
              | _ => Raise e
              end).

(** [ui_components.get_used_individual_dump_locations]: the body of
    the inner loop on [used_locations]. *)
Definition use_route (points : hierarchy) (main_dump_site : string)
    (used_locations : list (string * Z)) (route : string * route_cfg) : list (string * Z) :=
  let config := snd route in
  let dumping_location := dumping_location config in
  match get_main_feni_from_sub_point points dumping_location with
  | Some main_feni =>
      if String.eqb main_feni main_dump_site then
        let truck_count := number_of_trucks config in
        if (0 <? truck_count)%Z then
          match dict_get dumping_location used_locations with
          | Some n => dict_set dumping_location (n + truck_count)%Z used_locations
          | None => dict_set dumping_location truck_count used_locations
          end
        else used_locations
      else used_locations
  | None => used_locations
  end.

Definition get_used_individual_dump_locations (points : hierarchy)
    (contractor_configs : DepartureOptimizer.contractor_configs) (main_dump_site : string)
  : list (string * Z) :=
  match contractor_configs with
  | [] => []
  | _ =>
      fold_left
        (fun used_locations item =>
           fold_left (use_route points main_dump_site) (snd item) used_locations)
        contractor_configs []
  end.

End Callers.

Export Callers.

(** ** departure_optimizer.py: further functions *)

Module OptimizerHelpers.

Local Open Scope Q_scope.

(** A row of the timing sheet as [RouteTimeLookup.__init__] reads it:
    the [str()] of its three name cells, and its timing cells. *)
Record table_row : Type := {
  parking_origin : string;
  loading_origin : string;
  dumping_destination : string;
  timing : time_row
}.

(** [self.lookup[key] = idx], with the row that [self.df.loc[idx]]
    returns stored in place of its index. *)
Fixpoint key_set (key : string * string * string) (row : time_row)
    (rows : list ((string * string * string) * time_row))
  : list ((string * string * string) * time_row) :=
  match rows with
  | [] => [(key, row)]
  | (k, r) :: rest =>
      if key_eqb key k then (k, row) :: rest else (k, r) :: key_set key row rest
  end.

Definition row_key (row : table_row) : string * string * string :=
  (upper (strip (parking_origin row)),
   upper (strip (loading_origin row)),
   upper (strip (dumping_destination row))).

(** [RouteTimeLookup(df)]: [None] is a missing sheet; an empty sheet
    gives the same empty lookup.  Every row has its three name cells,
    so the loop's [except: continue] is never taken. *)
Definition RouteTimeLookup_init (df : option (list table_row)) : RouteTimeLookup :=
  match df with
  | None => {| lookup_rows := [] |}
  | Some rows =>
      {| lookup_rows :=
           fold_left (fun lookup row => key_set (row_key row) (timing row) lookup) rows [] |}
  end.

End OptimizerHelpers.

Export OptimizerHelpers.

(** ** queue_simulation.py on binary64 numbers *)

(** Python's [float] is IEEE 754 binary64: [+], [-], [*], [/] round to
    nearest, ties to even, and the comparisons are the IEEE ones, as the
    operations of the primitive floats do; a decimal literal denotes the
    nearest binary64 number in both.  This module repeats
    [multi_server_queue] (lines 111-124) over them. *)

Module Binary64.

Import PrimFloat.

(** [max(a, b)]: [b] when [b > a], else [a]. *)
Definition max_float (a b : float) : float := if ltb a b then b else a.

(** [min(range(len(xs)), key=lambda i: xs[i])]: the first index of a
    least element; [ValueError] on an empty range. *)
Fixpoint min_index_from (xs : list float) (i best : nat) (best_v : float) : nat :=
  match xs with
  | [] => best
  | x :: rest =>
      if ltb x best_v then min_index_from rest (S i) i x
      else min_index_from rest (S i) best best_v
  end.

Definition min_index (xs : list float) : result nat :=
  match xs with
  | [] => Raise ValueError
  | x :: rest => Ok (min_index_from rest 1 0 x)
  end.

(** [xs[i]] *)
Definition list_item (i : nat) (xs : list float) : result float :=
  match xs !! i with
  | Some x => Ok x
  | None => Raise IndexError
  end.

(** [max(xs)] on a list of floats. *)
Definition max_list (xs : list float) : result float :=
  match xs with
  | [] => Raise ValueError
  | x :: rest => Ok (fold_left max_float rest x)
  end.

(** [float(n)] for a list length [n]; exact below [2^53]. *)
Definition of_len (n : nat) : float := of_uint63 (Uint63.of_Z (Z.of_nat n)).

(** The loop body of [multi_server_queue] on the pair
    [(server_free_times, total_wait)]. *)
Definition serve (st : list float * float) (ev : float * float)
  : result (list float * float) :=
  let '(server_free_times, total_wait) := st in
  let '(arrival_time, service_time) := ev in
  idx ← min_index server_free_times;
  free ← list_item idx server_free_times;
  let wait := max_float 0.0 (free - arrival_time) in
  let total_wait := (total_wait + wait)%float in
  let start_service := (arrival_time + wait)%float in
  Ok (<[idx := (start_service + service_time)%float]> server_free_times, total_wait).

Definition multi_server_queue (arrivals : list (float * float)) (num_servers : Z)
  : result (float * float) :=
  match arrivals with
  | [] => Ok (0.0, 0.0)%float
  | _ =>
      let server_free_times := replicate (Z.to_nat (Z.max 1 num_servers)) 0.0%float in
      '(server_free_times, total_wait) ← for_each serve (server_free_times, 0.0%float) arrivals;
      let avg_wait_minutes := ((total_wait / of_len (length arrivals)) * 60.0)%float in
      end_time ← max_list server_free_times;
      Ok (avg_wait_minutes, end_time)
  end.

(** The rational number a finite float stands for: [(-1)^s * m * 2^e]. *)
Definition to_Q (x : float) : option Q :=
  match FloatOps.Prim2SF x with
  | SpecFloat.S754_zero _ => Some 0%Q
  | SpecFloat.S754_finite s m e =>
      Some ((if s then -1 else 1) * inject_Z (Z.pos m) * 2 ^ e)%Q
  | _ => None
  end.

End Binary64.

(** ** Further sample data *)

Module MoreSamples.

(** A row of the timing sheet with mixed case and blanks in its names. *)
Definition sample_row : table_row :=
  {| parking_origin := " tf "; loading_origin := "Kr"; dumping_destination := "FENI KM0";
     timing := {| travel_parking_loading_h := Some 1%Q;
                  waiting_for_loading_h := None;
                  spoting_loading := None;
                  loading_h := None;
                  loaded_travel_h := Some 2%Q;
                  dumping_h := None;
                  dumping_spoting_h := None |} |}.

(** One settings dictionary stored under two route keys, as in
    [cfg = {...}; contractor_configs = {"RIM": {"TF": cfg, "KR": cfg}}]. *)
Definition shared_heap : heap :=
  mk_heap
    [ [ ("RIM", 0%nat) ] ]
    [ [ ("TF", 0%nat); ("KR", 0%nat) ] ]
    [ route "TF" "FENI U1 (LINE 65-66)" "7:00" 3 ].

End MoreSamples.

Export MoreSamples.

(** ** Notions used to state the further properties *)

Module MoreNotions.

Local Open Scope Q_scope.

(** A list of strings in ascending order. *)
Fixpoint ascending (xs : list string) : bool :=
  match xs with
  | [] => true
  | x :: rest =>
      match rest with
      | [] => true
      | y :: _ => String.leb x y && ascending rest
      end
  end.

(** The configuration with the recommended times written in: for every
    entry of the table, in its order, that route's departure time is
    replaced by the entry's [optimal]. *)
Definition apply_route_times (contractor : string) (config : contractor_configs)
    (routes : list (string * (string * string))) : contractor_configs :=
  fold_left (fun config rt => with_departure contractor (fst rt) (snd (snd rt)) config)
    routes config.

Definition apply_times (recommended : recommendations) (config : contractor_configs)
  : contractor_configs :=
  fold_left (fun config item => apply_route_times (fst item) config (snd item))
    recommended config.

(** Whether a computation returned. *)
Definition is_ok {A : Type} (r : result A) : bool :=
  match r with
  | Ok _ => true
  | Raise _ => false
  end.

(** The routes [build_arrival_events] accepts, those that reach the
    loop over the trucks: locations not empty, a positive truck count,
    a sub-point of the hierarchy, a departure time and route times that
    do not raise. *)
Definition accepted (points : hierarchy) (empty_speed loaded_speed : Q)
    (lookup : option RouteTimeLookup) (route : string * route_cfg) : bool :=
  let cfg := snd route in
  negb (String.eqb (dumping_location cfg) "")
  && negb (String.eqb (loading_location cfg) "")
  && (0 <? number_of_trucks cfg)%Z
  && bool_decide (is_Some (get_main_feni_from_sub_point points (dumping_location cfg)))
  && is_ok (parse_departure (departure_time_or cfg "7:00"))
  && is_ok (compute_route_times (fst route) (loading_location cfg) (dumping_location cfg)
              empty_speed loaded_speed lookup).

(** The trucks of the routes that name [s] as their dumping location:
    those of the routes that [keep] selects, and all of them. *)
Definition trucks_where (keep : string * route_cfg -> bool) (s : string)
    (configs : contractor_configs) : Z :=
  fold_right
    (fun item total =>
       (fold_right
          (fun route total =>
             ((if keep route && String.eqb (dumping_location (snd route)) s
               then number_of_trucks (snd route) else 0) + total)%Z)
          0%Z (snd item)
        + total)%Z)
    0%Z configs.

Definition trucks_at (s : string) (configs : contractor_configs) : Z :=
  trucks_where (fun _ => true) s configs.

(** The last row of the sheet whose names give the key. *)
Fixpoint last_row_named (key : string * string * string) (rows : list table_row)
  : option table_row :=
  match rows with
  | [] => None
  | row :: rest =>
      match last_row_named key rest with
      | Some r => Some r
      | None => if key_eqb key (row_key row) then Some row else None
      end
  end.

End MoreNotions.

Export MoreNotions.

(** * Properties *)

Local Open Scope list_scope.

(** ** The result monad and loops *)

Lemma for_each_total {A S : Type} (body : S -> A -> result S) :
  (forall s x, exists s', body s x = Ok s') ->
  forall xs s, exists s', for_each body s xs = Ok s'.
Proof.
  intros Hbody xs. induction xs as [|x xs IH]; intros s; simpl.
  - eauto.
  - destruct (Hbody s x) as [s' ->]. simpl. apply IH.
Qed.

Lemma for_each_cons {A S : Type} (body : S -> A -> result S) (s : S) (x : A) (xs : list A) :
  for_each body s (x :: xs) = (s' ← body s x; for_each body s' xs).
Proof. reflexivity. Qed.

Lemma bind_ok {A B : Type} (a : A) (k : A -> result B) : (Ok a ≫= k) = k a.
Proof. reflexivity. Qed.

Lemma try_except_recovers {A : Type} (body : result A) (a : A) :
  exists r, try_except body (fun _ => Ok a) = Ok r.
Proof. destruct body; simpl; eauto. Qed.

(** ** Server counts *)

(** A name that is no zone's sub-point is never mapped to a zone. *)
Lemma explicit_none_main_none (points : hierarchy) (name : string) :
  explicit_sub_point points name = Ok None ->
  get_main_feni_from_sub_point points name = None.
Proof.
  induction points as [|[main cfg] rest IH]; simpl; [reflexivity|].
  unfold dict_mem. destruct (dict_get name (sub_points cfg)) as [sp_cfg|].
  - destruct (try_except _ _) as [[n|]|e]; simpl; discriminate.
  - exact IH.
Qed.

(** So the summing branch of [get_server_count] is never taken: every
    name outside the sub-point tables gets the fallback. *)
Lemma get_server_count_unresolved (points : hierarchy) (name : string) :
  explicit_sub_point points name = Ok None ->
  get_server_count points name = Ok 2.
Proof.
  intros H. unfold get_server_count.
  destruct (String.eqb name ""); [reflexivity|].
  rewrite H. simpl. rewrite (explicit_none_main_none _ _ H). reflexivity.
Qed.

(** C1 (the code departs from the claim): at the two zone names
    [get_server_count] returns the fallback 2, while the server counts
    of the zones' sub-points add up to 60 and 8. *)
Theorem get_server_count_zone_names_fallback :
  get_server_count FENI_DUMP_POINTS "FENI KM 0" = Ok 2
  /\ get_server_count FENI_DUMP_POINTS "FENI KM 15" = Ok 2
  /\ (zone ← dict_item "FENI KM 0" FENI_DUMP_POINTS; sum_lines 0 (sub_points zone)) = Ok 60
  /\ (zone ← dict_item "FENI KM 15" FENI_DUMP_POINTS; sum_lines 0 (sub_points zone)) = Ok 8.
Proof. repeat split; vm_compute; reflexivity. Qed.

(** C8 (the code departs from the claim): on a sub-point whose range is
    ["1-two"], [get_server_count] recovers with 1 server, but
    [_num_servers_for], the helper [simulate_wait_times] uses, raises
    [ValueError], and so does the whole simulation. *)
Theorem malformed_range_raises_in_pipeline :
  get_server_count malformed_points "FENI A (LINE 1-2)" = Ok 1
  /\ _num_servers_for malformed_points "FENI A (LINE 1-2)" = Raise ValueError
  /\ simulate_wait_times malformed_points 40 30 None 0.02 (one_route "7:00")
     = Raise ValueError.
Proof. repeat split; vm_compute; reflexivity. Qed.

(** The general half that holds for [get_server_count]: whatever the
    range string of a sub-point, the function returns and never raises. *)
Lemma line_range_recovers (line_str : string) :
  exists r, try_except (line_range_try line_str) (fun _ => Ok None) = Ok r.
Proof. apply try_except_recovers. Qed.

Lemma explicit_sub_point_total (points : hierarchy) (name : string) :
  exists r, explicit_sub_point points name = Ok r.
Proof.
  induction points as [|[main cfg] rest IH]; simpl; [eauto|].
  destruct (dict_get name (sub_points cfg)) as [sp_cfg|]; [|exact IH].
  destruct (line_range_recovers (lines sp_cfg)) as [[n|] ->]; simpl; eauto.
Qed.

Lemma add_lines_total (total : Z) (sp_cfg : sub_point_cfg) :
  exists r, add_lines total sp_cfg = Ok r.
Proof. unfold add_lines. apply try_except_recovers. Qed.

Lemma sum_lines_total (sps : list (string * sub_point_cfg)) (total : Z) :
  exists r, sum_lines total sps = Ok r.
Proof.
  revert total. induction sps as [|[k sp_cfg] rest IH]; intros total; simpl; [eauto|].
  destruct (add_lines_total total sp_cfg) as [r ->]. simpl. apply IH.
Qed.

Lemma get_server_count_total (points : hierarchy) (name : string) :
  exists n, get_server_count points name = Ok n.
Proof.
  unfold get_server_count. destruct (String.eqb name ""); [eauto|].
  destruct (explicit_sub_point_total points name) as [[n|] ->]; simpl; [eauto|].
  destruct (get_main_feni_from_sub_point points name) as [main|]; [|eauto].
  destruct (negb (String.eqb main "")); [|eauto].
  destruct (dict_get main points) as [zone|]; [|eauto].
  destruct (sum_lines_total (sub_points zone) 0) as [t ->]. simpl. eauto.
Qed.

(** A range that [lo, hi = map(int, ...)] rejects makes
    [get_server_count] answer 1 at that sub-point. *)
Lemma line_range_malformed (line_str : string) (e : exn) :
  lo_hi line_str = Raise e ->
  try_except (line_range_try line_str) (fun _ => Ok None) = Ok None.
Proof.
  unfold lo_hi, line_range_try.
  destruct (split "-" line_str) as [|a [|b [|c parts]]]; simpl; try reflexivity.
  destruct (int a) as [lo|ea]; simpl; [|reflexivity].
  destruct (int b) as [hi|eb]; simpl; [discriminate|reflexivity].
Qed.

Lemma get_server_count_malformed (main name : string) (zone : zone_cfg)
    (sp_cfg : sub_point_cfg) (rest : hierarchy) (e : exn) :
  name <> "" ->
  dict_get name (sub_points zone) = Some sp_cfg ->
  lo_hi (lines sp_cfg) = Raise e ->
  get_server_count ((main, zone) :: rest) name = Ok 1.
Proof.
  intros Hname Hsp Hbad. unfold get_server_count.
  destruct (String.eqb_spec name ""); [contradiction|].
  simpl. rewrite Hsp. rewrite (line_range_malformed _ _ Hbad). reflexivity.
Qed.

(** ** Arrival events *)

(** Building the events never raises: each route runs inside its own
    [try] block. *)
Lemma build_arrival_events_total (points : hierarchy) (empty_speed loaded_speed : Q)
    (lookup : option RouteTimeLookup) (spacing : Q) (configs : contractor_configs) :
  exists events,
    build_arrival_events points empty_speed loaded_speed lookup spacing configs = Ok events.
Proof.
  unfold build_arrival_events.
  destruct (for_each_total (add_contractor points empty_speed loaded_speed lookup spacing))
    with (xs := configs) (s := @nil (string * list (Q * Q))) as [events ->].
  - intros s [contractor routes]. unfold add_contractor.
    apply for_each_total. intros s' [parking cfg]. unfold add_route.
    apply try_except_recovers.
  - simpl. eauto.
Qed.

(** A departure string without exactly one colon reads as 7.0. *)
Lemma parse_departure_default (t : string) :
  length (split ":" t) <> 2%nat -> parse_departure t = Ok 7%Q.
Proof.
  intros H. unfold parse_departure.
  destruct (Nat.eqb_spec (length (split ":" t)) 2); [contradiction|reflexivity].
Qed.

(** C2 (the code departs from the claim): a route whose departure time
    is ["ab:cd"] splits into two parts that are no integers; [int]
    raises inside the route's [try] block and the route contributes no
    event at all, where the claim expects the events of a 7:00
    departure.  A string without a colon, such as ["abc"], does take the
    default and yields exactly the events of ["7:00"]. *)
Theorem unparsable_departure_route_skipped :
  build_arrival_events FENI_DUMP_POINTS 40 30 None 0.02 (one_route "ab:cd") = Ok []
  /\ (exists a1 a2 b1 b2 s,
        build_arrival_events FENI_DUMP_POINTS 40 30 None 0.02 (one_route "abc")
        = Ok [("FENI A (LINE 1-2)", [(a1, s); (a2, s)])]
        /\ build_arrival_events FENI_DUMP_POINTS 40 30 None 0.02 (one_route "7:00")
           = Ok [("FENI A (LINE 1-2)", [(b1, s); (b2, s)])]
        /\ (a1 == b1)%Q /\ (a2 == b2)%Q).
Proof.
  split; [vm_compute; reflexivity|].
  eexists _, _, _, _, _.
  split; [vm_compute; reflexivity|].
  split; [vm_compute; reflexivity|].
  split; reflexivity.
Qed.

(** ** The multi-server queue *)

Lemma max_float_l (a b : Q) : (a <= max_float a b)%Q.
Proof. unfold max_float. destruct (Qlt_le_dec a b); lra. Qed.

Lemma max_float_r (a b : Q) : (b <= max_float a b)%Q.
Proof. unfold max_float. destruct (Qlt_le_dec a b); lra. Qed.

Lemma max_float_mono (a b b' : Q) : (b <= b')%Q -> (max_float a b <= max_float a b')%Q.
Proof. intros H. unfold max_float. destruct (Qlt_le_dec a b), (Qlt_le_dec a b'); lra. Qed.

(** [min_index_from] scans the rest of a list whose scanned prefix has
    its first least element at [best]. *)
Lemma min_index_from_least (xs pre : list Q) (best : nat) (best_v : Q) :
  pre !! best = Some best_v ->
  (forall y, y ∈ pre -> (best_v <= y)%Q) ->
  exists v,
    (pre ++ xs) !! min_index_from xs (length pre) best best_v = Some v
    /\ forall y, y ∈ pre ++ xs -> (v <= y)%Q.
Proof.
  revert pre best best_v.
  induction xs as [|x xs IH]; intros pre best best_v Hbest Hleast; simpl.
  - exists best_v. rewrite app_nil_r. auto.
  - replace (pre ++ x :: xs) with ((pre ++ [x]) ++ xs) by (rewrite <- app_assoc; reflexivity).
    replace (S (length pre)) with (length (pre ++ [x])) by (rewrite length_app; simpl; lia).
    destruct (Qlt_le_dec x best_v) as [Hlt|Hle].
    + apply IH.
      * rewrite lookup_app_r by lia. rewrite Nat.sub_diag. reflexivity.
      * intros y Hy. apply elem_of_app in Hy as [Hy|Hy].
        -- specialize (Hleast y Hy). lra.
        -- apply list_elem_of_singleton in Hy. subst y. lra.
    + apply IH.
      * rewrite lookup_app_l; [exact Hbest|]. eapply lookup_lt_Some; eauto.
      * intros y Hy. apply elem_of_app in Hy as [Hy|Hy].
        -- auto.
        -- apply list_elem_of_singleton in Hy. subst y. exact Hle.
Qed.

Lemma min_index_least (xs : list Q) :
  xs <> [] ->
  exists idx v,
    min_index xs = Ok idx /\ xs !! idx = Some v /\ forall y, y ∈ xs -> (v <= y)%Q.
Proof.
  destruct xs as [|x xs]; [congruence|]. intros _.
  destruct (min_index_from_least xs [x] 0 x) as [v [Hv Hleast]].
  - reflexivity.
  - intros y Hy. apply list_elem_of_singleton in Hy. subst y. lra.
  - exists (min_index_from xs 1 0 x), v. simpl in *. auto.
Qed.

(** One step of [multi_server_queue] never raises on a non-empty pool;
    the truck goes to a server that is free earliest. *)
Lemma serve_least (free_times : list Q) (total_wait arrival service : Q) :
  free_times <> [] ->
  exists idx v,
    free_times !! idx = Some v
    /\ (forall y, y ∈ free_times -> (v <= y)%Q)
    /\ serve (free_times, total_wait) (arrival, service)
       = Ok (<[idx := (arrival + max_float 0 (v - arrival) + service)%Q]> free_times,
             (total_wait + max_float 0 (v - arrival))%Q).
Proof.
  intros Hne. destruct (min_index_least free_times Hne) as (idx & v & Hidx & Hv & Hleast).
  exists idx, v. repeat split; auto.
  unfold serve. rewrite Hidx. simpl. unfold list_item. rewrite Hv. reflexivity.
Qed.

Lemma insert_nonempty (xs : list Q) (i : nat) (x : Q) : xs <> [] -> <[i := x]> xs <> [].
Proof.
  intros Hne Heq. apply (f_equal length) in Heq. rewrite length_insert in Heq.
  destruct xs; [congruence|discriminate].
Qed.

Lemma serve_loop_total (arrivals : list (Q * Q)) (free_times : list Q) (total_wait : Q) :
  free_times <> [] ->
  exists free_times' total_wait',
    for_each serve (free_times, total_wait) arrivals = Ok (free_times', total_wait')
    /\ free_times' <> [].
Proof.
  revert free_times total_wait.
  induction arrivals as [|[a s] rest IH]; intros fs tw Hne.
  - simpl. eauto.
  - rewrite for_each_cons.
    destruct (serve_least fs tw a s Hne) as (idx & v & _ & _ & ->). rewrite bind_ok.
    apply IH. apply insert_nonempty. exact Hne.
Qed.

Lemma pool_nonempty (num_servers : Z) :
  replicate (Z.to_nat (Z.max 1 num_servers)) 0%Q <> [].
Proof.
  intros H. apply (f_equal length) in H. rewrite length_replicate in H. simpl in H. lia.
Qed.

Lemma multi_server_queue_total (arrivals : list (Q * Q)) (num_servers : Z) :
  exists r, multi_server_queue arrivals num_servers = Ok r.
Proof.
  unfold multi_server_queue. destruct arrivals as [|ev rest]; [eauto|].
  destruct (serve_loop_total (ev :: rest) _ 0%Q (pool_nonempty num_servers))
    as (fs & tw & -> & Hne).
  simpl. destruct fs as [|x fs]; [congruence|]. simpl. eauto.
Qed.

(** C10: [multi_server_queue] returns for every event list and every
    integer server count; the pool has [max(1, num_servers)] servers, so
    a count of zero or less gives exactly the single-server result. *)
Theorem multi_server_queue_clamps_servers (arrivals : list (Q * Q)) (num_servers : Z) :
  (exists r, multi_server_queue arrivals num_servers = Ok r)
  /\ multi_server_queue arrivals num_servers
     = multi_server_queue arrivals (Z.max 1 num_servers)
  /\ ((num_servers <= 0)%Z ->
      multi_server_queue arrivals num_servers = multi_server_queue arrivals 1).
Proof.
  split; [apply multi_server_queue_total|]. split.
  - unfold multi_server_queue. rewrite Z.max_assoc, Z.max_id. reflexivity.
  - intros Hle. unfold multi_server_queue.
    replace (Z.max 1 num_servers) with 1%Z by lia. reflexivity.
Qed.

Lemma multi_server_queue_clamps_servers_witness :
  (-3 <= 0)%Z
  /\ multi_server_queue two_trucks (-3) = multi_server_queue two_trucks 1.
Proof.
  split; [lia|].
  apply (multi_server_queue_clamps_servers two_trucks (-3)). lia.
Defined.

(** In exact rational arithmetic the two trucks arriving at 7.0 and
    7.02 with service time 0.1 at one server wait 0 and 0.08 h, and the
    average wait is 2.4 minutes: the number the binary64 run below
    approximates. *)
Lemma multi_server_queue_two_trucks_exact :
  exists avg_wait_minutes end_time,
    multi_server_queue [(7.0, 0.1); (7.02, 0.1)]%Q 1 = Ok (avg_wait_minutes, end_time)
    /\ (avg_wait_minutes == 2.4)%Q
    /\ (exists pool1 wait1 pool2 wait2,
          serve ([0%Q], 0%Q) (7.0, 0.1)%Q = Ok (pool1, wait1)
          /\ serve (pool1, wait1) (7.02, 0.1)%Q = Ok (pool2, wait2)
          /\ (wait1 == 0)%Q
          /\ (wait2 - wait1 == 0.08)%Q
          /\ ((wait2 - wait1) * 60 == 4.8)%Q).
Proof.
  eexists _, _. split; [vm_compute; reflexivity|]. split; [reflexivity|].
  eexists _, _, _, _. split; [vm_compute; reflexivity|].
  split; [vm_compute; reflexivity|].
  repeat split; reflexivity.
Qed.

(** C7, as stated, fails on binary64 floats: for the two trucks
    arriving at 7.0 and 7.02 with service time 0.1 at one server,
    [multi_server_queue] returns an average wait that is not the float
    2.4 ([avg_wait_minutes == 2.4] is [False]). *)
Lemma multi_server_queue_two_trucks_not_exactly_2_4 :
  exists avg_wait_minutes end_time,
    Binary64.multi_server_queue [(7.0, 0.1); (7.02, 0.1)]%float 1
    = Ok (avg_wait_minutes, end_time)
    /\ PrimFloat.eqb avg_wait_minutes 2.4%float = false
    /\ avg_wait_minutes <> 2.4%float.
Proof.
  eexists _, _. split; [vm_compute; reflexivity|].
  split; [vm_compute; reflexivity|].
  intros H. apply (f_equal (fun x => PrimFloat.eqb x 2.4%float)) in H.
  vm_compute in H. discriminate.
Qed.

(** C7, up to rounding: on binary64 floats the two trucks arriving at
    7.0 and 7.02 with service time 0.1 at one server get the average
    wait 2.4000000000000021 minutes and the end time 7.1999999999999993;
    the average is within 10^-14 of 2.4.  The first truck waits 0, the
    second 0.080000000000000071 h, within 10^-15 of 0.08 h. *)
Theorem multi_server_queue_two_trucks_one_server_binary64 :
  exists avg_wait_minutes end_time avg_exact,
    Binary64.multi_server_queue [(7.0, 0.1); (7.02, 0.1)]%float 1
    = Ok (avg_wait_minutes, end_time)
    /\ avg_wait_minutes = 2.4000000000000021%float
    /\ end_time = 7.1999999999999993%float
    /\ Binary64.to_Q avg_wait_minutes = Some avg_exact
    /\ (2.4 - (1 # 100000000000000) < avg_exact < 2.4 + (1 # 100000000000000))%Q
    /\ (exists pool1 wait1 pool2 wait2 wait2_exact,
          Binary64.serve ([0.0%float], 0.0%float) (7.0, 0.1)%float = Ok (pool1, wait1)
          /\ Binary64.serve (pool1, wait1) (7.02, 0.1)%float = Ok (pool2, wait2)
          /\ wait1 = 0.0%float
          /\ wait2 = 0.080000000000000071%float
          /\ Binary64.to_Q wait2 = Some wait2_exact
          /\ (0.08 - (1 # 1000000000000000) < wait2_exact
               < 0.08 + (1 # 1000000000000000))%Q).
Proof.
  eexists _, _, _. split; [vm_compute; reflexivity|].
  split; [reflexivity|]. split; [reflexivity|].
  split; [vm_compute; reflexivity|].
  split; [split; reflexivity|].
  eexists _, _, _, _, _. split; [vm_compute; reflexivity|].
  split; [vm_compute; reflexivity|].
  split; [reflexivity|]. split; [reflexivity|].
  split; [vm_compute; reflexivity|].
  split; reflexivity.
Qed.

(** *** More servers never wait longer *)

Lemma free_by_le (t x y : Q) : (x <= y)%Q -> (free_by t y <= free_by t x)%nat.
Proof.
  intros Hxy. unfold free_by.
  destruct (Qle_bool y t) eqn:Hy; destruct (Qle_bool x t) eqn:Hx; try lia.
  apply Qle_bool_iff in Hy.
  assert (Hxt : (x <= t)%Q) by lra.
  apply Qle_bool_iff in Hxt. congruence.
Qed.

Lemma count_le_lookup (t : Q) (xs : list Q) (i : nat) (v : Q) :
  xs !! i = Some v -> (free_by t v <= count_le t xs)%nat.
Proof.
  revert i. induction xs as [|x xs IH]; intros [|i] H; simpl in *; try discriminate.
  - injection H as ->. unfold free_by. lia.
  - specialize (IH i H). lia.
Qed.

Lemma count_le_insert (t : Q) (xs : list Q) (i : nat) (v y : Q) :
  xs !! i = Some v ->
  (count_le t (<[i := y]> xs) + free_by t v = count_le t xs + free_by t y)%nat.
Proof.
  revert i. induction xs as [|x xs IH]; intros [|i] H; simpl in *; try discriminate.
  - injection H as ->. unfold free_by. lia.
  - specialize (IH i H). lia.
Qed.

Lemma count_le_none (t v : Q) (xs : list Q) :
  (forall y, y ∈ xs -> (v <= y)%Q) -> (t < v)%Q -> count_le t xs = 0%nat.
Proof.
  induction xs as [|x xs IH]; intros Hleast Hlt; simpl; [reflexivity|].
  rewrite IH; [|intros y Hy; apply Hleast; right; exact Hy|exact Hlt].
  unfold free_by. destruct (Qle_bool x t) eqn:Hx; [|reflexivity].
  apply Qle_bool_iff in Hx. specialize (Hleast x (list_elem_of_here x xs)). lra.
Qed.

Lemma count_le_some (t : Q) (xs : list Q) :
  (1 <= count_le t xs)%nat -> exists y, y ∈ xs /\ (y <= t)%Q.
Proof.
  induction xs as [|x xs IH]; simpl; [lia|].
  unfold free_by at 1. destruct (Qle_bool x t) eqn:Hx.
  - intros _. exists x. split; [left|apply Qle_bool_iff; exact Hx].
  - intros H. destruct IH as [y [Hy Hle]]; [lia|]. exists y. split; [right|]; assumption.
Qed.

(** The earliest free time of the pool that is ahead is no later. *)
Lemma ahead_least (vs ws : list Q) (i j : nat) (v w : Q) :
  ahead vs ws ->
  vs !! i = Some v -> (forall y, y ∈ vs -> (v <= y)%Q) ->
  ws !! j = Some w ->
  (v <= w)%Q.
Proof.
  intros Hahead Hv Hleast Hw.
  pose proof (count_le_lookup w ws j w Hw) as Hc.
  unfold free_by in Hc. rewrite (proj2 (Qle_bool_iff w w)) in Hc by lra.
  specialize (Hahead w).
  destruct (count_le_some w vs) as [y [Hy Hyw]]; [lia|].
  specialize (Hleast y Hy). lra.
Qed.

(** Serving the same truck keeps the pool that is ahead ahead. *)
Lemma ahead_step (vs ws : list Q) (i j : nat) (v w v' w' : Q) :
  ahead vs ws ->
  vs !! i = Some v -> (forall y, y ∈ vs -> (v <= y)%Q) ->
  ws !! j = Some w -> (forall y, y ∈ ws -> (w <= y)%Q) ->
  (v' <= w')%Q ->
  ahead (<[i := v']> vs) (<[j := w']> ws).
Proof.
  intros Hahead Hv Hvleast Hw Hwleast Hle t.
  pose proof (ahead_least vs ws i j v w Hahead Hv Hvleast Hw) as Hvw.
  pose proof (count_le_insert t vs i v v' Hv) as Ev.
  pose proof (count_le_insert t ws j w w' Hw) as Ew.
  pose proof (count_le_lookup t vs i v Hv) as Lv.
  pose proof (free_by_le t v' w' Hle) as Ln.
  pose proof (free_by_le t v w Hvw) as Lo.
  specialize (Hahead t).
  destruct (Qlt_le_dec t w) as [Hlt|Hge].
  - pose proof (count_le_none t w ws Hwleast Hlt) as Z0.
    assert (free_by t w = 0)%nat as Fw.
    { unfold free_by. destruct (Qle_bool w t) eqn:E; [|reflexivity].
      apply Qle_bool_iff in E. lra. }
    lia.
  - assert (free_by t w = 1)%nat as Fw.
    { unfold free_by. rewrite (proj2 (Qle_bool_iff w t)) by exact Hge. reflexivity. }
    assert (free_by t v <= 1)%nat as Bv by (unfold free_by; destruct (Qle_bool v t); lia).
    lia.
Qed.

Lemma ahead_replicate (m n : nat) : (m <= n)%nat -> ahead (replicate n 0%Q) (replicate m 0%Q).
Proof.
  intros Hmn t.
  assert (Hc : forall k, count_le t (replicate k 0%Q) = (k * free_by t 0)%nat).
  { induction k as [|k IH]; simpl; [reflexivity|]. rewrite IH. unfold free_by. lia. }
  rewrite !Hc. nia.
Qed.

(** Run on the same arrivals, the pool that starts ahead accumulates no
    more waiting time. *)
Lemma serve_loop_ahead (arrivals : list (Q * Q)) (vs ws : list Q) (tv tw : Q) :
  vs <> [] -> ws <> [] -> ahead vs ws -> (tv <= tw)%Q ->
  exists vs' ws' tv' tw',
    for_each serve (vs, tv) arrivals = Ok (vs', tv')
    /\ for_each serve (ws, tw) arrivals = Ok (ws', tw')
    /\ vs' <> [] /\ ws' <> []
    /\ (tv' <= tw')%Q.
Proof.
  revert vs ws tv tw.
  induction arrivals as [|[a s] rest IH]; intros vs ws tv tw Hv Hw Hahead Hle.
  - simpl. eexists _, _, _, _. repeat split; eauto.
  - rewrite !for_each_cons.
    destruct (serve_least vs tv a s Hv) as (i & v & Hiv & Hvleast & ->).
    destruct (serve_least ws tw a s Hw) as (j & w & Hjw & Hwleast & ->).
    rewrite !bind_ok.
    pose proof (ahead_least vs ws i j v w Hahead Hiv Hvleast Hjw) as Hvw.
    assert (Hwait : (max_float 0 (v - a) <= max_float 0 (w - a))%Q)
      by (apply max_float_mono; lra).
    apply IH.
    + apply insert_nonempty; assumption.
    + apply insert_nonempty; assumption.
    + eapply ahead_step; eauto. lra.
    + lra.
Qed.

Lemma average_mono (tv tw : Q) (n : nat) :
  (0 < n)%nat -> (tv <= tw)%Q ->
  (tv / inject_Z (Z.of_nat n) * 60 <= tw / inject_Z (Z.of_nat n) * 60)%Q.
Proof.
  intros Hn Hle.
  assert (Hpos : (0 < inject_Z (Z.of_nat n))%Q).
  { replace 0%Q with (inject_Z 0) by reflexivity. rewrite <- Zlt_Qlt. lia. }
  apply Qmult_le_compat_r; [|lra].
  unfold Qdiv. apply Qmult_le_compat_r; [exact Hle|].
  apply Qlt_le_weak, Qinv_lt_0_compat. exact Hpos.
Qed.

Lemma multi_server_queue_servers_mono (arrivals : list (Q * Q)) (m n : Z) :
  (1 <= m)%Z -> (m <= n)%Z ->
  exists wait_n end_n wait_m end_m,
    multi_server_queue arrivals n = Ok (wait_n, end_n)
    /\ multi_server_queue arrivals m = Ok (wait_m, end_m)
    /\ (wait_n <= wait_m)%Q.
Proof.
  intros Hm Hmn. unfold multi_server_queue.
  destruct arrivals as [|ev rest].
  - eexists _, _, _, _. repeat split; try reflexivity. lra.
  - destruct (serve_loop_ahead (ev :: rest)
                (replicate (Z.to_nat (Z.max 1 n)) 0%Q)
                (replicate (Z.to_nat (Z.max 1 m)) 0%Q) 0%Q 0%Q)
      as (vs' & ws' & tv' & tw' & -> & -> & Hv' & Hw' & Hle).
    + apply pool_nonempty.
    + apply pool_nonempty.
    + apply ahead_replicate. lia.
    + lra.
    + rewrite !bind_ok.
      destruct vs' as [|x vs']; [congruence|]. destruct ws' as [|y ws']; [congruence|].
      simpl max_list. rewrite !bind_ok.
      eexists _, _, _, _. split; [reflexivity|]. split; [reflexivity|].
      apply average_mono; [simpl; lia|exact Hle].
Qed.

(** C6: for events sorted by arrival time and server counts
    [1 <= m <= n], the average wait with [n] servers is at most the
    average wait with [m] servers.  (The order of the events plays no
    part in the argument.) *)
Theorem multi_server_queue_more_servers_wait_less
    (arrivals : list (Q * Q)) (m n : Z) :
  sorted_by_arrival arrivals = true ->
  (1 <= m)%Z -> (m <= n)%Z ->
  exists wait_n end_n wait_m end_m,
    multi_server_queue arrivals n = Ok (wait_n, end_n)
    /\ multi_server_queue arrivals m = Ok (wait_m, end_m)
    /\ (wait_n <= wait_m)%Q.
Proof. intros _. apply multi_server_queue_servers_mono. Qed.

Lemma multi_server_queue_more_servers_wait_less_witness :
  exists wait_n end_n wait_m end_m,
    multi_server_queue two_trucks 2 = Ok (wait_n, end_n)
    /\ multi_server_queue two_trucks 1 = Ok (wait_m, end_m)
    /\ (wait_n <= wait_m)%Q.
Proof.
  apply (multi_server_queue_more_servers_wait_less two_trucks 1 2);
    [reflexivity | lia | lia].
Defined.

(** ** Zone aggregation *)

Lemma get_main_feni_is_zone_key (points : hierarchy) (name main : string) :
  get_main_feni_from_sub_point points name = Some main -> main ∈ map fst points.
Proof.
  induction points as [|[z cfg] rest IH]; simpl; [discriminate|].
  destruct (dict_mem name (sub_points cfg)).
  - intros [= ->]. left.
  - intros H. right. auto.
Qed.

Lemma feni_zone_cases (name main : string) :
  get_main_feni_from_sub_point FENI_DUMP_POINTS name = Some main ->
  main = "FENI KM 0" \/ main = "FENI KM 15".
Proof.
  intros H. apply get_main_feni_is_zone_key in H. simpl in H.
  apply elem_of_cons in H as [->|H]; [left; reflexivity|].
  apply elem_of_cons in H as [->|H]; [right; reflexivity|].
  apply elem_of_nil in H. contradiction.
Qed.

(** One step of the aggregation loop adds, per zone, the term the
    specification sums for that sub-point. *)
Lemma add_to_zone_step (trucks : list (string * Z)) (subpoint : string) (w a b : Q)
    (c d : Z) :
  exists a' b' c' d',
    add_to_zone FENI_DUMP_POINTS trucks
      ([("FENI KM 0", a); ("FENI KM 15", b)], [("FENI KM 0", c); ("FENI KM 15", d)])
      (subpoint, w)
    = Ok ([("FENI KM 0", a'); ("FENI KM 15", b')], [("FENI KM 0", c'); ("FENI KM 15", d')])
    /\ (a' == a + spec_zone_wait FENI_DUMP_POINTS "FENI KM 0" [(subpoint, w)] trucks)%Q
    /\ (b' == b + spec_zone_wait FENI_DUMP_POINTS "FENI KM 15" [(subpoint, w)] trucks)%Q
    /\ c' = (c + spec_zone_trucks FENI_DUMP_POINTS "FENI KM 0" [(subpoint, w)] trucks)%Z
    /\ d' = (d + spec_zone_trucks FENI_DUMP_POINTS "FENI KM 15" [(subpoint, w)] trucks)%Z.
Proof.
  unfold add_to_zone, spec_zone_wait, spec_zone_trucks, in_zone.
  destruct (get_main_feni_from_sub_point FENI_DUMP_POINTS subpoint) as [main|] eqn:Hmain.
  - destruct (feni_zone_cases _ _ Hmain) as [-> | ->];
      cbn [dict_item dict_get dict_set String.eqb Ascii.eqb Bool.eqb mbind result_bind];
      eexists _, _, _, _; (split; [reflexivity|]);
      (split; [lra|]); (split; [lra|]); split; lia.
  - exists a, b, c, d. split; [reflexivity|].
    split; [lra|]. split; [lra|]. split; lia.
Qed.

Lemma spec_zone_wait_cons (zone subpoint : string) (w : Q) (rest : list (string * Q))
    (trucks : list (string * Z)) :
  (spec_zone_wait FENI_DUMP_POINTS zone ((subpoint, w) :: rest) trucks
   == spec_zone_wait FENI_DUMP_POINTS zone [(subpoint, w)] trucks
      + spec_zone_wait FENI_DUMP_POINTS zone rest trucks)%Q.
Proof. cbn [spec_zone_wait]. lra. Qed.

Lemma spec_zone_trucks_cons (zone subpoint : string) (w : Q) (rest : list (string * Q))
    (trucks : list (string * Z)) :
  spec_zone_trucks FENI_DUMP_POINTS zone ((subpoint, w) :: rest) trucks
  = (spec_zone_trucks FENI_DUMP_POINTS zone [(subpoint, w)] trucks
     + spec_zone_trucks FENI_DUMP_POINTS zone rest trucks)%Z.
Proof. cbn [spec_zone_trucks]. lia. Qed.

Lemma add_to_zone_loop (trucks : list (string * Z)) (waits : list (string * Q))
    (a b : Q) (c d : Z) :
  exists a' b' c' d',
    for_each (add_to_zone FENI_DUMP_POINTS trucks)
      ([("FENI KM 0", a); ("FENI KM 15", b)], [("FENI KM 0", c); ("FENI KM 15", d)]) waits
    = Ok ([("FENI KM 0", a'); ("FENI KM 15", b')], [("FENI KM 0", c'); ("FENI KM 15", d')])
    /\ (a' == a + spec_zone_wait FENI_DUMP_POINTS "FENI KM 0" waits trucks)%Q
    /\ (b' == b + spec_zone_wait FENI_DUMP_POINTS "FENI KM 15" waits trucks)%Q
    /\ c' = (c + spec_zone_trucks FENI_DUMP_POINTS "FENI KM 0" waits trucks)%Z
    /\ d' = (d + spec_zone_trucks FENI_DUMP_POINTS "FENI KM 15" waits trucks)%Z.
Proof.
  revert a b c d. induction waits as [|[subpoint w] rest IH]; intros a b c d.
  - exists a, b, c, d. simpl. split; [reflexivity|].
    split; [lra|]. split; [lra|]. split; lia.
  - rewrite for_each_cons.
    destruct (add_to_zone_step trucks subpoint w a b c d)
      as (a1 & b1 & c1 & d1 & -> & Ha1 & Hb1 & Hc1 & Hd1).
    rewrite bind_ok.
    destruct (IH a1 b1 c1 d1) as (a' & b' & c' & d' & -> & Ha & Hb & Hc & Hd).
    exists a', b', c', d'. split; [reflexivity|].
    pose proof (spec_zone_wait_cons "FENI KM 0" subpoint w rest trucks).
    pose proof (spec_zone_wait_cons "FENI KM 15" subpoint w rest trucks).
    pose proof (spec_zone_trucks_cons "FENI KM 0" subpoint w rest trucks).
    pose proof (spec_zone_trucks_cons "FENI KM 15" subpoint w rest trucks).
    split; [lra|]. split; [lra|]. split; lia.
Qed.

Lemma zone_average_value (total_wait total_wait' : Q) (trucks : Z) :
  (total_wait == total_wait')%Q ->
  ((if (0 <? trucks)%Z then total_wait / inject_Z trucks else 0)
   == (if (0 <? trucks)%Z then total_wait' / inject_Z trucks else 0))%Q.
Proof. intros H. destruct (0 <? trucks)%Z; [rewrite H|]; reflexivity. Qed.

(** What the aggregation returns on the hierarchy of [config.py]. *)
Lemma aggregate_zones_run
    (subpoint_waits : list (string * Q)) (trucks_per_subpoint : list (string * Z)) :
  exists avg0 avg15,
    aggregate_zones FENI_DUMP_POINTS subpoint_waits trucks_per_subpoint
    = Ok [("FENI KM 0", avg0); ("FENI KM 15", avg15)]
    /\ (avg0 == spec_zone_average FENI_DUMP_POINTS "FENI KM 0"
                 subpoint_waits trucks_per_subpoint)%Q
    /\ (avg15 == spec_zone_average FENI_DUMP_POINTS "FENI KM 15"
                  subpoint_waits trucks_per_subpoint)%Q
    /\ ((spec_zone_trucks FENI_DUMP_POINTS "FENI KM 0"
           subpoint_waits trucks_per_subpoint <= 0)%Z -> avg0 = 0%Q)
    /\ ((spec_zone_trucks FENI_DUMP_POINTS "FENI KM 15"
           subpoint_waits trucks_per_subpoint <= 0)%Z -> avg15 = 0%Q).
Proof.
  unfold aggregate_zones.
  destruct (add_to_zone_loop trucks_per_subpoint subpoint_waits 0 0 0 0)
    as (a' & b' & t0 & t15 & -> & Ha & Hb & Ht0 & Ht15).
  rewrite bind_ok. rewrite Z.add_0_l in Ht0, Ht15.
  exists (if (0 <? t0)%Z then a' / inject_Z t0 else 0)%Q,
         (if (0 <? t15)%Z then b' / inject_Z t15 else 0)%Q.
  split; [|split; [|split; [|split]]].
  - cbn [for_each zone_average dict_item dict_get dict_set
           String.eqb Ascii.eqb Bool.eqb mbind result_bind].
    destruct (0 <? t0)%Z;
      cbn [for_each zone_average dict_item dict_get dict_set
             String.eqb Ascii.eqb Bool.eqb mbind result_bind];
      destruct (0 <? t15)%Z; reflexivity.
  - unfold spec_zone_average. rewrite <- Ht0. apply zone_average_value. lra.
  - unfold spec_zone_average. rewrite <- Ht15. apply zone_average_value. lra.
  - rewrite <- Ht0. intros H. destruct (Z.ltb_spec 0 t0); [lia|reflexivity].
  - rewrite <- Ht15. intros H. destruct (Z.ltb_spec 0 t15); [lia|reflexivity].
Qed.

(** C5: each zone's reported average is the truck-weighted mean of its
    sub-points' average waits when the zone has trucks, and exactly 0
    otherwise; two sub-points of one zone with waits 10 and 20 and truck
    counts 1 and 3 give 17.5. *)
Theorem zone_average_is_truck_weighted
    (subpoint_waits : list (string * Q)) (trucks_per_subpoint : list (string * Z)) :
  (exists avg0 avg15,
     aggregate_zones FENI_DUMP_POINTS subpoint_waits trucks_per_subpoint
     = Ok [("FENI KM 0", avg0); ("FENI KM 15", avg15)]
     /\ (avg0 == spec_zone_average FENI_DUMP_POINTS "FENI KM 0"
                  subpoint_waits trucks_per_subpoint)%Q
     /\ (avg15 == spec_zone_average FENI_DUMP_POINTS "FENI KM 15"
                   subpoint_waits trucks_per_subpoint)%Q
     /\ ((spec_zone_trucks FENI_DUMP_POINTS "FENI KM 0"
            subpoint_waits trucks_per_subpoint <= 0)%Z -> avg0 = 0%Q)
     /\ ((spec_zone_trucks FENI_DUMP_POINTS "FENI KM 15"
            subpoint_waits trucks_per_subpoint <= 0)%Z -> avg15 = 0%Q))
  /\ (exists avg0,
        aggregate_zones FENI_DUMP_POINTS
          [("FENI A (LINE 1-2)", 10%Q); ("FENI A (LINE 3-4)", 20%Q)]
          [("FENI A (LINE 1-2)", 1%Z); ("FENI A (LINE 3-4)", 3%Z)]
        = Ok [("FENI KM 0", avg0); ("FENI KM 15", 0%Q)]
        /\ (avg0 == 17.5)%Q).
Proof.
  split; [apply aggregate_zones_run|].
  eexists. split; [vm_compute; reflexivity|reflexivity].
Qed.

Lemma zone_average_is_truck_weighted_witness :
  exists avg0 avg15,
    aggregate_zones FENI_DUMP_POINTS [("FENI A (LINE 1-2)", 10%Q)] []
    = Ok [("FENI KM 0", avg0); ("FENI KM 15", avg15)]
    /\ avg0 = 0%Q /\ avg15 = 0%Q.
Proof.
  destruct (zone_average_is_truck_weighted [("FENI A (LINE 1-2)", 10%Q)] [])
    as [(avg0 & avg15 & Hrun & _ & _ & H0 & H15) _].
  exists avg0, avg15. split; [exact Hrun|].
  split; [apply H0|apply H15]; vm_compute; discriminate.
Defined.

(** ** The optimiser leaves the caller's configuration alone *)

Lemma extends_refl (σ : heap) : extends σ σ.
Proof. repeat split; reflexivity. Qed.

Lemma frame_refl (σ : heap) : frame σ σ.
Proof.
  split; [apply extends_refl| |]; intros i items Hi Hlook;
    apply lookup_lt_Some in Hlook; lia.
Qed.

Lemma keeps_ret {A : Type} (σ0 : heap) (a : A) (Q : A -> Prop) :
  Q a -> keeps σ0 (mret a) Q.
Proof. intros HQ σ Hσ. simpl. split; [exact Hσ|]. intros a' [= <-]. exact HQ. Qed.

Lemma keeps_bind {A B : Type} (σ0 : heap) (m : M A) (k : A -> M B)
    (Q : A -> Prop) (R : B -> Prop) :
  keeps σ0 m Q -> (forall a, Q a -> keeps σ0 (k a) R) -> keeps σ0 (m ≫= k) R.
Proof.
  intros Hm Hk σ Hσ. destruct (Hm σ Hσ) as [Hframe HQ].
  unfold mbind, M_bind, Heap.bind. destruct (m σ) as [σ1 [a|e]]; simpl in *.
  - apply (Hk a (HQ a eq_refl)). exact Hframe.
  - split; [exact Hframe|]. intros b Hb. discriminate.
Qed.

Lemma keeps_weaken {A : Type} (σ0 : heap) (m : M A) (Q R : A -> Prop) :
  keeps σ0 m Q -> (forall a, Q a -> R a) -> keeps σ0 m R.
Proof. intros Hm HQR σ Hσ. destruct (Hm σ Hσ). split; auto. Qed.

Lemma keeps_gets {A : Type} (σ0 : heap) (f : heap -> A) : keeps σ0 (gets f) (fun _ => True).
Proof. intros σ Hσ. simpl. auto. Qed.

Lemma keeps_lift {A : Type} (σ0 : heap) (r : result A) : keeps σ0 (lift r) (fun _ => True).
Proof. intros σ Hσ. simpl. auto. Qed.

Lemma keeps_modify (σ0 : heap) (f : heap -> heap) :
  (forall σ, frame σ0 σ -> frame σ0 (f σ)) -> keeps σ0 (modify f) (fun _ => True).
Proof. intros Hf σ Hσ. simpl. auto. Qed.

Lemma keeps_for_eachM {A S : Type} (σ0 : heap) (body : S -> A -> M S) (xs : list A) :
  (forall s x, keeps σ0 (body s x) (fun _ => True)) ->
  forall s, keeps σ0 (for_eachM body s xs) (fun _ => True).
Proof.
  intros Hbody. induction xs as [|x xs IH]; intros s; simpl.
  - apply (keeps_ret σ0 s). exact I.
  - apply (keeps_bind σ0 (body s x) _ (fun _ => True)); auto.
Qed.

(** *** [deepcopy] only allocates *)

Lemma prefix_snoc {A : Type} (xs ys : list A) (y : A) :
  xs `prefix_of` ys -> xs `prefix_of` ys ++ [y].
Proof. intros H. etransitivity; [exact H|]. apply prefix_app_r. reflexivity. Qed.

Lemma copy_cfg_frame (σ0 : heap) (memo : gmap loc loc) (σ : heap) (l : loc) :
  frame σ0 σ ->
  map_Forall (fun _ v => (length (cfg_dicts σ0) <= v)%nat) memo ->
  frame σ0 (snd (fst (copy_cfg (memo, σ) l)))
  /\ map_Forall (fun _ v => (length (cfg_dicts σ0) <= v)%nat) (fst (fst (copy_cfg (memo, σ) l)))
  /\ (length (cfg_dicts σ0) <= snd (copy_cfg (memo, σ) l))%nat.
Proof.
  intros Hframe Hmemo. unfold copy_cfg.
  destruct (memo !! l) as [l'|] eqn:Hl; simpl.
  - split; [exact Hframe|]. split; [exact Hmemo|]. exact (Hmemo l l' Hl).
  - destruct Hframe as [(Ht & Hr & Hc) Htops Hroutes].
    assert (length (cfg_dicts σ0) <= length (cfg_dicts σ))%nat by (apply prefix_length; exact Hc).
    split; [|split; [apply map_Forall_insert_2; assumption|assumption]].
    split; simpl; [|exact Htops|exact Hroutes].
    split; [exact Ht|]. split; [exact Hr|]. apply prefix_snoc. exact Hc.
Qed.

Lemma copy_items_inv {S : Type} (copy_value : S -> loc -> S * loc)
    (P : S -> Prop) (Q : loc -> Prop) :
  (forall st l, P st -> P (fst (copy_value st l)) /\ Q (snd (copy_value st l))) ->
  forall items st, P st ->
    P (fst (copy_items copy_value st items))
    /\ Forall (fun kv => Q (snd kv)) (snd (copy_items copy_value st items)).
Proof.
  intros Hstep. induction items as [|[k l] rest IH]; intros st Hst; simpl.
  - split; [exact Hst|constructor].
  - destruct (Hstep st l Hst) as [H1 HQ].
    destruct (copy_value st l) as [st1 l'] eqn:E1. simpl in *.
    destruct (IH st1 H1) as [H2 Hall].
    destruct (copy_items copy_value st1 rest) as [st2 rest'] eqn:E2. simpl in *.
    split; [exact H2|]. constructor; assumption.
Qed.

Lemma copy_routes_frame (σ0 : heap) (st : gmap loc loc * (gmap loc loc * heap)) (l : loc) :
  route_copy_state σ0 st ->
  route_copy_state σ0 (fst (copy_routes st l))
  /\ (length (route_dicts σ0) <= snd (copy_routes st l))%nat.
Proof.
  destruct st as [memo_r inner]. intros [Hmemo Hinner]. unfold copy_routes.
  destruct (memo_r !! l) as [l'|] eqn:Hl; simpl.
  - split; [split; assumption|]. exact (Hmemo l l' Hl).
  - destruct (copy_items_inv copy_cfg (cfg_copy_state σ0)
                (fun c => (length (cfg_dicts σ0) <= c)%nat)) with
      (items := get_routes (snd inner) l) (st := inner) as [Hst Hfresh].
    + intros [memo σ] c [Hf Hm]. destruct (copy_cfg_frame σ0 memo σ c Hf Hm) as (? & ? & ?).
      split; [split|]; assumption.
    + exact Hinner.
    + destruct (copy_items copy_cfg inner (get_routes (snd inner) l)) as [[memo_c σ] items'].
      simpl in *. destruct Hst as [[(Ht & Hr & Hc) Htops Hroutes] Hmemo_c]. simpl in *.
      assert (length (route_dicts σ0) <= length (route_dicts σ))%nat
        by (apply prefix_length; exact Hr).
      split; [|assumption].
      split; [apply map_Forall_insert_2; assumption|].
      split; [|exact Hmemo_c]. simpl.
      split; simpl; [|exact Htops|].
      * split; [exact Ht|]. split; [apply prefix_snoc; exact Hr|exact Hc].
      * intros r items Hr0 Hlook.
        apply lookup_app_Some in Hlook as [Hold|[Hge Hnew]].
        -- exact (Hroutes r items Hr0 Hold).
        -- apply list_lookup_singleton_Some in Hnew as [_ <-]. exact Hfresh.
Qed.

Lemma deepcopy_frame (σ0 σ : heap) (l : loc) :
  frame σ0 σ ->
  frame σ0 (fst (deepcopy σ l)) /\ (length (top_dicts σ0) <= snd (deepcopy σ l))%nat.
Proof.
  intros Hframe. unfold deepcopy.
  destruct (copy_items_inv copy_routes (route_copy_state σ0)
              (fun r => (length (route_dicts σ0) <= r)%nat)) with
    (items := get_top σ l) (st := (∅ : gmap loc loc, (∅ : gmap loc loc, σ)))
    as [Hst Hfresh].
  - intros st r Hst. apply copy_routes_frame. exact Hst.
  - split; [apply map_Forall_empty|]. split; [exact Hframe|apply map_Forall_empty].
  - destruct (copy_items copy_routes _ (get_top σ l)) as [[memo_r [memo_c σ1]] items'].
    simpl in *. destruct Hst as [_ [[(Ht & Hr & Hc) Htops Hroutes] _]]. simpl in *.
    assert (length (top_dicts σ0) <= length (top_dicts σ1))%nat
      by (apply prefix_length; exact Ht).
    split; [|assumption].
    split; simpl; [| |exact Hroutes].
    + split; [apply prefix_snoc; exact Ht|]. split; assumption.
    + intros t items Ht0 Hlook.
      apply lookup_app_Some in Hlook as [Hold|[Hge Hnew]].
      * exact (Htops t items Ht0 Hold).
      * apply list_lookup_singleton_Some in Hnew as [_ <-]. exact Hfresh.
Qed.

Lemma keeps_alloc_copy (σ0 : heap) (l : loc) :
  keeps σ0 (alloc_copy l) (fun l' => (length (top_dicts σ0) <= l')%nat).
Proof.
  intros σ Hσ. unfold alloc_copy.
  destruct (deepcopy_frame σ0 σ l Hσ) as [Hframe Hfresh].
  destruct (deepcopy σ l) as [σ' l']. simpl in *.
  split; [exact Hframe|]. intros a [= <-]. exact Hfresh.
Qed.

(** *** Assigning into a copy *)

Lemma dict_get_Forall {V : Type} (P : V -> Prop) (k : string) (d : list (string * V)) (v : V) :
  Forall (fun kv => P (snd kv)) d -> dict_get k d = Some v -> P v.
Proof.
  induction d as [|[k' v'] rest IH]; simpl; [discriminate|].
  intros Hall. inversion Hall as [|? ? Hhd Htl]; subst.
  destruct (String.eqb k k'); [intros [= <-]; exact Hhd|auto].
Qed.

Lemma prefix_insert_ge {A : Type} (xs ys : list A) (i : nat) (y : A) :
  xs `prefix_of` ys -> (length xs <= i)%nat -> xs `prefix_of` <[i := y]> ys.
Proof.
  intros [k ->] Hi. rewrite insert_app_r_alt by exact Hi. apply prefix_app_r. reflexivity.
Qed.

Lemma store_departure_frame (σ0 σ : heap) (config : loc) (contractor route t : string) :
  frame σ0 σ -> (length (top_dicts σ0) <= config)%nat ->
  frame σ0 (store_departure σ config contractor route t).
Proof.
  intros Hframe Hconfig. unfold store_departure.
  destruct (dict_get contractor (get_top σ config)) as [r|] eqn:Hr; [|exact Hframe].
  destruct (dict_get route (get_routes σ r)) as [c|] eqn:Hc; [|exact Hframe].
  assert (Hr0 : (length (route_dicts σ0) <= r)%nat).
  { unfold get_top in Hr. destruct (top_dicts σ !! config) as [items|] eqn:E; [|discriminate].
    exact (dict_get_Forall _ _ _ _ (frame_tops _ _ Hframe config items Hconfig E) Hr). }
  assert (Hc0 : (length (cfg_dicts σ0) <= c)%nat).
  { unfold get_routes in Hc. destruct (route_dicts σ !! r) as [items|] eqn:E; [|discriminate].
    exact (dict_get_Forall _ _ _ _ (frame_routes _ _ Hframe r items Hr0 E) Hc). }
  destruct Hframe as [(Ht & Hrs & Hcs) Htops Hroutes].
  split; simpl; [|exact Htops|exact Hroutes].
  split; [exact Ht|]. split; [exact Hrs|]. apply prefix_insert_ge; assumption.
Qed.

Section Keeps.
Variable dump_points : hierarchy.
Variables empty_speed loaded_speed : Q.
Variable lookup : option RouteTimeLookup.
Variable spacing : Q.
Variable σ0 : heap.

Lemma keeps_candidate_config (contractor_configs : loc)
    (contractor route candidate : string) (baseline : option loc) :
  keeps σ0 (candidate_config contractor_configs contractor route candidate baseline)
    (fun _ => True).
Proof.
  unfold candidate_config.
  eapply keeps_bind; [apply keeps_alloc_copy|]. intros config Hconfig.
  eapply keeps_bind.
  { apply keeps_modify. intros σ Hσ. apply store_departure_frame; assumption. }
  intros _ _. eapply keeps_bind; [apply keeps_gets|]. intros items _.
  apply keeps_ret. exact I.
Qed.

Lemma keeps_evaluate (contractor_configs : loc) (contractor route candidate : string)
    (baseline : option loc) :
  keeps σ0
    (evaluate_departure_for_route dump_points empty_speed loaded_speed lookup spacing
       contractor_configs contractor route candidate baseline)
    (fun _ => True).
Proof.
  unfold evaluate_departure_for_route.
  eapply keeps_bind; [apply keeps_candidate_config|]. intros [config items] _.
  eapply keeps_bind; [apply keeps_lift|]. intros waits _.
  apply keeps_ret. exact I.
Qed.

Lemma keeps_try_candidate (contractor_configs : loc) (contractor route : string)
    (st : string * option Q) (candidate : string) :
  keeps σ0
    (try_candidate dump_points empty_speed loaded_speed lookup spacing
       contractor_configs contractor route st candidate)
    (fun _ => True).
Proof.
  unfold try_candidate. destruct st as [best_depart best_total].
  eapply keeps_bind; [apply keeps_evaluate|]. intros [total waits] _.
  destruct (below total best_total); apply keeps_ret; exact I.
Qed.

Lemma keeps_optimise_route (contractor_configs : loc) (candidates : list string)
    (contractor : string) (recommended : recommendations) (item : string * loc) :
  keeps σ0
    (optimise_route dump_points empty_speed loaded_speed lookup spacing
       contractor_configs candidates contractor recommended item)
    (fun _ => True).
Proof.
  unfold optimise_route. destruct item as [route cfg].
  eapply keeps_bind; [apply keeps_gets|]. intros cfg_now _.
  eapply keeps_bind.
  { apply keeps_for_eachM. intros s x. apply keeps_try_candidate. }
  intros [best_depart best_total] _. apply keeps_ret. exact I.
Qed.

Lemma keeps_optimise_contractor (contractor_configs : loc) (candidates : list string)
    (recommended : recommendations) (item : string * loc) :
  keeps σ0
    (optimise_contractor dump_points empty_speed loaded_speed lookup spacing
       contractor_configs candidates recommended item)
    (fun _ => True).
Proof.
  unfold optimise_contractor. destruct item as [contractor routes].
  eapply keeps_bind; [apply keeps_gets|]. intros items _.
  apply keeps_for_eachM. intros s x. apply keeps_optimise_route.
Qed.

Lemma keeps_apply_recommended (updated_config : loc)
    (item : string * list (string * (string * string))) :
  (length (top_dicts σ0) <= updated_config)%nat ->
  keeps σ0 (apply_recommended updated_config item) (fun _ => True).
Proof.
  intros Hfresh. unfold apply_recommended. destruct item as [contractor routes].
  apply keeps_for_eachM. intros [] [route times].
  eapply keeps_weaken.
  - apply keeps_modify. intros σ Hσ. apply store_departure_frame; assumption.
  - auto.
Qed.

Lemma keeps_optimise (contractor_configs : loc) (candidates : list string) :
  keeps σ0
    (optimise_departure_times dump_points empty_speed loaded_speed lookup spacing
       contractor_configs candidates)
    (fun _ => True).
Proof.
  unfold optimise_departure_times.
  eapply keeps_bind; [apply keeps_gets|]. intros original _.
  eapply keeps_bind; [apply keeps_lift|]. intros baseline _.
  eapply keeps_bind; [apply keeps_gets|]. intros top_items _.
  eapply keeps_bind.
  { apply keeps_for_eachM. intros s x. apply keeps_optimise_contractor. }
  intros recommended _.
  eapply keeps_bind; [apply keeps_alloc_copy|]. intros updated Hupdated.
  eapply keeps_bind.
  { apply keeps_for_eachM. intros [] item.
    eapply keeps_weaken; [apply keeps_apply_recommended; exact Hupdated|auto]. }
  intros _ _. eapply keeps_bind; [apply keeps_gets|]. intros updated_items _.
  eapply keeps_bind; [apply keeps_lift|]. intros optimised _.
  apply keeps_ret. exact I.
Qed.
End Keeps.

(** A well-formed configuration reads the same in every later heap. *)
Lemma wf_routes_spec (σ : heap) (r : loc) :
  wf_routes σ r = true ->
  (r < length (route_dicts σ))%nat
  /\ Forall (fun kv => (snd kv < length (cfg_dicts σ))%nat) (get_routes σ r).
Proof.
  unfold wf_routes. intros H. apply andb_prop in H as [H1 H2].
  apply andb_prop in H1 as [H1 _].
  split; [apply bool_decide_eq_true in H1; exact H1|].
  apply Forall_forall. intros kv Hin.
  apply list_elem_of_In in Hin. rewrite forallb_forall in H2. specialize (H2 kv Hin).
  apply bool_decide_eq_true in H2. exact H2.
Qed.

Lemma wf_config_spec (σ : heap) (l : loc) :
  wf_config σ l = true ->
  (l < length (top_dicts σ))%nat
  /\ Forall (fun kv => wf_routes σ (snd kv) = true) (get_top σ l).
Proof.
  unfold wf_config. intros H. apply andb_prop in H as [H1 H2].
  apply andb_prop in H1 as [H1 _].
  split; [apply bool_decide_eq_true in H1; exact H1|].
  apply Forall_forall. intros kv Hin.
  apply list_elem_of_In in Hin. rewrite forallb_forall in H2. exact (H2 kv Hin).
Qed.



Lemma extends_get_top (σ σ' : heap) (l : loc) :
  extends σ σ' -> (l < length (top_dicts σ))%nat -> get_top σ' l = get_top σ l.
Proof.
  intros (Ht & _ & _) Hl. unfold get_top. rewrite (prefix_lookup_lt _ _ _ Hl Ht). reflexivity.
Qed.

Lemma extends_get_routes (σ σ' : heap) (r : loc) :
  extends σ σ' -> (r < length (route_dicts σ))%nat -> get_routes σ' r = get_routes σ r.
Proof.
  intros (_ & Hr & _) Hl. unfold get_routes. rewrite (prefix_lookup_lt _ _ _ Hl Hr). reflexivity.
Qed.

Lemma extends_get_cfg (σ σ' : heap) (c : loc) :
  extends σ σ' -> (c < length (cfg_dicts σ))%nat -> get_cfg σ' c = get_cfg σ c.
Proof.
  intros (_ & _ & Hc) Hl. unfold get_cfg. rewrite (prefix_lookup_lt _ _ _ Hl Hc). reflexivity.
Qed.

Lemma extends_read_routes (σ σ' : heap) (r : loc) :
  extends σ σ' -> wf_routes σ r = true -> read_routes σ' r = read_routes σ r.
Proof.
  intros Hext Hwf. apply wf_routes_spec in Hwf as [Hr Hall].
  unfold read_routes. rewrite (extends_get_routes _ _ _ Hext Hr).
  induction Hall as [|kv rest Hkv _ IH]; simpl; [reflexivity|].
  rewrite (extends_get_cfg _ _ _ Hext Hkv), IH. reflexivity.
Qed.

Lemma extends_read_config (σ σ' : heap) (l : loc) :
  extends σ σ' -> wf_config σ l = true -> read_config σ' l = read_config σ l.
Proof.
  intros Hext Hwf. apply wf_config_spec in Hwf as [Hl Hall].
  unfold read_config. rewrite (extends_get_top _ _ _ Hext Hl).
  induction Hall as [|kv rest Hkv _ IH]; simpl; [reflexivity|].
  rewrite (extends_read_routes _ _ _ Hext Hkv), IH. reflexivity.
Qed.

(** C9: whatever the hierarchy, speeds, lookup, spacing and
    candidates, and whether [optimise_departure_times] returns or
    raises, every object that existed before the call is unchanged after
    it, and the caller's configuration reads exactly as before. *)
Theorem optimise_departure_times_preserves_config
    (dump_points : hierarchy) (empty_speed loaded_speed : Q)
    (lookup : option RouteTimeLookup) (spacing : Q)
    (σ : heap) (contractor_configs : loc) (candidate_times : list string) :
  wf_config σ contractor_configs = true ->
  forall σ' outcome,
    optimise_departure_times dump_points empty_speed loaded_speed lookup spacing
      contractor_configs candidate_times σ = (σ', outcome) ->
    extends σ σ'
    /\ read_config σ' contractor_configs = read_config σ contractor_configs.
Proof.
  intros Hwf σ' outcome Hrun.
  destruct (keeps_optimise dump_points empty_speed loaded_speed lookup spacing σ
              contractor_configs candidate_times σ (frame_refl σ)) as [Hframe _].
  rewrite Hrun in Hframe. simpl in Hframe.
  pose proof (frame_extends _ _ Hframe) as Hext.
  split; [exact Hext|]. apply extends_read_config; assumption.
Qed.

Lemma optimise_departure_times_preserves_config_witness :
  wf_config small_heap 0 = true
  /\ read_config
       (fst (optimise_departure_times FENI_DUMP_POINTS 40 30 None 0.02 0%nat
               small_candidates small_heap)) 0
     = read_config small_heap 0.
Proof.
  split; [reflexivity|].
  eapply (optimise_departure_times_preserves_config FENI_DUMP_POINTS 40 30 None 0.02
            small_heap 0%nat small_candidates).
  - reflexivity.
  - apply surjective_pairing.
Defined.

(** ** The configuration that a candidate is simulated on *)

(** *** Assigning a departure time, seen as a value *)

Lemma with_departure_route_absent (route t : string) (see : loc -> route_cfg)
    (items : list (string * loc)) :
  dict_get route items = None ->
  with_departure_route route t (view_routes see items) = view_routes see items.
Proof.
  induction items as [|[k c] rest IH]; simpl; [reflexivity|].
  destruct (String.eqb route k); [discriminate|]. intros H. rewrite (IH H). reflexivity.
Qed.

Lemma view_routes_ext (see see' : loc -> route_cfg) (items : list (string * loc)) :
  Forall (fun kv => see' (snd kv) = see (snd kv)) items ->
  view_routes see' items = view_routes see items.
Proof.
  induction 1 as [|kv rest Hkv _ IH]; simpl; [reflexivity|]. rewrite Hkv, IH. reflexivity.
Qed.

Lemma dict_get_elem {V : Type} (k : string) (d : list (string * V)) (v : V) :
  dict_get k d = Some v -> v ∈ map snd d.
Proof.
  induction d as [|[k' v'] rest IH]; simpl; [discriminate|].
  destruct (String.eqb k k'); [intros [= <-]; left|intros H; right; auto].
Qed.

Lemma elem_of_concat {A : Type} (x : A) (xs : list A) (xss : list (list A)) :
  x ∈ xs -> xs ∈ xss -> x ∈ concat xss.
Proof.
  intros Hx Hxs. apply list_elem_of_In. apply in_concat. exists xs.
  split; apply list_elem_of_In; assumption.
Qed.

Section Assign.
Variable see : loc -> route_cfg.
Variable c_ : loc.
Variable t : string.
Let assigned := assigned see c_ t.

Lemma assigned_elsewhere (items : list (string * loc)) :
  c_ ∉ map snd items -> view_routes assigned items = view_routes see items.
Proof.
  intros Hnot. apply view_routes_ext. apply Forall_forall. intros [k c] Hin.
  unfold assigned, Notions.assigned. simpl.
  destruct (decide (c = c_)) as [->|]; [|reflexivity].
  exfalso. apply Hnot. apply list_elem_of_fmap. exists (k, c_). split; [reflexivity|exact Hin].
Qed.

Lemma assigned_route (route : string) (items : list (string * loc)) :
  NoDup (map snd items) ->
  dict_get route items = Some c_ ->
  view_routes assigned items = with_departure_route route t (view_routes see items).
Proof.
  induction items as [|[k c] rest IH]; simpl; [discriminate|].
  intros Hnodup. apply NoDup_cons in Hnodup as [Hc Hrest].
  destruct (String.eqb route k).
  - intros [= ->]. f_equal.
    + unfold assigned, Notions.assigned. rewrite decide_True by reflexivity. reflexivity.
    + apply assigned_elsewhere. exact Hc.
  - intros Hget. rewrite (IH Hrest Hget). f_equal.
    unfold assigned, Notions.assigned. simpl.
    destruct (decide (c = c_)) as [->|]; [|reflexivity].
    exfalso. apply Hc. eapply dict_get_elem. exact Hget.
Qed.
End Assign.

Lemma with_departure_absent (σ : heap) (see : loc -> route_cfg) (contractor route t : string)
    (top_items : list (string * loc)) :
  target σ top_items contractor route = None ->
  with_departure contractor route t (view_config σ see top_items)
  = view_config σ see top_items.
Proof.
  unfold target. induction top_items as [|[k r] rest IH]; simpl; [reflexivity|].
  destruct (String.eqb contractor k).
  - intros H. rewrite with_departure_route_absent by exact H. reflexivity.
  - intros H. rewrite (IH H). reflexivity.
Qed.

Lemma assigned_config (σ : heap) (see : loc -> route_cfg) (contractor route t : string)
    (c_ : loc) (top_items : list (string * loc)) :
  NoDup (concat (map (fun kv => map snd (get_routes σ (snd kv))) top_items)) ->
  target σ top_items contractor route = Some c_ ->
  view_config σ (assigned see c_ t) top_items
  = with_departure contractor route t (view_config σ see top_items).
Proof.
  unfold target. induction top_items as [|[k r] rest IH]; simpl; [discriminate|].
  intros Hnodup. apply NoDup_app in Hnodup as (Hhd & Hdisj & Htl).
  destruct (String.eqb contractor k).
  - intros Hget. f_equal.
    + f_equal. apply assigned_route; assumption.
    + clear IH. induction rest as [|[k' r'] rest IH']; simpl; [reflexivity|].
      simpl in Htl, Hdisj. apply NoDup_app in Htl as (_ & _ & Htl').
      rewrite IH'; [|intros x Hx Hx'; apply (Hdisj x Hx); apply elem_of_app; right; exact Hx'
                    |exact Htl'].
      f_equal. f_equal. apply assigned_elsewhere.
      intros Hin. apply (Hdisj c_); [eapply dict_get_elem; exact Hget|].
      apply elem_of_app. left. exact Hin.
  - intros Hget. rewrite (IH Htl Hget). f_equal. f_equal.
    apply assigned_elsewhere. intros Hin. apply (Hdisj c_ Hin).
    destruct (dict_get contractor rest) as [r'|] eqn:Hr'; [|discriminate].
    apply dict_get_elem in Hr'. apply dict_get_elem in Hget.
    apply (elem_of_concat _ (map snd (get_routes σ r'))); [exact Hget|].
    apply list_elem_of_fmap in Hr' as [[k' r''] [-> Hin']].
    apply list_elem_of_fmap. exists (k', r''). split; [reflexivity|exact Hin'].
Qed.

Lemma get_cfg_assigned (σ : heap) (c_ : loc) (t : string) (x : loc) :
  (c_ < length (cfg_dicts σ))%nat ->
  get_cfg (mk_heap (top_dicts σ) (route_dicts σ)
             (<[c_ := set_departure_time (get_cfg σ c_) t]> (cfg_dicts σ))) x
  = assigned (get_cfg σ) c_ t x.
Proof.
  intros Hc. unfold get_cfg at 1, assigned. simpl.
  destruct (decide (x = c_)) as [->|Hne].
  - rewrite list_lookup_insert_eq by exact Hc. reflexivity.
  - rewrite list_lookup_insert_ne by congruence. reflexivity.
Qed.

Lemma view_config_ext (σ : heap) (see see' : loc -> route_cfg)
    (top_items : list (string * loc)) :
  (forall x, see' x = see x) -> view_config σ see' top_items = view_config σ see top_items.
Proof.
  intros Hext. unfold view_config. apply map_ext. intros [k r]. simpl. f_equal.
  apply view_routes_ext. apply Forall_forall. intros kv _. apply Hext.
Qed.

Lemma target_elem (σ : heap) (l : loc) (contractor route : string) (c_ : loc) :
  target σ (get_top σ l) contractor route = Some c_ -> c_ ∈ cfg_refs σ l.
Proof.
  unfold target, cfg_refs, route_refs.
  destruct (dict_get contractor (get_top σ l)) as [r|] eqn:Hr; [|discriminate].
  intros Hc. apply dict_get_elem in Hr, Hc.
  apply (elem_of_concat _ (map snd (get_routes σ r))); [exact Hc|].
  apply list_elem_of_fmap. exists r. split; [reflexivity|exact Hr].
Qed.

(** Assigning through [config[contractor][route]] in an unshared
    configuration changes the departure time of that one route. *)
Lemma store_departure_read (σ : heap) (l : loc) (contractor route t : string) :
  NoDup (cfg_refs σ l) ->
  Forall (fun c => (c < length (cfg_dicts σ))%nat) (cfg_refs σ l) ->
  read_config (store_departure σ l contractor route t) l
  = with_departure contractor route t (read_config σ l).
Proof.
  intros Hnodup Hrange.
  change (read_config σ l) with (view_config σ (get_cfg σ) (get_top σ l)).
  destruct (target σ (get_top σ l) contractor route) as [c_|] eqn:Htarget.
  - assert (Hstore : store_departure σ l contractor route t
                     = mk_heap (top_dicts σ) (route_dicts σ)
                         (<[c_ := set_departure_time (get_cfg σ c_) t]> (cfg_dicts σ))).
    { unfold store_departure. unfold target in Htarget.
      destruct (dict_get contractor (get_top σ l)) as [r|]; [|discriminate].
      rewrite Htarget. reflexivity. }
    rewrite Hstore.
    assert (Hc : (c_ < length (cfg_dicts σ))%nat).
    { rewrite Forall_forall in Hrange. apply Hrange. eapply target_elem. exact Htarget. }
    rewrite <- (assigned_config σ (get_cfg σ) contractor route t c_ (get_top σ l)).
    + rewrite <- (view_config_ext σ _ _ (get_top σ l)
                    (fun x => get_cfg_assigned σ c_ t x Hc)).
      reflexivity.
    + unfold cfg_refs, route_refs in Hnodup. rewrite map_map in Hnodup. exact Hnodup.
    + exact Htarget.
  - assert (Hstore : store_departure σ l contractor route t = σ).
    { unfold store_departure. unfold target in Htarget.
      destruct (dict_get contractor (get_top σ l)) as [r|]; [|reflexivity].
      rewrite Htarget. reflexivity. }
    rewrite Hstore. rewrite with_departure_absent by exact Htarget. reflexivity.
Qed.

(** *** [deepcopy] of an unshared configuration *)

Lemma get_cfg_app (σ : heap) (tops routes : list (list (string * loc)))
    (extra : list route_cfg) (c : loc) :
  (c < length (cfg_dicts σ))%nat ->
  get_cfg (mk_heap tops routes (cfg_dicts σ ++ extra)) c = get_cfg σ c.
Proof. intros Hc. unfold get_cfg. simpl. rewrite lookup_app_l by exact Hc. reflexivity. Qed.

Lemma map_get_cfg_app (σ : heap) (tops routes : list (list (string * loc)))
    (extra : list route_cfg) (refs : list loc) :
  Forall (fun c => (c < length (cfg_dicts σ))%nat) refs ->
  map (get_cfg (mk_heap tops routes (cfg_dicts σ ++ extra))) refs = map (get_cfg σ) refs.
Proof.
  induction 1 as [|c rest Hc _ IH]; simpl; [reflexivity|].
  rewrite get_cfg_app by exact Hc. rewrite IH. reflexivity.
Qed.

Lemma Forall_impl_elem {A : Type} (P Q : A -> Prop) (xs : list A) :
  Forall P xs -> (forall x, x ∈ xs -> P x -> Q x) -> Forall Q xs.
Proof.
  intros HP Himpl. apply Forall_forall. intros x Hx.
  apply (Himpl x Hx). rewrite Forall_forall in HP. exact (HP x Hx).
Qed.

(** With no reference in the memo and none repeated, the settings are
    copied one after the other to the end of the store. *)
Lemma copy_cfgs_closed (items : list (string * loc)) :
  forall (memo : gmap loc loc) (σ : heap),
    NoDup (map snd items) ->
    Forall (fun c => memo !! c = None /\ (c < length (cfg_dicts σ))%nat) (map snd items) ->
    exists memo',
      copy_items copy_cfg (memo, σ) items
      = ((memo', mk_heap (top_dicts σ) (route_dicts σ)
                   (cfg_dicts σ ++ map (get_cfg σ) (map snd items))),
         fresh_refs (length (cfg_dicts σ)) items)
      /\ forall x, x ∉ map snd items -> memo' !! x = memo !! x.
Proof.
  induction items as [|[k c] rest IH]; intros memo σ Hnodup Hall.
  - exists memo. simpl. rewrite app_nil_r. destruct σ. auto.
  - simpl in Hnodup, Hall. apply NoDup_cons in Hnodup as [Hc Hrest].
    apply Forall_cons in Hall as [[Hmemo Hrange] Hall].
    cbn [copy_items]. unfold copy_cfg at 1. rewrite Hmemo.
    set (σ1 := mk_heap (top_dicts σ) (route_dicts σ) (cfg_dicts σ ++ [get_cfg σ c])).
    destruct (IH (<[c := length (cfg_dicts σ)]> memo) σ1 Hrest) as (memo' & Hrun & Hsame).
    { apply (Forall_impl_elem _ _ _ Hall). intros x Hx [Hm Hr].
      split.
      - rewrite lookup_insert_ne; [exact Hm|]. intros ->. contradiction.
      - unfold σ1. simpl. rewrite length_app. lia. }
    exists memo'. rewrite Hrun. split.
    + unfold σ1. simpl. rewrite length_app. simpl.
      rewrite (map_get_cfg_app σ)
        by (apply (Forall_impl_elem _ _ _ Hall); intros x _ [_ Hx]; exact Hx).
      rewrite <- app_assoc. simpl. unfold fresh_refs. simpl.
      rewrite Nat.add_1_r. reflexivity.
    + intros x Hx. rewrite Hsame.
      * apply lookup_insert_ne. intros ->. apply Hx. left.
      * intros Hin. apply Hx. right. exact Hin.
Qed.

Lemma get_routes_app (σ : heap) (tops : list (list (string * loc)))
    (extra : list (list (string * loc))) (cfgs : list route_cfg) (r : loc) :
  (r < length (route_dicts σ))%nat ->
  get_routes (mk_heap tops (route_dicts σ ++ extra) cfgs) r = get_routes σ r.
Proof. intros Hr. unfold get_routes. simpl. rewrite lookup_app_l by exact Hr. reflexivity. Qed.

Lemma copy_routes_closed (ritems : list (string * loc)) :
  forall (memo_r memo_c : gmap loc loc) (σ : heap),
    NoDup (map snd ritems) ->
    NoDup (concat (map (fun kv => map snd (get_routes σ (snd kv))) ritems)) ->
    Forall (fun r => memo_r !! r = None /\ (r < length (route_dicts σ))%nat) (map snd ritems) ->
    Forall (fun c => memo_c !! c = None /\ (c < length (cfg_dicts σ))%nat)
      (concat (map (fun kv => map snd (get_routes σ (snd kv))) ritems)) ->
    exists memo_r' memo_c',
      copy_items copy_routes (memo_r, (memo_c, σ)) ritems
      = ((memo_r',
          (memo_c',
           mk_heap (top_dicts σ)
             (route_dicts σ
              ++ relocate (length (cfg_dicts σ)) (map (fun kv => get_routes σ (snd kv)) ritems))
             (cfg_dicts σ
              ++ map (get_cfg σ)
                   (concat (map (fun kv => map snd (get_routes σ (snd kv))) ritems))))),
         fresh_refs (length (route_dicts σ)) ritems).
Proof.
  induction ritems as [|[k r] rest IH]; intros memo_r memo_c σ Hnd_r Hnd_c Hall_r Hall_c.
  - exists memo_r, memo_c. simpl. rewrite !app_nil_r. destruct σ. reflexivity.
  - simpl in Hnd_r, Hnd_c, Hall_r, Hall_c.
    apply NoDup_cons in Hnd_r as [Hr Hnd_rest].
    apply NoDup_app in Hnd_c as (Hnd_items & Hdisj & Hnd_tail).
    apply Forall_cons in Hall_r as [[Hmemo_r Hrange_r] Hall_rest].
    apply Forall_app in Hall_c as [Hall_items Hall_tail].
    cbn [copy_items]. unfold copy_routes at 1. rewrite Hmemo_r. cbn [snd].
    destruct (copy_cfgs_closed (get_routes σ r) memo_c σ Hnd_items Hall_items)
      as (memo_c1 & -> & Hsame).
    cbn [top_dicts route_dicts cfg_dicts].
    set (σb := mk_heap (top_dicts σ)
                 (route_dicts σ ++ [fresh_refs (length (cfg_dicts σ)) (get_routes σ r)])
                 (cfg_dicts σ ++ map (get_cfg σ) (map snd (get_routes σ r)))).
    assert (Hroutes : forall kv, kv ∈ rest -> get_routes σb (snd kv) = get_routes σ (snd kv)).
    { intros kv Hkv. unfold σb. apply get_routes_app.
      rewrite Forall_forall in Hall_rest. apply Hall_rest.
      apply list_elem_of_fmap. exists kv. split; [reflexivity|exact Hkv]. }
    assert (Hdicts : map (fun kv => get_routes σb (snd kv)) rest
                     = map (fun kv => get_routes σ (snd kv)) rest).
    { apply map_ext_in. intros kv Hkv. apply Hroutes. apply list_elem_of_In. exact Hkv. }
    assert (Hrefs : map (fun kv => map snd (get_routes σb (snd kv))) rest
                    = map (fun kv => map snd (get_routes σ (snd kv))) rest).
    { apply map_ext_in. intros kv Hkv. rewrite Hroutes; [reflexivity|].
      apply list_elem_of_In. exact Hkv. }
    destruct (IH (<[r := length (route_dicts σ)]> memo_r) memo_c1 σb) as (memo_r' & memo_c' & Hrun).
    + exact Hnd_rest.
    + rewrite Hrefs. exact Hnd_tail.
    + apply (Forall_impl_elem _ _ _ Hall_rest). intros x Hx [Hm Hlt].
      split.
      * rewrite lookup_insert_ne; [exact Hm|]. intros ->. contradiction.
      * unfold σb. simpl. rewrite length_app. lia.
    + rewrite Hrefs. apply (Forall_impl_elem _ _ _ Hall_tail).
      intros x Hx [Hm Hlt]. split.
      * rewrite Hsame; [exact Hm|]. intros Hin. exact (Hdisj x Hin Hx).
      * unfold σb. simpl. rewrite length_app. lia.
    + exists memo_r', memo_c'. rewrite Hrun. rewrite Hdicts, Hrefs.
      unfold σb. cbn [top_dicts route_dicts cfg_dicts].
      rewrite (map_get_cfg_app σ)
        by (apply (Forall_impl_elem _ _ _ Hall_tail); intros x _ [_ Hx]; exact Hx).
      rewrite !length_app, !length_map. cbn [length relocate map concat].
      rewrite map_app, <- !app_assoc. cbn [app].
      unfold fresh_refs at 3. cbn [map length seq zip zip_with].
      rewrite Nat.add_1_r. reflexivity.
Qed.

Lemma wf_config_refs (σ : heap) (l : loc) :
  wf_config σ l = true ->
  Forall (fun r => (r < length (route_dicts σ))%nat) (route_refs σ l)
  /\ Forall (fun c => (c < length (cfg_dicts σ))%nat) (cfg_refs σ l).
Proof.
  intros Hwf. apply wf_config_spec in Hwf as [_ Hall].
  unfold cfg_refs, route_refs.
  induction Hall as [|[k r] rest Hr _ [IHr IHc]]; simpl; [split; constructor|].
  apply wf_routes_spec in Hr as [Hr Hcs]. split.
  - constructor; assumption.
  - apply Forall_app. split; [|exact IHc]. apply Forall_fmap. exact Hcs.
Qed.

Lemma deepcopy_closed (σ : heap) (l : loc) :
  Forall (fun r => (r < length (route_dicts σ))%nat) (route_refs σ l) ->
  Forall (fun c => (c < length (cfg_dicts σ))%nat) (cfg_refs σ l) ->
  unshared σ l ->
  deepcopy σ l = (plain_copy σ l, length (top_dicts σ)).
Proof.
  intros Hr Hc [Hnd_r Hnd_c].
  unfold cfg_refs, route_refs in *. rewrite map_map in Hnd_c, Hc.
  unfold deepcopy.
  destruct (copy_routes_closed (get_top σ l) ∅ ∅ σ) as (memo_r & memo_c & ->).
  - exact Hnd_r.
  - exact Hnd_c.
  - apply (Forall_impl_elem _ _ _ Hr). intros x _ Hx. split; [apply lookup_empty|exact Hx].
  - apply (Forall_impl_elem _ _ _ Hc). intros x _ Hx. split; [apply lookup_empty|exact Hx].
  - reflexivity.
Qed.

(** *** What the copy looks like *)

Lemma fresh_refs_fst (base : nat) (items : list (string * loc)) :
  map fst (fresh_refs base items) = map fst items.
Proof.
  unfold fresh_refs. revert base.
  induction items as [|[k c] rest IH]; intros base; simpl; [reflexivity|].
  rewrite IH. reflexivity.
Qed.

Lemma fresh_refs_snd (base : nat) (items : list (string * loc)) :
  map snd (fresh_refs base items) = seq base (length items).
Proof.
  unfold fresh_refs. revert base.
  induction items as [|[k c] rest IH]; intros base; simpl; [reflexivity|].
  rewrite IH. reflexivity.
Qed.

Lemma relocate_refs (base : nat) (dicts : list (list (string * loc))) :
  concat (map (map snd) (relocate base dicts))
  = seq base (length (concat (map (map snd) dicts))).
Proof.
  revert base. induction dicts as [|d rest IH]; intros base; simpl; [reflexivity|].
  rewrite fresh_refs_snd, IH, length_app, length_map, seq_app. reflexivity.
Qed.

Lemma lookups_seq {A : Type} (d0 : A) (xs pre : list A) :
  map (fun i => default d0 ((pre ++ xs) !! i)) (seq (length pre) (length xs)) = xs.
Proof.
  revert pre. induction xs as [|x xs IH]; intros pre; simpl; [reflexivity|].
  rewrite list_lookup_middle by reflexivity. simpl. f_equal.
  specialize (IH (pre ++ [x])). rewrite length_app, <- app_assoc in IH. simpl in IH.
  rewrite Nat.add_1_r in IH. exact IH.
Qed.

Lemma relocate_length (base : nat) (dicts : list (list (string * loc))) :
  length (relocate base dicts) = length dicts.
Proof.
  revert base. induction dicts as [|d rest IH]; intros base; simpl; [reflexivity|].
  rewrite IH. reflexivity.
Qed.

Section PlainCopy.
Variable σ : heap.
Variable l : loc.

Let top_items := get_top σ l.
Let dicts := map (fun kv => get_routes σ (snd kv)) top_items.
Let refs := concat (map (fun kv => map snd (get_routes σ (snd kv))) top_items).
Let σ1 := plain_copy σ l.
Let l1 := length (top_dicts σ).

Lemma plain_copy_top : get_top σ1 l1 = fresh_refs (length (route_dicts σ)) top_items.
Proof.
  unfold get_top, σ1, l1, plain_copy. simpl.
  rewrite list_lookup_middle by reflexivity. reflexivity.
Qed.

Lemma plain_copy_route_refs : route_refs σ1 l1 = seq (length (route_dicts σ)) (length dicts).
Proof.
  unfold route_refs. rewrite plain_copy_top, fresh_refs_snd.
  unfold dicts. rewrite length_map. reflexivity.
Qed.

Lemma plain_copy_routes :
  map (get_routes σ1) (seq (length (route_dicts σ)) (length dicts))
  = relocate (length (cfg_dicts σ)) dicts.
Proof.
  unfold get_routes, σ1, plain_copy. simpl. fold top_items. fold dicts.
  rewrite <- (relocate_length (length (cfg_dicts σ)) dicts).
  apply lookups_seq.
Qed.

Lemma dicts_refs : concat (map (map snd) dicts) = refs.
Proof. unfold dicts, refs. rewrite map_map. reflexivity. Qed.

Lemma plain_copy_cfg_refs : cfg_refs σ1 l1 = seq (length (cfg_dicts σ)) (length refs).
Proof.
  unfold cfg_refs. rewrite plain_copy_route_refs.
  rewrite <- (map_map (get_routes σ1) (map snd)).
  rewrite plain_copy_routes, relocate_refs, dicts_refs. reflexivity.
Qed.

Lemma plain_copy_unshared : NoDup (cfg_refs σ1 l1).
Proof. rewrite plain_copy_cfg_refs. apply NoDup_seq. Qed.

Lemma plain_copy_in_range :
  Forall (fun c => (c < length (cfg_dicts σ1))%nat) (cfg_refs σ1 l1).
Proof.
  rewrite plain_copy_cfg_refs. apply Forall_forall. intros c Hc.
  apply elem_of_seq in Hc. unfold σ1, plain_copy. simpl. fold top_items. fold refs.
  rewrite length_app, length_map. lia.
Qed.

End PlainCopy.

Lemma view_fresh_refs (see1 see : loc -> route_cfg) (d : list (string * loc)) :
  forall base,
    (forall i kv, d !! i = Some kv -> see1 (base + i)%nat = see (snd kv)) ->
    view_routes see1 (fresh_refs base d) = view_routes see d.
Proof.
  unfold fresh_refs.
  induction d as [|[k c] rest IH]; intros base Hsee; simpl; [reflexivity|].
  f_equal.
  - f_equal. pose proof (Hsee 0%nat (k, c) eq_refl) as H0.
    rewrite Nat.add_0_r in H0. exact H0.
  - apply IH. intros i kv Hi. pose proof (Hsee (S i) kv Hi) as HS.
    rewrite Nat.add_succ_r in HS. exact HS.
Qed.

Lemma view_relocate (see1 see : loc -> route_cfg) (dicts : list (list (string * loc))) :
  forall base,
    (forall i c, concat (map (map snd) dicts) !! i = Some c -> see1 (base + i)%nat = see c) ->
    map (view_routes see1) (relocate base dicts) = map (view_routes see) dicts.
Proof.
  induction dicts as [|d rest IH]; intros base Hsee; simpl; [reflexivity|].
  simpl in Hsee. f_equal.
  - apply view_fresh_refs. intros i kv Hi. apply Hsee.
    apply lookup_app_l_Some. rewrite list_lookup_fmap, Hi. reflexivity.
  - apply IH. intros i c Hi.
    rewrite <- Nat.add_assoc. apply Hsee.
    rewrite lookup_app_r by (rewrite length_map; lia).
    rewrite length_map. replace (length d + i - length d)%nat with i by lia. exact Hi.
Qed.

Lemma map_fresh_refs {B : Type} (F : loc -> B) (items : list (string * loc)) :
  forall base,
    map (fun kv => (fst kv, F (snd kv))) (fresh_refs base items)
    = zip (map fst items) (map F (seq base (length items))).
Proof.
  unfold fresh_refs.
  induction items as [|[k c] rest IH]; intros base; simpl; [reflexivity|].
  rewrite IH. reflexivity.
Qed.

Lemma map_items {B : Type} (G : loc -> B) (items : list (string * loc)) :
  map (fun kv => (fst kv, G (snd kv))) items
  = zip (map fst items) (map G (map snd items)).
Proof.
  induction items as [|[k c] rest IH]; simpl; [reflexivity|]. rewrite IH. reflexivity.
Qed.

(** The copy reads as the original. *)
Lemma plain_copy_read (σ : heap) (l : loc) :
  read_config (plain_copy σ l) (length (top_dicts σ)) = read_config σ l.
Proof.
  unfold read_config at 1. rewrite plain_copy_top.
  rewrite (map_fresh_refs (read_routes (plain_copy σ l))).
  unfold read_config. rewrite (map_items (read_routes σ)). f_equal.
  change (read_routes (plain_copy σ l))
    with (fun r => view_routes (get_cfg (plain_copy σ l)) (get_routes (plain_copy σ l) r)).
  change (read_routes σ) with (fun r => view_routes (get_cfg σ) (get_routes σ r)).
  rewrite <- (map_map (get_routes (plain_copy σ l)) (view_routes (get_cfg (plain_copy σ l)))).
  rewrite <- (map_map (get_routes σ) (view_routes (get_cfg σ))).
  rewrite map_map with (f := snd).
  replace (length (get_top σ l))
    with (length (map (fun kv => get_routes σ (snd kv)) (get_top σ l)))
    by apply length_map.
  rewrite plain_copy_routes.
  apply view_relocate. intros i c Hi.
  unfold get_cfg at 1, plain_copy. simpl.
  rewrite lookup_app_r by lia.
  replace (length (cfg_dicts σ) + i - length (cfg_dicts σ))%nat with i by lia.
  rewrite dicts_refs in Hi. rewrite list_lookup_fmap, Hi. reflexivity.
Qed.

(** A well-formed configuration has the same references in every later
    heap. *)
Lemma extends_refs (σ0 σ : heap) (l : loc) :
  extends σ0 σ -> wf_config σ0 l = true ->
  route_refs σ l = route_refs σ0 l /\ cfg_refs σ l = cfg_refs σ0 l.
Proof.
  intros Hext Hwf. pose proof (wf_config_refs σ0 l Hwf) as [Hr _].
  apply wf_config_spec in Hwf as [Hl _].
  unfold cfg_refs, route_refs in *. rewrite (extends_get_top _ _ _ Hext Hl).
  split; [reflexivity|]. f_equal.
  induction Hr as [|r rest Hr _ IH]; simpl; [reflexivity|].
  rewrite (extends_get_routes _ _ _ Hext Hr), IH. reflexivity.
Qed.

(** The configuration that [evaluate_departure_for_route] simulates:
    the original with the departure time of the one route replaced, in
    whatever later heap the copy is made. *)
Lemma candidate_config_read (σ0 σ : heap) (l : loc) (contractor route t : string) :
  wf_config σ0 l = true -> unshared σ0 l -> extends σ0 σ ->
  read_config (store_departure (fst (deepcopy σ l)) (snd (deepcopy σ l)) contractor route t)
    (snd (deepcopy σ l))
  = with_departure contractor route t (read_config σ0 l).
Proof.
  intros Hwf [Hnd_r Hnd_c] Hext.
  destruct (extends_refs σ0 σ l Hext Hwf) as [Er Ec].
  destruct (wf_config_refs σ0 l Hwf) as [Hr Hc].
  pose proof Hext as (Ht & Hrs & Hcs). apply prefix_length in Hrs, Hcs.
  rewrite (deepcopy_closed σ l).
  - simpl. rewrite store_departure_read;
      [|apply plain_copy_unshared|apply plain_copy_in_range].
    rewrite plain_copy_read. f_equal. apply extends_read_config; assumption.
  - rewrite Er. apply (Forall_impl_elem _ _ _ Hr). intros x _ Hx. lia.
  - rewrite Ec. apply (Forall_impl_elem _ _ _ Hc). intros x _ Hx. lia.
  - split; [rewrite Er|rewrite Ec]; assumption.
Qed.

(** *** Running the candidate loop *)

Lemma bind_run {A B : Type} (m : M A) (k : A -> M B) (σ : heap) :
  (m ≫= k) σ
  = match m σ with
    | (σ', Ok a) => k a σ'
    | (σ', Raise e) => (σ', Raise e)
    end.
Proof. reflexivity. Qed.

Lemma bind_ok_inv {A B : Type} (m : M A) (k : A -> M B) (σ σ' : heap) (b : B) :
  (m ≫= k) σ = (σ', Ok b) ->
  exists σ1 a, m σ = (σ1, Ok a) /\ k a σ1 = (σ', Ok b).
Proof.
  rewrite bind_run. destruct (m σ) as [σ1 [a|e]]; [eauto|discriminate].
Qed.

Section Runs.
Variable dump_points : hierarchy.
Variables empty_speed loaded_speed : Q.
Variable lookup : option RouteTimeLookup.
Variable spacing : Q.
Variable σ0 : heap.
Variable l : loc.
Hypothesis Hwf : wf_config σ0 l = true.
Hypothesis Hunshared : unshared σ0 l.

(** The evaluation of a candidate on the original configuration. *)
Let eval0 (contractor route t : string) : result (Q * list (string * Q)) :=
  evaluate_on dump_points empty_speed loaded_speed lookup spacing
    (with_departure contractor route t (read_config σ0 l)).

Lemma candidate_config_run (contractor route t : string) (σ : heap) :
  extends σ0 σ ->
  snd (candidate_config l contractor route t (Some l) σ)
  = Ok (snd (deepcopy σ l), with_departure contractor route t (read_config σ0 l)).
Proof.
  intros Hext. rewrite <- (candidate_config_read σ0 σ l contractor route t Hwf Hunshared Hext).
  unfold candidate_config. rewrite bind_run. unfold alloc_copy.
  destruct (deepcopy σ l) as [σ1 l1]. reflexivity.
Qed.

Lemma evaluate_run (contractor route t : string) (σ : heap) :
  extends σ0 σ ->
  snd (evaluate_departure_for_route dump_points empty_speed loaded_speed lookup spacing
         l contractor route t (Some l) σ)
  = eval0 contractor route t.
Proof.
  intros Hext. unfold evaluate_departure_for_route. rewrite bind_run.
  pose proof (candidate_config_run contractor route t σ Hext) as Hrun.
  destruct (candidate_config l contractor route t (Some l) σ) as [σ1 r]. simpl in Hrun.
  subst r. unfold eval0, evaluate_on. rewrite bind_run. unfold lift.
  destruct (simulate_wait_times _ _ _ _ _ _); reflexivity.
Qed.

Lemma try_candidate_run (contractor route : string) (st : string * option Q)
    (t : string) (σ : heap) :
  extends σ0 σ ->
  snd (try_candidate dump_points empty_speed loaded_speed lookup spacing
         l contractor route st t σ)
  = search_step (eval0 contractor route) st t.
Proof.
  intros Hext. unfold try_candidate, search_step. destruct st as [best_depart best_total].
  rewrite bind_run. pose proof (evaluate_run contractor route t σ Hext) as Hrun.
  destruct (evaluate_departure_for_route _ _ _ _ _ _ _ _ _ _ σ) as [σ1 r]. simpl in Hrun.
  rewrite Hrun. destruct (eval0 contractor route t) as [[total waits]|e]; [|reflexivity].
  simpl. destruct (below total best_total); reflexivity.
Qed.

Lemma try_candidates_run (contractor route : string) (candidates : list string) :
  forall (st : string * option Q) (σ : heap),
    frame σ0 σ ->
    frame σ0 (fst (for_eachM (try_candidate dump_points empty_speed loaded_speed lookup
                                spacing l contractor route) st candidates σ))
    /\ snd (for_eachM (try_candidate dump_points empty_speed loaded_speed lookup
                         spacing l contractor route) st candidates σ)
       = for_each (search_step (eval0 contractor route)) st candidates.
Proof.
  induction candidates as [|t rest IH]; intros st σ Hσ.
  - simpl. auto.
  - cbn [for_eachM for_each]. unfold Heap.bind.
    pose proof (try_candidate_run contractor route st t σ (frame_extends _ _ Hσ)) as Hrun.
    destruct (keeps_try_candidate dump_points empty_speed loaded_speed lookup spacing σ0
                l contractor route st t σ Hσ) as [Hframe _].
    destruct (try_candidate _ _ _ _ _ _ _ _ st t σ) as [σ1 r]. simpl in Hrun, Hframe.
    rewrite <- Hrun. destruct r as [st1|e]; simpl; [apply IH; exact Hframe|auto].
Qed.

End Runs.

(** *** The recommendations come from the original configuration *)

Lemma dict_get_set_eq {V : Type} (k : string) (v : V) (d : list (string * V)) :
  dict_get k (dict_set k v d) = Some v.
Proof.
  induction d as [|[k' v'] rest IH]; simpl.
  - rewrite String.eqb_refl. reflexivity.
  - destruct (String.eqb k k') eqn:E; simpl; rewrite E; [reflexivity|exact IH].
Qed.

Lemma dict_get_set_ne {V : Type} (k k' : string) (v : V) (d : list (string * V)) :
  k' <> k -> dict_get k' (dict_set k v d) = dict_get k' d.
Proof.
  intros Hne. induction d as [|[k0 v0] rest IH]; simpl.
  - destruct (String.eqb_spec k' k); [contradiction|reflexivity].
  - destruct (String.eqb_spec k k0) as [->|Hk]; simpl.
    + destruct (String.eqb_spec k' k0); [contradiction|reflexivity].
    + destruct (String.eqb k' k0); [reflexivity|exact IH].
Qed.

Lemma for_eachM_inv {A S : Type} (σ0 : heap) (body : S -> A -> M S) (P : S -> Prop) :
  (forall s x, keeps σ0 (body s x) (fun _ => True)) ->
  (forall s x σ σ' s', frame σ0 σ -> P s -> body s x σ = (σ', Ok s') -> P s') ->
  forall xs s σ σ' s',
    frame σ0 σ -> P s -> for_eachM body s xs σ = (σ', Ok s') -> P s'.
Proof.
  intros Hkeeps Hstep. induction xs as [|x xs IH]; intros s σ σ' s' Hσ Hs Hrun.
  - injection Hrun as _ <-. exact Hs.
  - cbn [for_eachM] in Hrun. unfold Heap.bind in Hrun.
    destruct (Hkeeps s x σ Hσ) as [Hframe _].
    destruct (body s x σ) as [σ1 [s1|e]] eqn:Hbody; [|discriminate].
    simpl in Hframe.
    apply (IH s1 σ1 σ' s' Hframe (Hstep s x σ σ1 s1 Hσ Hs Hbody) Hrun).
Qed.

Section Recommended.
Variable dump_points : hierarchy.
Variables empty_speed loaded_speed : Q.
Variable lookup : option RouteTimeLookup.
Variable spacing : Q.
Variable σ0 : heap.
Variable l : loc.
Variable candidates : list string.
Hypothesis Hwf : wf_config σ0 l = true.
Hypothesis Hunshared : unshared σ0 l.

Let searched :=
  searched_on dump_points empty_speed loaded_speed lookup spacing (read_config σ0 l)
    candidates.

Lemma optimise_route_searched (contractor : string) (recommended : recommendations)
    (item : string * loc) (σ σ' : heap) (recommended' : recommendations) :
  frame σ0 σ -> searched recommended ->
  optimise_route dump_points empty_speed loaded_speed lookup spacing l candidates
    contractor recommended item σ = (σ', Ok recommended') ->
  searched recommended'.
Proof.
  intros Hσ Hrec Hrun. destruct item as [route cfg]. unfold optimise_route in Hrun.
  apply bind_ok_inv in Hrun as (σ1 & cfg_now & Hgets & Hrun).
  injection Hgets as <- <-.
  apply bind_ok_inv in Hrun as (σ2 & [best_depart best_total] & Hloop & Hrun).
  injection Hrun as _ <-.
  destruct (try_candidates_run dump_points empty_speed loaded_speed lookup spacing σ0 l
              Hwf Hunshared contractor route candidates
              (departure_time_or (get_cfg σ cfg) "7:00", None) σ Hσ) as [_ Hsearch].
  rewrite Hloop in Hsearch. simpl in Hsearch.
  intros c r cur best Hentry. unfold entry_of in Hentry.
  destruct (String.eqb_spec c contractor) as [->|Hc].
  - rewrite dict_get_set_eq in Hentry.
    destruct (String.eqb_spec r route) as [->|Hr].
    + rewrite dict_get_set_eq in Hentry. injection Hentry as <- <-.
      exists best_total. symmetry. exact Hsearch.
    + rewrite dict_get_set_ne in Hentry by exact Hr.
      apply (Hrec contractor r cur best). unfold entry_of.
      destruct (dict_get contractor recommended); [exact Hentry|discriminate].
  - rewrite dict_get_set_ne in Hentry by exact Hc.
    apply (Hrec c r cur best). exact Hentry.
Qed.

Lemma optimise_contractor_searched (recommended : recommendations)
    (item : string * loc) (σ σ' : heap) (recommended' : recommendations) :
  frame σ0 σ -> searched recommended ->
  optimise_contractor dump_points empty_speed loaded_speed lookup spacing l candidates
    recommended item σ = (σ', Ok recommended') ->
  searched recommended'.
Proof.
  intros Hσ Hrec Hrun. destruct item as [contractor routes].
  unfold optimise_contractor in Hrun.
  apply bind_ok_inv in Hrun as (σ1 & items & Hgets & Hrun). injection Hgets as <- <-.
  eapply (for_eachM_inv σ0 _ searched); [| |exact Hσ| |exact Hrun].
  - intros s x. apply keeps_optimise_route.
  - intros s x σa σb s' Ha Hs Hstep. eapply optimise_route_searched; eauto.
  - unfold dict_mem. destruct (dict_get contractor recommended) eqn:Hmem; [exact Hrec|].
    intros c r cur best Hentry. unfold entry_of in Hentry.
    destruct (String.eqb_spec c contractor) as [->|Hc].
    + rewrite dict_get_set_eq in Hentry. discriminate.
    + rewrite dict_get_set_ne in Hentry by exact Hc. apply (Hrec c r cur best). exact Hentry.
Qed.

Lemma optimise_searched (σ' : heap) (recommended : recommendations)
    (baseline_waits optimised_waits : list (string * Q)) :
  optimise_departure_times dump_points empty_speed loaded_speed lookup spacing l
    candidates σ0 = (σ', Ok (recommended, baseline_waits, optimised_waits)) ->
  searched recommended.
Proof.
  intros Hrun. unfold optimise_departure_times in Hrun.
  apply bind_ok_inv in Hrun as (σ1 & original & Hgets & Hrun). injection Hgets as <- <-.
  apply bind_ok_inv in Hrun as (σ2 & baseline & Hlift & Hrun).
  unfold lift in Hlift. injection Hlift as <- Hbase.
  apply bind_ok_inv in Hrun as (σ3 & top_items & Hgets & Hrun). injection Hgets as <- <-.
  apply bind_ok_inv in Hrun as (σ4 & rec & Hloop & Hrun).
  apply bind_ok_inv in Hrun as (σ5 & updated & _ & Hrun).
  apply bind_ok_inv in Hrun as (σ6 & [] & _ & Hrun).
  apply bind_ok_inv in Hrun as (σ7 & updated_items & _ & Hrun).
  apply bind_ok_inv in Hrun as (σ8 & optimised & _ & Hrun).
  injection Hrun as _ <- _ _.
  eapply (for_eachM_inv σ0 _ searched); [| |apply frame_refl| |exact Hloop].
  - intros s x. apply keeps_optimise_contractor.
  - intros s x σa σb s' Ha Hs Hstep. eapply optimise_contractor_searched; eauto.
  - intros c r cur best Hentry. discriminate.
Qed.

End Recommended.



(** *** [with_departure] changes one field of one route *)

Lemma with_departure_route_other (route r' t : string) (routes : list (string * route_cfg)) :
  r' <> route ->
  dict_get r' (with_departure_route route t routes) = dict_get r' routes.
Proof.
  intros Hne. induction routes as [|[k cfg] rest IH]; simpl; [reflexivity|].
  destruct (String.eqb_spec route k) as [->|Hk]; simpl.
  - destruct (String.eqb_spec r' k); [contradiction|reflexivity].
  - destruct (String.eqb r' k); [reflexivity|exact IH].
Qed.

Lemma with_departure_route_same (route t : string) (routes : list (string * route_cfg)) :
  dict_get route (with_departure_route route t routes)
  = option_map (fun cfg => set_departure_time cfg t) (dict_get route routes).
Proof.
  induction routes as [|[k cfg] rest IH]; simpl; [reflexivity|].
  destruct (String.eqb route k) eqn:E; simpl; rewrite E; [reflexivity|exact IH].
Qed.

Lemma with_departure_other_contractor (contractor route c' t : string)
    (config : contractor_configs) :
  c' <> contractor ->
  dict_get c' (with_departure contractor route t config) = dict_get c' config.
Proof.
  intros Hne. induction config as [|[k routes] rest IH]; simpl; [reflexivity|].
  destruct (String.eqb_spec contractor k) as [->|Hk]; simpl.
  - destruct (String.eqb_spec c' k); [contradiction|reflexivity].
  - destruct (String.eqb c' k); [reflexivity|exact IH].
Qed.

Lemma with_departure_same_contractor (contractor route t : string)
    (config : contractor_configs) :
  dict_get contractor (with_departure contractor route t config)
  = option_map (with_departure_route route t) (dict_get contractor config).
Proof.
  induction config as [|[k routes] rest IH]; simpl; [reflexivity|].
  destruct (String.eqb contractor k) eqn:E; simpl; rewrite E; [reflexivity|exact IH].
Qed.

Lemma with_departure_entry_other (contractor route c' r' t : string)
    (config : contractor_configs) :
  c' <> contractor \/ r' <> route ->
  entry_of c' r' (with_departure contractor route t config) = entry_of c' r' config.
Proof.
  intros Hne. unfold entry_of.
  destruct (String.eqb_spec c' contractor) as [->|Hc].
  - destruct Hne as [Hne|Hne]; [contradiction|].
    rewrite with_departure_same_contractor.
    destruct (dict_get contractor config) as [routes|]; simpl; [|reflexivity].
    apply with_departure_route_other. exact Hne.
  - rewrite with_departure_other_contractor by exact Hc. reflexivity.
Qed.

Lemma with_departure_entry_same (contractor route t : string) (config : contractor_configs) :
  entry_of contractor route (with_departure contractor route t config)
  = option_map (fun cfg => set_departure_time cfg t) (entry_of contractor route config).
Proof.
  unfold entry_of. rewrite with_departure_same_contractor.
  destruct (dict_get contractor config) as [routes|]; simpl; [|reflexivity].
  apply with_departure_route_same.
Qed.

(** C4, for a configuration whose dictionaries are pairwise distinct
    objects ([unshared]): in every heap the optimiser's run goes through
    (every heap that keeps the frame of the initial one), the
    configuration handed to the simulation for a route and a candidate
    time is the original configuration with that route's departure time
    replaced: all other routes are as in the original, the route itself
    keeps its loading and dumping locations and truck count, and the
    recommendations are the searches over exactly these configurations. *)
Theorem candidate_simulated_on_original
    (dump_points : hierarchy) (empty_speed loaded_speed : Q)
    (lookup : option RouteTimeLookup) (spacing : Q)
    (σ0 : heap) (contractor_configs : loc) (contractor route candidate : string) :
  wf_config σ0 contractor_configs = true ->
  unshared σ0 contractor_configs ->
  let original := read_config σ0 contractor_configs in
  let simulated := with_departure contractor route candidate original in
  (forall σ, frame σ0 σ ->
     exists σ' config,
       candidate_config contractor_configs contractor route candidate
         (Some contractor_configs) σ
       = (σ', Ok (config, simulated))
       /\ frame σ0 σ')
  /\ (forall c' r', c' <> contractor \/ r' <> route ->
        entry_of c' r' simulated = entry_of c' r' original)
  /\ entry_of contractor route simulated
     = option_map
         (fun cfg =>
            {| loading_location := loading_location cfg;
               dumping_location := dumping_location cfg;
               departure_time := Some candidate;
               number_of_trucks := number_of_trucks cfg |})
         (entry_of contractor route original)
  /\ (forall candidate_times σ' recommended baseline_waits optimised_waits,
        optimise_departure_times dump_points empty_speed loaded_speed lookup spacing
          contractor_configs candidate_times σ0
        = (σ', Ok (recommended, baseline_waits, optimised_waits)) ->
        searched_on dump_points empty_speed loaded_speed lookup spacing original
          candidate_times recommended).
Proof.
  intros Hwf Hunshared original simulated. split; [|split; [|split]].
  - intros σ Hσ.
    pose proof (candidate_config_run σ0 contractor_configs Hwf Hunshared
                  contractor route candidate σ (frame_extends _ _ Hσ)) as Hrun.
    destruct (keeps_candidate_config σ0 contractor_configs contractor route candidate
                (Some contractor_configs) σ Hσ) as [Hframe _].
    destruct (candidate_config contractor_configs contractor route candidate
                (Some contractor_configs) σ) as [σ' r].
    simpl in Hrun, Hframe. subst r. eauto.
  - intros c' r' Hne. apply with_departure_entry_other. exact Hne.
  - apply with_departure_entry_same.
  - intros candidate_times σ' recommended baseline_waits optimised_waits Hrun.
    eapply optimise_searched; eauto.
Qed.

Lemma candidate_simulated_on_original_witness :
  wf_config small_heap 0 = true
  /\ unshared small_heap 0
  /\ entry_of "GMG" "TF" (with_departure "RIM" "TF" "6:00" (read_config small_heap 0))
     = entry_of "GMG" "TF" (read_config small_heap 0).
Proof.
  assert (Hunshared : unshared small_heap 0)
    by (split; apply (bool_decide_unpack _); vm_compute; exact I).
  split; [reflexivity|]. split; [exact Hunshared|].
  apply (candidate_simulated_on_original FENI_DUMP_POINTS 40 30 None 0.02
           small_heap 0%nat "RIM" "TF" "6:00" eq_refl Hunshared).
  left. discriminate.
Defined.

(** C4, as stated, fails when one settings dictionary is stored under
    two route keys: [copy.deepcopy] keeps the sharing in the clone, so
    the assignment of the candidate time for route "TF" is seen under
    "KR" too, and the configuration simulated differs from the original
    in the departure time of a second route. *)
Lemma candidate_config_changes_shared_route :
  wf_config shared_heap 0 = true
  /\ exists σ' config simulated,
       candidate_config 0%nat "RIM" "TF" "6:00" (Some 0%nat) shared_heap
       = (σ', Ok (config, simulated))
       /\ entry_of "RIM" "KR" (read_config shared_heap 0)
          = Some (route "TF" "FENI U1 (LINE 65-66)" "7:00" 3)
       /\ entry_of "RIM" "KR" simulated
          = Some (route "TF" "FENI U1 (LINE 65-66)" "6:00" 3)
       /\ entry_of "RIM" "KR" simulated <> entry_of "RIM" "KR" (read_config shared_heap 0).
Proof.
  split; [reflexivity|].
  eexists _, _, _. split; [vm_compute; reflexivity|].
  split; [reflexivity|]. split; [reflexivity|].
  vm_compute. discriminate.
Qed.

(** ** On the hierarchy of [config.py] the pipeline never raises *)

Lemma for_each_inv {A S : Type} (body : S -> A -> result S) (P : S -> Prop) :
  (forall s x s', P s -> body s x = Ok s' -> P s') ->
  forall xs s s', P s -> for_each body s xs = Ok s' -> P s'.
Proof.
  intros Hstep. induction xs as [|x xs IH]; intros s s' Hs Hrun.
  - injection Hrun as <-. exact Hs.
  - rewrite for_each_cons in Hrun.
    destruct (body s x) as [s1|e] eqn:Hbody; [|simpl in Hrun; discriminate].
    rewrite bind_ok in Hrun. exact (IH s1 s' (Hstep s x s1 Hs Hbody) Hrun).
Qed.

Lemma for_each_total_on {A S : Type} (body : S -> A -> result S) (Q : A -> Prop) :
  (forall s x, Q x -> exists s', body s x = Ok s') ->
  forall xs s, Forall Q xs -> exists s', for_each body s xs = Ok s'.
Proof.
  intros Hbody xs. induction xs as [|x xs IH]; intros s Hall.
  - simpl. eauto.
  - apply Forall_cons in Hall as [Hx Hxs]. rewrite for_each_cons.
    destruct (Hbody s x Hx) as [s' ->]. rewrite bind_ok. apply IH. exact Hxs.
Qed.

Lemma dict_set_keys {V : Type} (P : string -> Prop) (k : string) (v : V)
    (d : list (string * V)) :
  P k -> Forall (fun kv => P (fst kv)) d -> Forall (fun kv => P (fst kv)) (dict_set k v d).
Proof.
  intros Hk. induction 1 as [|[k' v'] rest Hhd Htl IH]; simpl.
  - constructor; [exact Hk|constructor].
  - destruct (String.eqb k k'); constructor; simpl in *; assumption.
Qed.

Section Known.
Variable dump_points : hierarchy.
Variables empty_speed loaded_speed : Q.
Variable lookup : option RouteTimeLookup.
Variable spacing : Q.

(** The sub-points that have events are sub-points of the hierarchy. *)
Let known (kv : string * list (Q * Q)) : Prop :=
  is_Some (get_main_feni_from_sub_point dump_points (fst kv)).

Lemma route_arrivals_known (events events' : list (string * list (Q * Q)))
    (parking : string) (cfg : route_cfg) :
  Forall known events ->
  route_arrivals dump_points empty_speed loaded_speed lookup spacing events parking cfg
  = Ok events' ->
  Forall known events'.
Proof.
  intros Hall. unfold route_arrivals.
  destruct (_ || _ || _); [intros [= <-]; exact Hall|].
  destruct (get_main_feni_from_sub_point dump_points (dumping_location cfg))
    as [main|] eqn:Hmain; [|intros [= <-]; exact Hall].
  destruct (parse_departure _) as [depart|e]; [|discriminate]. rewrite bind_ok.
  destruct (compute_route_times _ _ _ _ _ _) as [[travel service]|e]; [|discriminate].
  rewrite bind_ok. intros [= <-].
  apply (dict_set_keys (fun k => is_Some (get_main_feni_from_sub_point dump_points k)));
    [rewrite Hmain; eauto|].
  destruct (dict_mem (dumping_location cfg) events); [exact Hall|].
  apply (dict_set_keys (fun k => is_Some (get_main_feni_from_sub_point dump_points k)));
    [rewrite Hmain; eauto|exact Hall].
Qed.

Lemma build_arrival_events_known (configs : contractor_configs)
    (events : list (string * list (Q * Q))) :
  build_arrival_events dump_points empty_speed loaded_speed lookup spacing configs
  = Ok events ->
  Forall known events.
Proof.
  unfold build_arrival_events.
  destruct (for_each _ [] configs) as [raw|e] eqn:Hraw; [|discriminate].
  rewrite bind_ok. intros [= <-].
  assert (Hknown : Forall known raw).
  { eapply for_each_inv with (P := Forall known); [|constructor|exact Hraw].
    intros s [contractor routes] s' Hs Hstep. unfold add_contractor in Hstep.
    eapply for_each_inv with (P := Forall known); [|exact Hs|exact Hstep].
    intros s1 [parking cfg] s2 Hs1 Hroute. unfold add_route in Hroute.
    destruct (route_arrivals _ _ _ _ _ s1 parking cfg) as [ev|e] eqn:Harr; simpl in Hroute.
    - injection Hroute as <-. eapply route_arrivals_known; eauto.
    - injection Hroute as <-. exact Hs1. }
  apply Forall_fmap. apply (Forall_impl _ _ _ Hknown). intros [k v] Hk. exact Hk.
Qed.

End Known.

(** On a non-empty pool the loop of [simulate_wait_times] never raises. *)
Lemma assign_total (free_times : list Q) (total_wait : Q) (ev : Q * Q) :
  free_times <> [] ->
  exists free_times' total_wait',
    assign (free_times, total_wait) ev = Ok (free_times', total_wait')
    /\ free_times' <> [].
Proof.
  intros Hne. destruct ev as [a s].
  destruct (min_index_least free_times Hne) as (idx & v & Hidx & Hv & _).
  unfold assign. rewrite Hidx, bind_ok. unfold list_item. rewrite Hv, bind_ok.
  eexists _, _. split; [reflexivity|]. apply insert_nonempty. exact Hne.
Qed.

Lemma assign_loop_total (arrivals : list (Q * Q)) (free_times : list Q) (total_wait : Q) :
  free_times <> [] ->
  exists st, for_each assign (free_times, total_wait) arrivals = Ok st.
Proof.
  revert free_times total_wait.
  induction arrivals as [|ev rest IH]; intros fs tw Hne.
  - simpl. eauto.
  - rewrite for_each_cons.
    destruct (assign_total fs tw ev Hne) as (fs' & tw' & -> & Hne').
    rewrite bind_ok. apply IH. exact Hne'.
Qed.

(** The zone found for a sub-point is the zone stored under its name. *)
Lemma get_main_feni_zone (points : hierarchy) (sub_point main : string) :
  NoDup (map fst points) ->
  get_main_feni_from_sub_point points sub_point = Some main ->
  exists zone,
    dict_get main points = Some zone
    /\ is_Some (dict_get sub_point (sub_points zone))
    /\ (main, zone) ∈ points.
Proof.
  induction points as [|[k cfg] rest IH]; intros Hnodup; simpl; [discriminate|].
  apply NoDup_cons in Hnodup as [Hk Hrest]. unfold dict_mem.
  destruct (dict_get sub_point (sub_points cfg)) as [sp_cfg|] eqn:Hsp.
  - intros [= <-]. exists cfg. rewrite String.eqb_refl.
    split; [reflexivity|]. split; [rewrite Hsp; eauto|left].
  - intros Hmain. destruct (IH Hrest Hmain) as (zone & Hget & Hsub & Hin).
    exists zone. split; [|split; [exact Hsub|right; exact Hin]].
    destruct (String.eqb_spec main k) as [->|_]; [|exact Hget].
    exfalso. apply Hk. apply list_elem_of_fmap. exists (k, zone). split; [reflexivity|exact Hin].
Qed.

(** In a hierarchy whose ranges all read, every sub-point has a server
    count. *)
Lemma num_servers_total (points : hierarchy) (sub_point : string) :
  hierarchy_ok points = true ->
  is_Some (get_main_feni_from_sub_point points sub_point) ->
  exists n, _num_servers_for points sub_point = Ok n /\ (1 <= n)%Z.
Proof.
  intros Hok [main Hmain]. unfold hierarchy_ok in Hok.
  apply andb_prop in Hok as [Hnodup Hall]. apply bool_decide_eq_true in Hnodup.
  destruct (get_main_feni_zone points sub_point main Hnodup Hmain)
    as (zone & Hzone & [sp_cfg Hsp] & Hin).
  rewrite forallb_forall in Hall. apply list_elem_of_In in Hin.
  specialize (Hall _ Hin). simpl in Hall. apply andb_prop in Hall as [Hname Hranges].
  unfold _num_servers_for. rewrite Hmain.
  destruct (String.eqb main ""); [discriminate|]. rewrite Hzone, Hsp.
  assert (Hline : match lo_hi (lines sp_cfg) with Ok _ => true | Raise _ => false end = true).
  { unfold ranges_ok in Hranges. rewrite forallb_forall in Hranges.
    apply (dict_get_Forall
             (fun c => match lo_hi (lines c) with Ok _ => true | Raise _ => false end = true)
             sub_point (sub_points zone) sp_cfg); [|exact Hsp].
    apply Forall_forall. intros kv Hkv. apply Hranges. apply list_elem_of_In. exact Hkv. }
  destruct (lo_hi (lines sp_cfg)) as [[lo hi]|e]; [|discriminate].
  rewrite bind_ok. eexists. split; [reflexivity|]. lia.
Qed.

Lemma feni_hierarchy_ok : hierarchy_ok FENI_DUMP_POINTS = true.
Proof. vm_compute. reflexivity. Qed.

Lemma feni_subpoint_wait_total (subpoint_waits : list (string * Q))
    (item : string * list (Q * Q)) :
  is_Some (get_main_feni_from_sub_point FENI_DUMP_POINTS (fst item)) ->
  exists r, subpoint_wait FENI_DUMP_POINTS subpoint_waits item = Ok r.
Proof.
  destruct item as [subpoint arrivals]. intros Hknown. unfold subpoint_wait.
  destruct (num_servers_total FENI_DUMP_POINTS subpoint feni_hierarchy_ok Hknown)
    as (n & -> & Hn).
  rewrite bind_ok.
  destruct arrivals as [|ev rest]; [eauto|].
  destruct (assign_loop_total (ev :: rest) (replicate (Z.to_nat n) 0%Q) 0%Q) as [[fs tw] ->].
  - intros H. apply (f_equal length) in H. rewrite length_replicate in H. simpl in H. lia.
  - rewrite bind_ok. eauto.
Qed.

Lemma feni_simulate_wait_times_total (empty_speed loaded_speed : Q)
    (lookup : option RouteTimeLookup) (spacing : Q) (configs : contractor_configs) :
  exists wait_times,
    simulate_wait_times FENI_DUMP_POINTS empty_speed loaded_speed lookup spacing configs
    = Ok wait_times.
Proof.
  unfold simulate_wait_times.
  destruct (build_arrival_events_total FENI_DUMP_POINTS empty_speed loaded_speed lookup
              spacing configs) as [events Hevents].
  pose proof (build_arrival_events_known _ _ _ _ _ _ _ Hevents) as Hknown.
  rewrite Hevents, bind_ok.
  destruct (for_each_total_on (subpoint_wait FENI_DUMP_POINTS)
              (fun item => is_Some (get_main_feni_from_sub_point FENI_DUMP_POINTS (fst item))))
    with (xs := events) (s := @nil (string * Q)) as [waits ->].
  - intros s x Hx. apply feni_subpoint_wait_total. exact Hx.
  - exact Hknown.
  - rewrite bind_ok.
    destruct (aggregate_zones_run waits (count_trucks configs)) as (a0 & a15 & -> & _).
    eauto.
Qed.

Lemma returns_ret {A : Type} (a : A) : returns (mret a : M A).
Proof. intros σ. exists σ, a. reflexivity. Qed.

Lemma returns_bind {A B : Type} (m : M A) (k : A -> M B) :
  returns m -> (forall a, returns (k a)) -> returns (m ≫= k).
Proof.
  intros Hm Hk σ. rewrite bind_run. destruct (Hm σ) as (σ1 & a & ->). apply Hk.
Qed.

Lemma returns_gets {A : Type} (f : heap -> A) : returns (gets f).
Proof. intros σ. exists σ, (f σ). reflexivity. Qed.

Lemma returns_modify (f : heap -> heap) : returns (modify f).
Proof. intros σ. exists (f σ), tt. reflexivity. Qed.

Lemma returns_lift {A : Type} (r : result A) : (exists a, r = Ok a) -> returns (lift r).
Proof. intros [a ->] σ. exists σ, a. reflexivity. Qed.

Lemma returns_alloc_copy (l : loc) : returns (alloc_copy l).
Proof.
  intros σ. unfold alloc_copy. destruct (deepcopy σ l) as [σ' l']. exists σ', l'. reflexivity.
Qed.

Lemma returns_for_eachM {A S : Type} (body : S -> A -> M S) (xs : list A) :
  (forall s x, returns (body s x)) -> forall s, returns (for_eachM body s xs).
Proof.
  intros Hbody. induction xs as [|x xs IH]; intros s; simpl.
  - apply (returns_ret s).
  - apply (returns_bind (body s x)); auto.
Qed.

Section FeniReturns.
Variables empty_speed loaded_speed : Q.
Variable lookup : option RouteTimeLookup.
Variable spacing : Q.

Lemma feni_evaluate_returns (contractor_configs : loc) (contractor route candidate : string)
    (baseline : option loc) :
  returns (evaluate_departure_for_route FENI_DUMP_POINTS empty_speed loaded_speed lookup
             spacing contractor_configs contractor route candidate baseline).
Proof.
  unfold evaluate_departure_for_route, candidate_config.
  apply returns_bind.
  - apply returns_bind; [apply returns_alloc_copy|]. intros config.
    apply returns_bind; [apply returns_modify|]. intros _.
    apply returns_bind; [apply returns_gets|]. intros items. apply returns_ret.
  - intros [config items].
    apply returns_bind; [apply returns_lift, feni_simulate_wait_times_total|].
    intros waits. apply returns_ret.
Qed.

Lemma feni_try_candidate_returns (contractor_configs : loc) (contractor route : string)
    (st : string * option Q) (candidate : string) :
  returns (try_candidate FENI_DUMP_POINTS empty_speed loaded_speed lookup spacing
             contractor_configs contractor route st candidate).
Proof.
  unfold try_candidate. destruct st as [best_depart best_total].
  apply returns_bind; [apply feni_evaluate_returns|]. intros [total waits].
  destruct (below total best_total); apply returns_ret.
Qed.

Lemma feni_optimise_contractor_returns (contractor_configs : loc)
    (candidates : list string) (recommended : recommendations) (item : string * loc) :
  returns (optimise_contractor FENI_DUMP_POINTS empty_speed loaded_speed lookup spacing
             contractor_configs candidates recommended item).
Proof.
  unfold optimise_contractor. destruct item as [contractor routes].
  apply returns_bind; [apply returns_gets|]. intros items.
  apply returns_for_eachM. intros rec [route cfg]. unfold optimise_route.
  apply returns_bind; [apply returns_gets|]. intros cfg_now.
  apply returns_bind.
  - apply returns_for_eachM. intros st t. apply feni_try_candidate_returns.
  - intros [best_depart best_total]. apply returns_ret.
Qed.

(** On the hierarchy of [config.py] the optimiser returns for every
    configuration, candidate list, lookup and speeds (a zero speed
    included: the routes it breaks are skipped). *)
Lemma feni_optimise_returns (contractor_configs : loc) (candidates : list string) :
  returns (optimise_departure_times FENI_DUMP_POINTS empty_speed loaded_speed lookup
             spacing contractor_configs candidates).
Proof.
  unfold optimise_departure_times.
  apply returns_bind; [apply returns_gets|]. intros original.
  apply returns_bind; [apply returns_lift, feni_simulate_wait_times_total|]. intros baseline.
  apply returns_bind; [apply returns_gets|]. intros top_items.
  apply returns_bind.
  { apply returns_for_eachM. intros rec item. apply feni_optimise_contractor_returns. }
  intros recommended.
  apply returns_bind; [apply returns_alloc_copy|]. intros updated.
  apply returns_bind.
  { apply returns_for_eachM. intros [] [contractor routes]. unfold apply_recommended.
    apply returns_for_eachM. intros [] [route times]. apply returns_modify. }
  intros _.
  apply returns_bind; [apply returns_gets|]. intros updated_items.
  apply returns_bind; [apply returns_lift, feni_simulate_wait_times_total|]. intros optimised.
  apply returns_ret.
Qed.

End FeniReturns.

(** ** Every route gets a recommendation *)






Section Covers.
Variable dump_points : hierarchy.
Variables empty_speed loaded_speed : Q.
Variable lookup : option RouteTimeLookup.
Variable spacing : Q.
Variable σ0 : heap.
Variable l : loc.
Variable candidates : list string.




End Covers.



(** * Further properties of the code *)

(** ** Server counts: bounds and the two implementations *)

Lemma line_range_at_least_one (line_str : string) (n : Z) :
  line_range_try line_str = Ok (Some n) -> (1 <= n)%Z.
Proof.
  unfold line_range_try. destruct (length (split "-" line_str) =? 2)%nat; [|discriminate].
  destruct (int (nth 0 _ _)) as [a|]; simpl; [|discriminate].
  destruct (int (nth 1 _ _)) as [b|]; simpl; [|discriminate].
  intros [= <-]. lia.
Qed.

Lemma explicit_sub_point_at_least_one (points : hierarchy) (name : string) (n : Z) :
  explicit_sub_point points name = Ok (Some n) -> (1 <= n)%Z.
Proof.
  induction points as [|[main cfg] rest IH]; simpl; [discriminate|].
  destruct (dict_get name (sub_points cfg)) as [sp_cfg|]; [|exact IH].
  destruct (line_range_try (lines sp_cfg)) as [[m|]|e] eqn:E; simpl; intros [= <-];
    [eapply line_range_at_least_one; eauto|lia|lia].
Qed.

(** X1: whatever the hierarchy and the name, [get_server_count]
    returns a number of servers, never raises, and the number is at
    least 1 (as its docstring promises). *)
Theorem get_server_count_at_least_one (points : hierarchy) (subpoint_name : string) :
  exists n, get_server_count points subpoint_name = Ok n /\ (1 <= n)%Z.
Proof.
  unfold get_server_count. destruct (String.eqb subpoint_name ""); [exists 2; split; [reflexivity|lia]|].
  destruct (explicit_sub_point points subpoint_name) as [[n|]|e] eqn:E.
  - exists n. split; [reflexivity|]. eapply explicit_sub_point_at_least_one; eauto.
  - simpl.
    destruct (get_main_feni_from_sub_point points subpoint_name) as [main|];
      [|exists 2; split; [reflexivity|lia]].
    destruct (negb (String.eqb main "")); [|exists 2; split; [reflexivity|lia]].
    destruct (dict_get main points) as [zone|]; [|exists 2; split; [reflexivity|lia]].
    destruct (sum_lines_total (sub_points zone) 0) as [t ->]. simpl.
    eexists. split; [reflexivity|lia].
  - destruct (explicit_sub_point_total points subpoint_name) as [r Hr]. congruence.
Qed.

Lemma lo_hi_line_range (line_str : string) (lo hi : Z) :
  lo_hi line_str = Ok (lo, hi) ->
  line_range_try line_str = Ok (Some (Z.max 1 (hi - lo + 1))).
Proof.
  unfold lo_hi, line_range_try.
  destruct (split "-" line_str) as [|a [|b [|c parts]]]; simpl; try discriminate.
  destruct (int a) as [x|]; simpl; [|discriminate].
  destruct (int b) as [y|]; simpl; [|discriminate].
  intros [= <- <-]. reflexivity.
Qed.

(** The first loop of [get_server_count] stops at the zone that
    [get_main_feni_from_sub_point] names. *)
Lemma explicit_sub_point_found (points : hierarchy) (name main : string) (zone : zone_cfg)
    (sp_cfg : sub_point_cfg) :
  NoDup (map fst points) ->
  get_main_feni_from_sub_point points name = Some main ->
  dict_get main points = Some zone ->
  dict_get name (sub_points zone) = Some sp_cfg ->
  explicit_sub_point points name
  = (r ← try_except (line_range_try (lines sp_cfg)) (fun _ => Ok None);
     match r with
     | Some n => Ok (Some n)
     | None => Ok (Some 1)
     end).
Proof.
  induction points as [|[k cfg] rest IH]; simpl; [discriminate|].
  intros Hnodup. apply NoDup_cons in Hnodup as [Hk Hnodup].
  unfold dict_mem. destruct (dict_get name (sub_points cfg)) as [sp'|] eqn:Hsp.
  - intros [= <-]. rewrite String.eqb_refl. intros [= <-]. rewrite Hsp. intros [= <-].
    reflexivity.
  - intros Hmain. destruct (String.eqb_spec main k) as [->|Hne].
    + exfalso. apply Hk. eapply get_main_feni_is_zone_key; eauto.
    + intros Hzone Hname. apply IH; auto.
Qed.

Lemma ranges_ok_lo_hi (zone : zone_cfg) (name : string) (sp_cfg : sub_point_cfg) :
  ranges_ok zone = true ->
  dict_get name (sub_points zone) = Some sp_cfg ->
  exists lo hi, lo_hi (lines sp_cfg) = Ok (lo, hi).
Proof.
  unfold ranges_ok. intros Hok Hget.
  induction (sub_points zone) as [|[k v] rest IH]; simpl in *; [discriminate|].
  apply andb_prop in Hok as [Hv Hrest].
  destruct (String.eqb name k).
  - injection Hget as <-. destruct (lo_hi (lines v)) as [[lo hi]|]; [eauto|discriminate].
  - auto.
Qed.

Lemma hierarchy_ok_zone (points : hierarchy) (main : string) (zone : zone_cfg) :
  hierarchy_ok points = true -> (main, zone) ∈ points ->
  NoDup (map fst points) /\ main <> "" /\ ranges_ok zone = true.
Proof.
  unfold hierarchy_ok. intros Hok Hin. apply andb_prop in Hok as [Hnd Hall].
  apply bool_decide_eq_true in Hnd. split; [exact Hnd|].
  rewrite forallb_forall in Hall. apply list_elem_of_In in Hin.
  specialize (Hall _ Hin). simpl in Hall. apply andb_prop in Hall as [Hne Hr].
  split; [|exact Hr]. intros ->. discriminate.
Qed.

Lemma server_counts_on_sub_point (points : hierarchy) (sub_point : string) :
  hierarchy_ok points = true ->
  sub_point <> "" ->
  is_Some (get_main_feni_from_sub_point points sub_point) ->
  exists main zone sp_cfg lo hi,
    get_main_feni_from_sub_point points sub_point = Some main
    /\ dict_get main points = Some zone
    /\ dict_get sub_point (sub_points zone) = Some sp_cfg
    /\ lo_hi (lines sp_cfg) = Ok (lo, hi)
    /\ get_server_count points sub_point = Ok (Z.max 1 (hi - lo + 1))
    /\ _num_servers_for points sub_point = Ok (Z.max 1 (hi - lo + 1)).
Proof.
  intros Hok Hname [main Hmain].
  assert (Hnd : NoDup (map fst points)).
  { unfold hierarchy_ok in Hok. apply andb_prop in Hok as [Hnd _].
    apply bool_decide_eq_true in Hnd. exact Hnd. }
  destruct (get_main_feni_zone points sub_point main Hnd Hmain)
    as (zone & Hzone & [sp_cfg Hsp] & Hin).
  destruct (hierarchy_ok_zone points main zone Hok Hin) as (_ & Hmne & Hranges).
  destruct (ranges_ok_lo_hi zone sub_point sp_cfg Hranges Hsp) as (lo & hi & Hlh).
  exists main, zone, sp_cfg, lo, hi. repeat (split; [assumption|]). split.
  - unfold get_server_count. destruct (String.eqb_spec sub_point ""); [contradiction|].
    rewrite (explicit_sub_point_found points sub_point main zone sp_cfg Hnd Hmain Hzone Hsp).
    rewrite (lo_hi_line_range _ _ _ Hlh). reflexivity.
  - unfold _num_servers_for. rewrite Hmain.
    destruct (String.eqb_spec main ""); [contradiction|].
    rewrite Hzone, Hsp, Hlh. reflexivity.
Qed.

(** X2: on a hierarchy whose zone names are distinct and not empty and
    whose line ranges all read as two integers, the server count of
    [queue_simulation.get_server_count] and that of the helper
    [_num_servers_for] inside [simulate_wait_times] are the same number
    [max(1, hi - lo + 1)] at every sub-point. *)
Theorem server_counts_agree_on_sub_points (points : hierarchy) (sub_point : string) :
  hierarchy_ok points = true ->
  sub_point <> "" ->
  is_Some (get_main_feni_from_sub_point points sub_point) ->
  exists n,
    get_server_count points sub_point = Ok n
    /\ _num_servers_for points sub_point = Ok n
    /\ (1 <= n)%Z.
Proof.
  intros Hok Hname Hsome.
  destruct (server_counts_on_sub_point points sub_point Hok Hname Hsome)
    as (main & zone & sp_cfg & lo & hi & _ & _ & _ & _ & Hg & Hn).
  exists (Z.max 1 (hi - lo + 1)). split; [exact Hg|]. split; [exact Hn|]. lia.
Qed.

Lemma server_counts_agree_on_sub_points_witness :
  exists n,
    get_server_count FENI_DUMP_POINTS "FENI U1 (LINE 65-66)" = Ok n
    /\ _num_servers_for FENI_DUMP_POINTS "FENI U1 (LINE 65-66)" = Ok n
    /\ (1 <= n)%Z.
Proof.
  apply (server_counts_agree_on_sub_points FENI_DUMP_POINTS "FENI U1 (LINE 65-66)").
  - reflexivity.
  - discriminate.
  - vm_compute. eauto.
Defined.

Lemma main_none_explicit_none (points : hierarchy) (name : string) :
  get_main_feni_from_sub_point points name = None ->
  explicit_sub_point points name = Ok None.
Proof.
  induction points as [|[main cfg] rest IH]; simpl; [reflexivity|].
  unfold dict_mem. destruct (dict_get name (sub_points cfg)); [discriminate|exact IH].
Qed.

(** X3: at a name that is no sub-point of the hierarchy (a zone name, a
    legacy location code, a misspelt name) the two implementations
    answer differently: [get_server_count] falls back to 2 servers,
    [_num_servers_for] to 1. *)
Theorem server_counts_differ_off_hierarchy (points : hierarchy) (name : string) :
  get_main_feni_from_sub_point points name = None ->
  get_server_count points name = Ok 2 /\ _num_servers_for points name = Ok 1.
Proof.
  intros Hnone. split.
  - apply get_server_count_unresolved, main_none_explicit_none, Hnone.
  - unfold _num_servers_for. rewrite Hnone. reflexivity.
Qed.

Lemma server_counts_differ_off_hierarchy_witness :
  get_server_count FENI_DUMP_POINTS "FENI KM0" = Ok 2
  /\ _num_servers_for FENI_DUMP_POINTS "FENI KM0" = Ok 1.
Proof.
  apply (server_counts_differ_off_hierarchy FENI_DUMP_POINTS "FENI KM0"). reflexivity.
Defined.

(** ** The queue: waits, idle servers and the finishing time *)

Lemma serve_loop_wait_nonneg (arrivals : list (Q * Q)) (free_times : list Q) (total_wait : Q) :
  free_times <> [] -> (0 <= total_wait)%Q ->
  exists free_times' total_wait',
    for_each serve (free_times, total_wait) arrivals = Ok (free_times', total_wait')
    /\ free_times' <> [] /\ (total_wait <= total_wait')%Q.
Proof.
  revert free_times total_wait.
  induction arrivals as [|[a s] rest IH]; intros fs tw Hne Htw.
  - simpl. exists fs, tw. repeat split; auto. lra.
  - rewrite for_each_cons.
    destruct (serve_least fs tw a s Hne) as (idx & v & _ & _ & ->). rewrite bind_ok.
    pose proof (max_float_l 0 (v - a)) as Hw.
    destruct (IH (<[idx := (a + max_float 0 (v - a) + s)%Q]> fs)
                 (tw + max_float 0 (v - a))%Q) as (fs' & tw' & -> & Hne' & Hle).
    + apply insert_nonempty. exact Hne.
    + lra.
    + exists fs', tw'. repeat split; auto. lra.
Qed.

Lemma average_nonneg (total_wait : Q) (n : nat) :
  (0 <= total_wait)%Q -> (0 <= total_wait / inject_Z (Z.of_nat n) * 60)%Q.
Proof.
  intros H. destruct n as [|n].
  - simpl. unfold Qdiv, Qinv. simpl. lra.
  - pose proof (average_mono 0 total_wait (S n) ltac:(lia) H) as Hm.
    assert (E : (0 / inject_Z (Z.of_nat (S n)) * 60 == 0)%Q).
    { unfold Qdiv. lra. }
    lra.
Qed.

(** X4: the average wait [multi_server_queue] returns is never
    negative, for any events (in any order, with any service times) and
    any server count. *)
Theorem multi_server_queue_wait_nonneg (arrivals : list (Q * Q)) (num_servers : Z) :
  exists avg_wait_minutes end_time,
    multi_server_queue arrivals num_servers = Ok (avg_wait_minutes, end_time)
    /\ (0 <= avg_wait_minutes)%Q.
Proof.
  unfold multi_server_queue. destruct arrivals as [|ev rest].
  - exists 0%Q, 0%Q. split; [reflexivity|lra].
  - destruct (serve_loop_wait_nonneg (ev :: rest) _ 0%Q (pool_nonempty num_servers))
      as (fs & tw & -> & Hne & Hle); [lra|].
    rewrite bind_ok. destruct fs as [|x fs]; [congruence|]. simpl max_list. rewrite bind_ok.
    eexists _, _. split; [reflexivity|]. apply average_nonneg. exact Hle.
Qed.

Lemma count_le_replicate_zero (n : nat) : count_le 0 (replicate n 0%Q) = n.
Proof. induction n as [|n IH]; simpl; [reflexivity|]. rewrite IH. reflexivity. Qed.

Lemma free_by_bound (t x : Q) : (free_by t x <= 1)%nat.
Proof. unfold free_by. destruct (Qle_bool x t); lia. Qed.

(** While as many servers are idle since time 0 as trucks are still to
    come, and no truck arrives before time 0, nobody waits. *)
Lemma serve_loop_idle (arrivals : list (Q * Q)) (free_times : list Q) (total_wait : Q) :
  Forall (fun ev => (0 <= fst ev)%Q) arrivals ->
  (length arrivals <= count_le 0 free_times)%nat ->
  free_times <> [] ->
  exists free_times' total_wait',
    for_each serve (free_times, total_wait) arrivals = Ok (free_times', total_wait')
    /\ free_times' <> [] /\ (total_wait' == total_wait)%Q.
Proof.
  revert free_times total_wait.
  induction arrivals as [|[a s] rest IH]; intros fs tw Hpos Hlen Hne.
  - simpl. exists fs, tw. split; [reflexivity|]. split; [exact Hne|reflexivity].
  - rewrite for_each_cons. apply Forall_cons in Hpos as [Ha Hpos]. simpl in Ha, Hlen.
    destruct (serve_least fs tw a s Hne) as (idx & v & Hv & Hleast & ->). rewrite bind_ok.
    destruct (count_le_some 0 fs) as (y & Hy & Hy0); [lia|].
    specialize (Hleast y Hy).
    assert (Hwait : max_float 0 (v - a) = 0%Q).
    { unfold max_float. destruct (Qlt_le_dec 0 (v - a)); [lra|reflexivity]. }
    rewrite Hwait.
    pose proof (count_le_insert 0 fs idx v (a + 0 + s)%Q Hv) as Hc.
    pose proof (free_by_bound 0 v) as Hb.
    destruct (IH (<[idx := (a + 0 + s)%Q]> fs) (tw + 0)%Q) as (fs' & tw' & -> & Hne' & Heq).
    + exact Hpos.
    + lia.
    + apply insert_nonempty. exact Hne.
    + exists fs', tw'. repeat split; auto. rewrite Heq. lra.
Qed.

(** X5: when there are at least as many servers as trucks and no truck
    arrives before time 0 (the time from which every server is free),
    the average wait is 0. *)
Theorem multi_server_queue_enough_servers (arrivals : list (Q * Q)) (num_servers : Z) :
  Forall (fun ev => (0 <= fst ev)%Q) arrivals ->
  (Z.of_nat (length arrivals) <= num_servers)%Z ->
  exists avg_wait_minutes end_time,
    multi_server_queue arrivals num_servers = Ok (avg_wait_minutes, end_time)
    /\ (avg_wait_minutes == 0)%Q.
Proof.
  intros Hpos Hlen. unfold multi_server_queue. destruct arrivals as [|ev rest].
  - exists 0%Q, 0%Q. split; reflexivity.
  - destruct (serve_loop_idle (ev :: rest)
                (replicate (Z.to_nat (Z.max 1 num_servers)) 0%Q) 0%Q Hpos)
      as (fs & tw & -> & Hne & Heq).
    + rewrite count_le_replicate_zero. lia.
    + apply pool_nonempty.
    + rewrite bind_ok. destruct fs as [|x fs]; [congruence|]. simpl max_list.
      rewrite bind_ok. eexists _, _. split; [reflexivity|]. rewrite Heq.
      unfold Qdiv. lra.
Qed.

Lemma multi_server_queue_enough_servers_witness :
  exists avg_wait_minutes end_time,
    multi_server_queue two_trucks 2 = Ok (avg_wait_minutes, end_time)
    /\ (avg_wait_minutes == 0)%Q.
Proof.
  apply (multi_server_queue_enough_servers two_trucks 2).
  - repeat constructor; simpl; lra.
  - simpl. lia.
Defined.

(** ** [simulate_subpoint_queues] *)

Lemma dict_set_absent {V : Type} (k : string) (v : V) (d : list (string * V)) :
  k ∉ map fst d -> dict_set k v d = d ++ [(k, v)].
Proof.
  induction d as [|[k' v'] d IH]; simpl; intros Hk; [reflexivity|].
  apply not_elem_of_cons in Hk as [Hne Hk].
  destruct (String.eqb_spec k k'); [contradiction|]. rewrite IH by exact Hk. reflexivity.
Qed.

Lemma simulate_subpoint_value (points : hierarchy) (results : list (string * Q))
    (subpoint : string) (arrivals : list (Q * Q)) :
  exists w,
    simulate_subpoint points results (subpoint, arrivals) = Ok (dict_set subpoint w results)
    /\ (arrivals = [] -> w = 0%Q) /\ (0 <= w)%Q.
Proof.
  unfold simulate_subpoint. destruct arrivals as [|ev rest].
  - exists 0%Q. split; [reflexivity|]. split; [reflexivity|lra].
  - destruct (get_server_count_total points subpoint) as [n ->]. rewrite bind_ok.
    destruct (multi_server_queue_total (ev :: rest) n) as [[w e] Hrun].
    pose proof Hrun as Hrun'. unfold multi_server_queue in Hrun'.
    destruct (serve_loop_wait_nonneg (ev :: rest) _ 0%Q (pool_nonempty n))
      as (fs & tw & Hloop & Hne & Hle); [lra|].
    rewrite Hloop, bind_ok in Hrun'. destruct fs as [|x fs]; [congruence|].
    simpl max_list in Hrun'. rewrite bind_ok in Hrun'. injection Hrun' as <- _.
    rewrite Hrun, bind_ok. eexists. split; [reflexivity|]. split; [discriminate|].
    apply average_nonneg. exact Hle.
Qed.

(** X8: [simulate_subpoint_queues] never raises; for a mapping of
    events (distinct keys) it returns one entry per sub-point, in the
    same order, each an average that is not negative, and 0 for a
    sub-point without arrivals. *)
Theorem simulate_subpoint_queues_entries (points : hierarchy)
    (events : list (string * list (Q * Q))) :
  NoDup (map fst events) ->
  exists waits,
    simulate_subpoint_queues points events = Ok waits
    /\ Forall2 (fun ev kv => fst kv = fst ev
                             /\ (snd ev = [] -> snd kv = 0%Q)
                             /\ (0 <= snd kv)%Q) events waits.
Proof.
  intros Hnodup. unfold simulate_subpoint_queues.
  assert (Hgen : forall results,
            (forall k, k ∈ map fst events -> k ∉ map fst results) ->
            exists waits,
              for_each (simulate_subpoint points) results events = Ok (results ++ waits)
              /\ Forall2 (fun ev kv => fst kv = fst ev
                                       /\ (snd ev = [] -> snd kv = 0%Q)
                                       /\ (0 <= snd kv)%Q) events waits).
  { induction events as [|[subpoint arrivals] rest IH]; intros results Hfresh.
    - exists []. rewrite app_nil_r. split; [reflexivity|constructor].
    - simpl in Hnodup. apply NoDup_cons in Hnodup as [Hk Hnodup].
      rewrite for_each_cons.
      destruct (simulate_subpoint_value points results subpoint arrivals)
        as (w & -> & Hempty & Hpos).
      rewrite bind_ok, dict_set_absent by (apply Hfresh; left).
      destruct (IH Hnodup (results ++ [(subpoint, w)])) as (waits & -> & Hall).
      + intros k Hin. rewrite map_app. simpl. intros Hk'.
        apply elem_of_app in Hk' as [Hk'|Hk'].
        * apply (Hfresh k); [right; exact Hin|exact Hk'].
        * apply list_elem_of_singleton in Hk'. subst k. contradiction.
      + exists ((subpoint, w) :: waits). rewrite <- app_assoc. split; [reflexivity|].
        constructor; [|exact Hall]. simpl. auto. }
  destruct (Hgen []) as (waits & Hrun & Hall).
  - intros k _ Hk. apply elem_of_nil in Hk. contradiction.
  - exists waits. split; [exact Hrun|exact Hall].
Qed.

Lemma simulate_subpoint_queues_entries_witness :
  exists waits,
    simulate_subpoint_queues FENI_DUMP_POINTS
      [("FENI A (LINE 1-2)", two_trucks); ("FENI W (LINE 69-70)", [])] = Ok waits
    /\ Forall2 (fun ev kv => fst kv = fst ev
                             /\ (snd ev = [] -> snd kv = 0%Q)
                             /\ (0 <= snd kv)%Q)
         [("FENI A (LINE 1-2)", two_trucks); ("FENI W (LINE 69-70)", [])] waits.
Proof.
  apply (simulate_subpoint_queues_entries FENI_DUMP_POINTS
           [("FENI A (LINE 1-2)", two_trucks); ("FENI W (LINE 69-70)", [])]).
  apply (bool_decide_unpack _). vm_compute. exact I.
Defined.

(** ** Arrival events: shape of the result *)

Lemma insert_by_arrival_after (x y : Q * Q) (xs : list (Q * Q)) :
  sorted_by_arrival (y :: xs) = true ->
  Qle_bool (fst y) (fst x) = true ->
  sorted_by_arrival (y :: insert_by_arrival x xs) = true.
Proof.
  revert y. induction xs as [|z xs IH]; intros y Hs Hyx.
  - simpl. rewrite Hyx. reflexivity.
  - simpl in Hs. apply andb_prop in Hs as [Hyz Hs].
    simpl insert_by_arrival. destruct (Qle_bool (fst x) (fst z)) eqn:Hxz.
    + simpl. rewrite Hyx, Hxz. simpl in Hs. rewrite Hs. reflexivity.
    + change (Qle_bool (fst y) (fst z) && sorted_by_arrival (z :: insert_by_arrival x xs)
              = true).
      rewrite Hyz. simpl andb. apply IH; [exact Hs|].
      apply Qle_bool_iff. destruct (Qlt_le_dec (fst z) (fst x)) as [Hlt|Hle]; [lra|].
      apply Qle_bool_iff in Hle. congruence.
Qed.

Lemma insert_by_arrival_sorted (x : Q * Q) (xs : list (Q * Q)) :
  sorted_by_arrival xs = true -> sorted_by_arrival (insert_by_arrival x xs) = true.
Proof.
  destruct xs as [|z xs]; intros Hs; [reflexivity|].
  simpl insert_by_arrival. destruct (Qle_bool (fst x) (fst z)) eqn:Hxz.
  - change (Qle_bool (fst x) (fst z) && sorted_by_arrival (z :: xs) = true).
    rewrite Hxz, Hs. reflexivity.
  - apply insert_by_arrival_after; [exact Hs|].
    apply Qle_bool_iff. destruct (Qlt_le_dec (fst z) (fst x)) as [Hlt|Hle]; [lra|].
    apply Qle_bool_iff in Hle. congruence.
Qed.

Lemma sort_by_arrival_sorted (xs : list (Q * Q)) :
  sorted_by_arrival (sort_by_arrival xs) = true.
Proof.
  induction xs as [|x xs IH]; [reflexivity|].
  simpl. apply insert_by_arrival_sorted. exact IH.
Qed.

Lemma insert_by_arrival_perm (x : Q * Q) (xs : list (Q * Q)) :
  insert_by_arrival x xs ≡ₚ x :: xs.
Proof.
  induction xs as [|z xs IH]; simpl; [reflexivity|].
  destruct (Qle_bool (fst x) (fst z)); [reflexivity|].
  rewrite IH. apply Permutation_swap.
Qed.

Lemma sort_by_arrival_perm (xs : list (Q * Q)) : sort_by_arrival xs ≡ₚ xs.
Proof.
  induction xs as [|x xs IH]; simpl; [reflexivity|].
  rewrite insert_by_arrival_perm, IH. reflexivity.
Qed.

Lemma dict_set_twice {V : Type} (k : string) (v v' : V) (d : list (string * V)) :
  dict_set k v' (dict_set k v d) = dict_set k v' d.
Proof.
  induction d as [|[k' w] d IH]; simpl.
  - rewrite String.eqb_refl. reflexivity.
  - destruct (String.eqb k k') eqn:E; simpl; rewrite E; [reflexivity|].
    rewrite IH. reflexivity.
Qed.

Lemma dict_set_key_list {V : Type} (k : string) (v : V) (d : list (string * V)) :
  map fst (dict_set k v d)
  = if dict_mem k d then map fst d else map fst d ++ [k].
Proof.
  unfold dict_mem. induction d as [|[k' w] d IH]; simpl; [reflexivity|].
  destruct (String.eqb k k'); simpl; [reflexivity|].
  rewrite IH. destruct (dict_get k d); reflexivity.
Qed.

Lemma dict_mem_key {V : Type} (k : string) (d : list (string * V)) :
  dict_mem k d = true <-> k ∈ map fst d.
Proof.
  unfold dict_mem. induction d as [|[k' w] d IH]; simpl.
  - split; [discriminate|]. intros H. apply elem_of_nil in H. contradiction.
  - destruct (String.eqb_spec k k') as [->|Hne].
    + split; [intros _; left|reflexivity].
    + rewrite IH. split; [intros H; right; exact H|].
      intros H. apply elem_of_cons in H as [H|H]; [contradiction|exact H].
Qed.

Lemma dict_set_nodup {V : Type} (k : string) (v : V) (d : list (string * V)) :
  NoDup (map fst d) -> NoDup (map fst (dict_set k v d)).
Proof.
  intros Hnd. rewrite dict_set_key_list. destruct (dict_mem k d) eqn:Hmem; [exact Hnd|].
  apply NoDup_app. split; [exact Hnd|]. split; [|apply NoDup_singleton].
  intros x Hx Hk. apply list_elem_of_singleton in Hk. subst x.
  apply dict_mem_key in Hx. congruence.
Qed.

Lemma dict_set_Forall {V : Type} (P : string * V -> Prop) (k : string) (v : V)
    (d : list (string * V)) :
  P (k, v) -> Forall P d -> Forall P (dict_set k v d).
Proof.
  intros Hk. induction 1 as [|[k' v'] rest Hhd Htl IH]; simpl.
  - constructor; [exact Hk|constructor].
  - destruct (String.eqb_spec k k') as [->|Hne]; constructor; assumption.
Qed.

Lemma range_nonempty (n : Z) : (0 < n)%Z -> range n <> [].
Proof.
  intros Hn H. apply (f_equal length) in H. unfold range in H.
  rewrite length_map, length_seq in H. simpl in H. lia.
Qed.

Section Events.
Variable dump_points : hierarchy.
Variables empty_speed loaded_speed : Q.
Variable lookup : option RouteTimeLookup.
Variable spacing : Q.

(** What one route does to the events: nothing, or it appends its
    trucks, one arrival per truck, to the list of its sub-point. *)
Lemma route_arrivals_form (events events' : list (string * list (Q * Q)))
    (parking : string) (cfg : route_cfg) :
  route_arrivals dump_points empty_speed loaded_speed lookup spacing events parking cfg
  = Ok events' ->
  events' = events
  \/ exists depart travel service,
       dumping_location cfg <> ""
       /\ (0 < number_of_trucks cfg)%Z
       /\ is_Some (get_main_feni_from_sub_point dump_points (dumping_location cfg))
       /\ parse_departure (departure_time_or cfg "7:00") = Ok depart
       /\ compute_route_times parking (loading_location cfg) (dumping_location cfg)
            empty_speed loaded_speed lookup = Ok (travel, service)
       /\ events'
          = dict_set (dumping_location cfg)
              (default [] (dict_get (dumping_location cfg) events)
               ++ map (fun i => ((depart + travel + inject_Z i * spacing)%Q, service))
                    (range (number_of_trucks cfg)))
              events.
Proof.
  unfold route_arrivals.
  destruct (String.eqb_spec (dumping_location cfg) "") as [|Hdump];
    [intros [= <-]; left; reflexivity|].
  destruct (String.eqb (loading_location cfg) ""); [intros [= <-]; left; reflexivity|].
  destruct (Z.leb_spec (number_of_trucks cfg) 0) as [|Htrucks];
    [intros [= <-]; left; reflexivity|].
  simpl orb. cbv iota.
  destruct (get_main_feni_from_sub_point dump_points (dumping_location cfg))
    as [main|] eqn:Hmain; [|intros [= <-]; left; reflexivity].
  destruct (parse_departure _) as [depart|e]; [|discriminate]. rewrite bind_ok.
  destruct (compute_route_times _ _ _ _ _ _) as [[travel service]|e]; [|discriminate].
  rewrite bind_ok. intros [= <-]. right. exists depart, travel, service.
  repeat (split; [eauto|]).
  unfold dict_mem. destruct (dict_get (dumping_location cfg) events) as [old|] eqn:Hold.
  - rewrite Hold. reflexivity.
  - rewrite dict_get_set_eq, dict_set_twice. reflexivity.
Qed.

Let shaped (events : list (string * list (Q * Q))) : Prop :=
  NoDup (map fst events)
  /\ Forall (fun kv => fst kv <> ""
                       /\ is_Some (get_main_feni_from_sub_point dump_points (fst kv))
                       /\ snd kv <> []) events.

Lemma route_arrivals_shaped (events events' : list (string * list (Q * Q)))
    (parking : string) (cfg : route_cfg) :
  shaped events ->
  route_arrivals dump_points empty_speed loaded_speed lookup spacing events parking cfg
  = Ok events' ->
  shaped events'.
Proof.
  intros [Hnd Hall] Hrun.
  destruct (route_arrivals_form _ _ _ _ Hrun)
    as [->|(depart & travel & service & Hdump & Htrucks & Hmain & _ & _ & ->)];
    [split; assumption|].
  split; [apply dict_set_nodup; exact Hnd|].
  apply dict_set_Forall; [|exact Hall]. simpl. repeat split; auto.
  intros H. apply app_eq_nil in H as [_ H]. apply map_eq_nil in H.
  exact (range_nonempty _ Htrucks H).
Qed.

Lemma build_arrival_events_shaped (configs : contractor_configs) :
  exists events,
    build_arrival_events dump_points empty_speed loaded_speed lookup spacing configs
    = Ok events
    /\ shaped events
    /\ Forall (fun kv => sorted_by_arrival (snd kv) = true) events.
Proof.
  destruct (build_arrival_events_total dump_points empty_speed loaded_speed lookup spacing
              configs) as [events Hrun].
  exists events. split; [exact Hrun|]. unfold build_arrival_events in Hrun.
  destruct (for_each _ [] configs) as [raw|e] eqn:Hraw; [|discriminate].
  rewrite bind_ok in Hrun. injection Hrun as <-.
  assert (Hshaped : shaped raw).
  { assert (Hbase : shaped []) by (split; simpl; constructor).
    eapply for_each_inv with (P := shaped); [|exact Hbase|exact Hraw].
    intros s [contractor routes] s' Hs Hstep. unfold add_contractor in Hstep.
    eapply for_each_inv with (P := shaped); [|exact Hs|exact Hstep].
    intros s1 [parking cfg] s2 Hs1 Hroute. unfold add_route in Hroute.
    destruct (route_arrivals _ _ _ _ _ s1 parking cfg) as [ev|e] eqn:Harr; simpl in Hroute.
    - injection Hroute as <-. eapply route_arrivals_shaped; eauto.
    - injection Hroute as <-. exact Hs1. }
  destruct Hshaped as [Hnd Hall]. split; [split|].
  - rewrite <- list_fmap_compose. exact Hnd.
  - apply Forall_fmap. apply (Forall_impl _ _ _ Hall). intros [k v] (Hk & Hm & Hv). simpl in *.
    repeat split; auto. intros H. apply Hv.
    apply Permutation_nil_r. rewrite <- H. symmetry. apply sort_by_arrival_perm.
  - apply Forall_fmap. apply Forall_forall. intros [k v] _. simpl.
    apply sort_by_arrival_sorted.
Qed.

End Events.

(** X9: [build_arrival_events] never raises, and in what it returns
    every list of events is in ascending order of arrival time (the
    order [multi_server_queue] asks for). *)
Theorem build_arrival_events_sorted (points : hierarchy) (empty_speed loaded_speed : Q)
    (lookup : option RouteTimeLookup) (spacing : Q) (configs : contractor_configs) :
  exists events,
    build_arrival_events points empty_speed loaded_speed lookup spacing configs = Ok events
    /\ Forall (fun kv => sorted_by_arrival (snd kv) = true) events.
Proof.
  destruct (build_arrival_events_shaped points empty_speed loaded_speed lookup spacing configs)
    as (events & Hrun & _ & Hsorted).
  exists events. split; assumption.
Qed.

(** X10: the keys of the events are distinct, not empty, and
    sub-points of the hierarchy, and no key has an empty list: a
    sub-point appears only once a route has put a truck there. *)
Theorem build_arrival_events_keys (points : hierarchy) (empty_speed loaded_speed : Q)
    (lookup : option RouteTimeLookup) (spacing : Q) (configs : contractor_configs) :
  exists events,
    build_arrival_events points empty_speed loaded_speed lookup spacing configs = Ok events
    /\ NoDup (map fst events)
    /\ Forall (fun kv => fst kv <> ""
                         /\ is_Some (get_main_feni_from_sub_point points (fst kv))
                         /\ snd kv <> []) events.
Proof.
  destruct (build_arrival_events_shaped points empty_speed loaded_speed lookup spacing configs)
    as (events & Hrun & [Hnd Hall] & _).
  exists events. split; [exact Hrun|]. split; assumption.
Qed.

(** ** Route times *)

Lemma div_float_zero (x y : Q) : (y == 0)%Q -> div_float x y = Raise ZeroDivisionError.
Proof. intros H. unfold div_float. rewrite (Qeq_eq_bool _ _ H). reflexivity. Qed.

Lemma div_float_value (x y : Q) : ~ (y == 0)%Q -> div_float x y = Ok (x / y)%Q.
Proof.
  intros H. unfold div_float. destruct (Qeq_bool y 0) eqn:E; [|reflexivity].
  apply Qeq_bool_eq in E. contradiction.
Qed.

Lemma zero_speed_raises (parking loading dump : string) (empty_speed loaded_speed : Q)
    (lookup : option RouteTimeLookup) :
  (empty_speed == 0)%Q \/ (loaded_speed == 0)%Q ->
  compute_route_times parking loading dump empty_speed loaded_speed lookup
  = Raise ZeroDivisionError.
Proof.
  intros Hzero. unfold compute_route_times.
  destruct (match lookup with Some l => get_row l parking loading dump | None => None end)
    as [row|].
  - destruct (Qeq_bool empty_speed 0) eqn:He.
    + apply Qeq_bool_eq in He.
      destruct (travel_parking_loading_h row); rewrite !(div_float_zero _ _ He); reflexivity.
    + destruct Hzero as [Hz|Hl]; [apply Qeq_eq_bool in Hz; congruence|].
      apply Qeq_bool_neq in He.
      destruct (travel_parking_loading_h row), (loaded_travel_h row);
        rewrite ?(div_float_value _ _ He), ?(div_float_zero _ _ Hl); reflexivity.
  - destruct (Qeq_bool empty_speed 0) eqn:He.
    + apply Qeq_bool_eq in He. rewrite (div_float_zero _ _ He). reflexivity.
    + destruct Hzero as [Hz|Hl]; [apply Qeq_eq_bool in Hz; congruence|].
      apply Qeq_bool_neq in He.
      rewrite (div_float_value _ _ He), (div_float_zero _ _ Hl). reflexivity.
Qed.

(** X12: with a speed of zero every route is dropped inside its [try]
    block, so [simulate_wait_times] does not fail: it reports a wait of
    0 for both zones, whatever the configuration and the hierarchy. *)
Theorem simulate_wait_times_zero_speed (points : hierarchy) (empty_speed loaded_speed : Q)
    (lookup : option RouteTimeLookup) (spacing : Q) (configs : contractor_configs) :
  (empty_speed == 0)%Q \/ (loaded_speed == 0)%Q ->
  build_arrival_events points empty_speed loaded_speed lookup spacing configs = Ok []
  /\ simulate_wait_times points empty_speed loaded_speed lookup spacing configs
     = Ok [("FENI KM 0", 0%Q); ("FENI KM 15", 0%Q)].
Proof.
  intros Hzero.
  assert (Hraw : for_each (add_contractor points empty_speed loaded_speed lookup spacing)
                   [] configs = Ok []).
  { destruct (for_each _ [] configs) as [raw|e] eqn:Hrun.
    - f_equal. eapply for_each_inv with (P := fun s => s = []); [|reflexivity|exact Hrun].
      intros s [contractor routes] s' -> Hstep. unfold add_contractor in Hstep.
      eapply for_each_inv with (P := fun s => s = []); [|reflexivity|exact Hstep].
      intros s1 [parking cfg] s2 -> Hroute. unfold add_route in Hroute.
      destruct (route_arrivals _ _ _ _ _ [] parking cfg) as [ev|e] eqn:Harr;
        simpl in Hroute; [|congruence].
      injection Hroute as <-.
      destruct (route_arrivals_form _ _ _ _ _ _ _ _ _ Harr)
        as [->|(depart & travel & service & _ & _ & _ & _ & Hcompute & _)]; [reflexivity|].
      rewrite (zero_speed_raises _ _ _ _ _ _ Hzero) in Hcompute. discriminate.
    - destruct (for_each_total (add_contractor points empty_speed loaded_speed lookup spacing))
        with (xs := configs) (s := @nil (string * list (Q * Q))) as [r Hr]; [|congruence].
      intros s [contractor routes]. unfold add_contractor.
      apply for_each_total. intros s' [parking cfg]. unfold add_route.
      apply try_except_recovers. }
  assert (Hbuild : build_arrival_events points empty_speed loaded_speed lookup spacing configs
                   = Ok []).
  { unfold build_arrival_events. rewrite Hraw. reflexivity. }
  split; [exact Hbuild|].
  unfold simulate_wait_times. rewrite Hbuild. reflexivity.
Qed.

Lemma simulate_wait_times_zero_speed_witness :
  simulate_wait_times FENI_DUMP_POINTS 0 30 None 0.02 (one_route "7:00")
  = Ok [("FENI KM 0", 0%Q); ("FENI KM 15", 0%Q)].
Proof.
  apply (simulate_wait_times_zero_speed FENI_DUMP_POINTS 0 30 None 0.02 (one_route "7:00")).
  left. reflexivity.
Defined.

Lemma div_antitone (a e e' : Q) :
  (0 <= a)%Q -> (0 < e)%Q -> (e <= e')%Q -> (a / e' <= a / e)%Q.
Proof.
  intros Ha He Hee.
  apply Qle_shift_div_r; [lra|].
  assert (Hk : (0 <= a / e)%Q) by (apply Qle_shift_div_l; lra).
  assert (Hke : (a / e * e == a)%Q) by (field; lra).
  nra.
Qed.

(** X13: driving faster never makes the trip longer.  For positive
    speeds, raising the empty or the loaded speed does not increase the
    travel time [compute_route_times] returns, and leaves the service
    time as it is, provided the travel hours in the table row (if the
    route has one) are not negative. *)
Theorem compute_route_times_faster_is_sooner (parking loading dump : string)
    (empty_speed loaded_speed empty_speed' loaded_speed' : Q)
    (lookup : option RouteTimeLookup) :
  (0 < empty_speed)%Q -> (empty_speed <= empty_speed')%Q ->
  (0 < loaded_speed)%Q -> (loaded_speed <= loaded_speed')%Q ->
  (forall l row, lookup = Some l -> get_row l parking loading dump = Some row ->
     (0 <= or_default (travel_parking_loading_h row) 0)%Q
     /\ (0 <= or_default (loaded_travel_h row) 0)%Q) ->
  exists travel service travel',
    compute_route_times parking loading dump empty_speed loaded_speed lookup
    = Ok (travel, service)
    /\ compute_route_times parking loading dump empty_speed' loaded_speed' lookup
       = Ok (travel', service)
    /\ (travel' <= travel)%Q.
Proof.
  intros He Hee Hl Hll Hrow. unfold compute_route_times.
  assert (He0 : ~ (empty_speed == 0)%Q) by lra.
  assert (He0' : ~ (empty_speed' == 0)%Q) by lra.
  assert (Hl0 : ~ (loaded_speed == 0)%Q) by lra.
  assert (Hl0' : ~ (loaded_speed' == 0)%Q) by lra.
  pose proof (div_antitone 40 empty_speed empty_speed' ltac:(lra) He Hee) as D1.
  pose proof (div_antitone 40 loaded_speed loaded_speed' ltac:(lra) Hl Hll) as D2.
  destruct lookup as [l|]; [destruct (get_row l parking loading dump) as [row|] eqn:Hget|].
  - destruct (Hrow l row eq_refl Hget) as [Hp Hd].
    destruct (travel_parking_loading_h row) as [tp|], (loaded_travel_h row) as [tl|];
      simpl in Hp, Hd;
      rewrite ?(div_float_value _ _ He0), ?(div_float_value _ _ He0'),
              ?(div_float_value _ _ Hl0), ?(div_float_value _ _ Hl0'); simpl;
      eexists _, _, _; (split; [reflexivity|]); (split; [reflexivity|]).
    + pose proof (div_antitone (tp * REFERENCE_SPEED) empty_speed empty_speed'
                    ltac:(unfold REFERENCE_SPEED; lra) He Hee).
      pose proof (div_antitone (tl * REFERENCE_SPEED) loaded_speed loaded_speed'
                    ltac:(unfold REFERENCE_SPEED; lra) Hl Hll).
      lra.
    + pose proof (div_antitone (tp * REFERENCE_SPEED) empty_speed empty_speed'
                    ltac:(unfold REFERENCE_SPEED; lra) He Hee).
      lra.
    + pose proof (div_antitone (tl * REFERENCE_SPEED) loaded_speed loaded_speed'
                    ltac:(unfold REFERENCE_SPEED; lra) Hl Hll).
      lra.
    + lra.
  - rewrite (div_float_value _ _ He0), (div_float_value _ _ He0'),
            (div_float_value _ _ Hl0), (div_float_value _ _ Hl0'). simpl.
    eexists _, _, _. split; [reflexivity|]. split; [reflexivity|]. lra.
  - rewrite (div_float_value _ _ He0), (div_float_value _ _ He0'),
            (div_float_value _ _ Hl0), (div_float_value _ _ Hl0'). simpl.
    eexists _, _, _. split; [reflexivity|]. split; [reflexivity|]. lra.
Qed.

Lemma compute_route_times_faster_is_sooner_witness :
  exists travel service travel',
    compute_route_times "TF" "TF" "FENI A (LINE 1-2)" 40 30 None = Ok (travel, service)
    /\ compute_route_times "TF" "TF" "FENI A (LINE 1-2)" 50 35 None = Ok (travel', service)
    /\ (travel' <= travel)%Q.
Proof.
  apply (compute_route_times_faster_is_sooner "TF" "TF" "FENI A (LINE 1-2)" 40 30 50 35 None);
    vm_compute; congruence.
Defined.

(** ** config.py: distance bases and dump options *)

Lemma distance_base_none_iff (points : hierarchy) (name : string) :
  distance_base_of_sub_point points name = None
  <-> get_main_feni_from_sub_point points name = None.
Proof.
  induction points as [|[main cfg] rest IH]; simpl; [tauto|].
  destruct (dict_mem name (sub_points cfg)); [split; discriminate|exact IH].
Qed.

Lemma distance_base_is_a_base (points : hierarchy) (name base : string) :
  distance_base_of_sub_point points name = Some base ->
  base ∈ map (fun kv => distance_base (snd kv)) points.
Proof.
  induction points as [|[main cfg] rest IH]; simpl; [discriminate|].
  destruct (dict_mem name (sub_points cfg)).
  - intros [= <-]. left.
  - intros H. right. auto.
Qed.

(** X14: when every zone's [distance_base] is one of the two legacy
    codes (as in [FENI_DUMP_POINTS]), [get_distance_base_for_feni] maps
    every sub-point to a legacy code, leaves every other name as it is,
    and applying it twice is the same as applying it once. *)
Theorem get_distance_base_for_feni_normalises (points : hierarchy) (dump_location : string) :
  forallb (fun kv => list_mem (distance_base (snd kv)) ["FENI KM0"; "FENI KM15"]) points
  = true ->
  (is_Some (get_main_feni_from_sub_point points dump_location) ->
   list_mem (get_distance_base_for_feni points dump_location) ["FENI KM0"; "FENI KM15"]
   = true)
  /\ (get_main_feni_from_sub_point points dump_location = None ->
      get_distance_base_for_feni points dump_location = dump_location)
  /\ get_distance_base_for_feni points (get_distance_base_for_feni points dump_location)
     = get_distance_base_for_feni points dump_location.
Proof.
  intros Hbases.
  assert (Hlegacy : forall base,
            distance_base_of_sub_point points dump_location = Some base ->
            list_mem base ["FENI KM0"; "FENI KM15"] = true).
  { intros base Hbase. apply distance_base_is_a_base in Hbase.
    apply list_elem_of_fmap in Hbase as ([main cfg] & -> & Hin).
    rewrite forallb_forall in Hbases. apply list_elem_of_In in Hin.
    exact (Hbases _ Hin). }
  destruct (list_mem dump_location ["FENI KM0"; "FENI KM15"]) eqn:Hdirect.
  - assert (E : get_distance_base_for_feni points dump_location = dump_location)
      by (unfold get_distance_base_for_feni; rewrite Hdirect; reflexivity).
    rewrite !E. split; [intros _; exact Hdirect|]. split; reflexivity.
  - destruct (distance_base_of_sub_point points dump_location) as [base|] eqn:Hbase.
    + assert (E : get_distance_base_for_feni points dump_location = base)
        by (unfold get_distance_base_for_feni; rewrite Hdirect, Hbase; reflexivity).
      rewrite !E. specialize (Hlegacy base eq_refl).
      split; [intros _; exact Hlegacy|]. split.
      * intros Hnone. apply distance_base_none_iff in Hnone. congruence.
      * unfold get_distance_base_for_feni. rewrite Hlegacy. reflexivity.
    + assert (E : get_distance_base_for_feni points dump_location = dump_location)
        by (unfold get_distance_base_for_feni; rewrite Hdirect, Hbase; reflexivity).
      rewrite !E. split.
      * intros [main Hmain]. apply distance_base_none_iff in Hbase. congruence.
      * split; reflexivity.
Qed.

Lemma get_distance_base_for_feni_normalises_witness :
  get_distance_base_for_feni FENI_DUMP_POINTS
    (get_distance_base_for_feni FENI_DUMP_POINTS "FENI W (LINE 69-70)")
  = get_distance_base_for_feni FENI_DUMP_POINTS "FENI W (LINE 69-70)".
Proof.
  apply (get_distance_base_for_feni_normalises FENI_DUMP_POINTS "FENI W (LINE 69-70)").
  reflexivity.
Defined.

Lemma leb_false_flip (x y : string) : String.leb x y = false -> String.leb y x = true.
Proof. intros H. destruct (String.leb_total x y) as [E|E]; [congruence|exact E]. Qed.

Lemma insert_sorted_after (x y : string) (xs : list string) :
  ascending (y :: xs) = true -> String.leb y x = true ->
  ascending (y :: insert_sorted x xs) = true.
Proof.
  revert y. induction xs as [|z xs IH]; intros y Hs Hyx.
  - simpl. rewrite Hyx. reflexivity.
  - simpl in Hs. apply andb_prop in Hs as [Hyz Hs].
    simpl insert_sorted. destruct (String.leb x z) eqn:Hxz.
    + simpl. rewrite Hyx, Hxz. simpl in Hs. rewrite Hs. reflexivity.
    + change (String.leb y z && ascending (z :: insert_sorted x xs) = true).
      rewrite Hyz. simpl andb. apply IH; [exact Hs|]. apply leb_false_flip. exact Hxz.
Qed.

Lemma insert_sorted_ascending (x : string) (xs : list string) :
  ascending xs = true -> ascending (insert_sorted x xs) = true.
Proof.
  destruct xs as [|z xs]; intros Hs; [reflexivity|].
  simpl insert_sorted. destruct (String.leb x z) eqn:Hxz.
  - change (String.leb x z && ascending (z :: xs) = true). rewrite Hxz, Hs. reflexivity.
  - apply insert_sorted_after; [exact Hs|]. apply leb_false_flip. exact Hxz.
Qed.

Lemma sorted_ascending (xs : list string) : ascending (sorted xs) = true.
Proof.
  induction xs as [|x xs IH]; [reflexivity|]. simpl. apply insert_sorted_ascending. exact IH.
Qed.

Lemma insert_sorted_perm (x : string) (xs : list string) : insert_sorted x xs ≡ₚ x :: xs.
Proof.
  induction xs as [|z xs IH]; simpl; [reflexivity|].
  destruct (String.leb x z); [reflexivity|]. rewrite IH. apply Permutation_swap.
Qed.

Lemma sorted_perm (xs : list string) : sorted xs ≡ₚ xs.
Proof.
  induction xs as [|x xs IH]; simpl; [reflexivity|].
  rewrite insert_sorted_perm, IH. reflexivity.
Qed.

Lemma collected_options (points : hierarchy) (options : list string) :
  fold_left (fun options item => options ++ map fst (sub_points (snd item))) points options
  = options ++ concat (map (fun item => map fst (sub_points (snd item))) points).
Proof.
  revert options. induction points as [|item rest IH]; intros options; simpl.
  - rewrite app_nil_r. reflexivity.
  - rewrite IH, app_assoc. reflexivity.
Qed.

Lemma main_feni_some_iff (points : hierarchy) (name : string) :
  is_Some (get_main_feni_from_sub_point points name)
  <-> name ∈ concat (map (fun item => map fst (sub_points (snd item))) points).
Proof.
  induction points as [|[main cfg] rest IH]; simpl.
  - split; [intros [x Hx]; discriminate|]. intros H. apply elem_of_nil in H. contradiction.
  - rewrite elem_of_app, <- IH. destruct (dict_mem name (sub_points cfg)) eqn:Hmem.
    + apply dict_mem_key in Hmem. split; [intros _; left; exact Hmem|eauto].
    + split; [intros H; right; exact H|].
      intros [H|H]; [|exact H]. apply dict_mem_key in H. congruence.
Qed.

(** X15: the options [get_all_feni_dump_options] offers are in
    ascending order and are exactly the names that
    [get_main_feni_from_sub_point] resolves to a zone: every option
    belongs to a zone, and every sub-point of a zone is an option. *)
Theorem get_all_feni_dump_options_are_the_sub_points (points : hierarchy) :
  ascending (get_all_feni_dump_options points) = true
  /\ forall name,
       name ∈ get_all_feni_dump_options points
       <-> is_Some (get_main_feni_from_sub_point points name).
Proof.
  unfold get_all_feni_dump_options. split; [apply sorted_ascending|].
  intros name. rewrite sorted_perm, collected_options, app_nil_l.
  symmetry. apply main_feni_some_iff.
Qed.

(** ** Departure times that pass validation *)

(** X16: [validate_time_format] never raises, and a string it accepts
    is one the arrival-event builder parses: it reads as hours [h] in
    0..23 and minutes [m] in 0..59, and [parse_departure] gives
    [h + m/60], a time of day from 0 to below 24. *)
Theorem validated_time_parses (time_str : string) :
  (exists b, validate_time_format time_str = Ok b)
  /\ (validate_time_format time_str = Ok true ->
      exists h m,
        (0 <= h <= 23)%Z /\ (0 <= m <= 59)%Z
        /\ parse_departure time_str = Ok (inject_Z h + inject_Z m / 60)%Q
        /\ (0 <= inject_Z h + inject_Z m / 60 < 24)%Q).
Proof.
  unfold validate_time_format, parse_departure.
  destruct (length (split ":" time_str) =? 2)%nat; simpl negb; cbv iota;
    [|split; [eauto|discriminate]].
  unfold int. destruct (int_literal (nth 0 (split ":" time_str) "")) as [h|];
    [|split; [simpl; eauto|discriminate]].
  destruct (int_literal (nth 1 (split ":" time_str) "")) as [m|];
    [|split; [simpl; eauto|discriminate]].
  simpl. split; [eauto|]. intros [= Hok].
  apply andb_prop in Hok as [Hh Hm].
  apply andb_prop in Hh as [Hh0 Hh1]. apply andb_prop in Hm as [Hm0 Hm1].
  apply Z.leb_le in Hh0, Hh1, Hm0, Hm1.
  exists h, m. split; [lia|]. split; [lia|]. split; [reflexivity|].
  assert (H0 : (0 <= inject_Z h)%Q) by (replace 0%Q with (inject_Z 0) by reflexivity;
                                         rewrite <- Zle_Qle; lia).
  assert (H1 : (inject_Z h <= 23)%Q) by (replace 23%Q with (inject_Z 23) by reflexivity;
                                          rewrite <- Zle_Qle; lia).
  assert (H2 : (0 <= inject_Z m)%Q) by (replace 0%Q with (inject_Z 0) by reflexivity;
                                         rewrite <- Zle_Qle; lia).
  assert (H3 : (inject_Z m <= 59)%Q) by (replace 59%Q with (inject_Z 59) by reflexivity;
                                          rewrite <- Zle_Qle; lia).
  split; [|].
  - assert (0 <= inject_Z m / 60)%Q by (apply Qle_shift_div_l; lra). lra.
  - assert (inject_Z m / 60 <= 59 / 60)%Q by (apply Qle_shift_div_r; [lra|];
                                                field_simplify; lra).
    assert (59 / 60 < 1)%Q by reflexivity. lra.
Qed.

Lemma validated_time_parses_witness :
  exists h m,
    (0 <= h <= 23)%Z /\ (0 <= m <= 59)%Z
    /\ parse_departure "6:30" = Ok (inject_Z h + inject_Z m / 60)%Q
    /\ (0 <= inject_Z h + inject_Z m / 60 < 24)%Q.
Proof.
  apply (validated_time_parses "6:30"). reflexivity.
Defined.

(** ** The search: which candidate wins *)

Section FirstLeast.
Variable eval : string -> result (Q * list (string * Q)).





End FirstLeast.



(** ** Evaluating a route at the time it already has *)

Lemma set_departure_time_same (cfg : route_cfg) (t : string) :
  departure_time cfg = Some t -> set_departure_time cfg t = cfg.
Proof. destruct cfg as [l d dt n]. simpl. intros ->. reflexivity. Qed.

Lemma with_departure_route_same_time (route t : string) (routes : list (string * route_cfg))
    (cfg : route_cfg) :
  dict_get route routes = Some cfg -> departure_time cfg = Some t ->
  with_departure_route route t routes = routes.
Proof.
  induction routes as [|[k c] rest IH]; simpl; [discriminate|].
  destruct (String.eqb route k).
  - intros [= ->] Ht. rewrite (set_departure_time_same _ _ Ht). reflexivity.
  - intros Hget Ht. rewrite (IH Hget Ht). reflexivity.
Qed.

Lemma with_departure_same_time (contractor route t : string) (config : contractor_configs)
    (cfg : route_cfg) :
  entry_of contractor route config = Some cfg -> departure_time cfg = Some t ->
  with_departure contractor route t config = config.
Proof.
  unfold entry_of. induction config as [|[k routes] rest IH]; simpl; [discriminate|].
  destruct (String.eqb contractor k).
  - intros Hget Ht. rewrite (with_departure_route_same_time _ _ _ _ Hget Ht). reflexivity.
  - intros Hget Ht. rewrite (IH Hget Ht). reflexivity.
Qed.

(** X18: evaluating a route at the departure time it already has
    reproduces the baseline: [evaluate_departure_for_route] returns the
    zone waits that [simulate_wait_times] gives on the configuration
    itself, with their truck-weighted total. *)
Theorem evaluate_at_current_time_is_baseline
    (dump_points : hierarchy) (empty_speed loaded_speed : Q)
    (lookup : option RouteTimeLookup) (spacing : Q)
    (σ : heap) (contractor_configs : loc) (contractor route t : string) (cfg : route_cfg)
    (baseline_waits : list (string * Q)) :
  wf_config σ contractor_configs = true ->
  unshared σ contractor_configs ->
  entry_of contractor route (read_config σ contractor_configs) = Some cfg ->
  departure_time cfg = Some t ->
  simulate_wait_times dump_points empty_speed loaded_speed lookup spacing
    (read_config σ contractor_configs) = Ok baseline_waits ->
  snd (evaluate_departure_for_route dump_points empty_speed loaded_speed lookup spacing
         contractor_configs contractor route t (Some contractor_configs) σ)
  = Ok (weighted_total dump_points (read_config σ contractor_configs) baseline_waits,
        baseline_waits).
Proof.
  intros Hwf Hunshared Hentry Ht Hbase.
  pose proof (evaluate_run dump_points empty_speed loaded_speed lookup spacing σ
                contractor_configs Hwf Hunshared contractor route t σ (extends_refl σ))
    as Hrun.
  cbv beta zeta in Hrun. rewrite Hrun.
  rewrite (with_departure_same_time _ _ _ _ _ Hentry Ht).
  unfold evaluate_on. rewrite Hbase. reflexivity.
Qed.

Lemma evaluate_at_current_time_is_baseline_witness :
  exists baseline_waits,
    simulate_wait_times FENI_DUMP_POINTS 40 30 None 0.02 (read_config small_heap 0)
    = Ok baseline_waits
    /\ snd (evaluate_departure_for_route FENI_DUMP_POINTS 40 30 None 0.02
              0%nat "GMG" "TF" "6:00" (Some 0%nat) small_heap)
       = Ok (weighted_total FENI_DUMP_POINTS (read_config small_heap 0) baseline_waits,
             baseline_waits).
Proof.
  destruct (simulate_wait_times FENI_DUMP_POINTS 40 30 None 0.02 (read_config small_heap 0))
    as [baseline_waits|e] eqn:Hbase; [|vm_compute in Hbase; discriminate].
  exists baseline_waits. split; [reflexivity|].
  apply (evaluate_at_current_time_is_baseline FENI_DUMP_POINTS 40 30 None 0.02
           small_heap 0%nat "GMG" "TF" "6:00"
           (route "KR" "FENI A (LINE 1-2)" "6:00" 4) baseline_waits).
  - reflexivity.
  - split; apply (bool_decide_unpack _); vm_compute; exact I.
  - reflexivity.
  - reflexivity.
  - exact Hbase.
Defined.

(** ** The second pass: all recommended times together *)

Lemma store_departure_refs (σ : heap) (u : loc) (contractor route t : string) :
  cfg_refs (store_departure σ u contractor route t) u = cfg_refs σ u
  /\ length (cfg_dicts (store_departure σ u contractor route t)) = length (cfg_dicts σ).
Proof.
  unfold store_departure.
  destruct (dict_get contractor (get_top σ u)) as [r|]; [|auto].
  destruct (dict_get route (get_routes σ r)) as [c|]; [|auto].
  split; [reflexivity|]. simpl. apply length_insert.
Qed.

Lemma apply_recommended_run (u : loc) (item : string * list (string * (string * string)))
    (σ : heap) :
  apply_recommended u item σ
  = (fold_left (fun σ rt => store_departure σ u (fst item) (fst rt) (snd (snd rt)))
       (snd item) σ, Ok tt).
Proof.
  destruct item as [contractor routes]. unfold apply_recommended. simpl.
  revert σ. induction routes as [|[route [cur opt]] rest IH]; intros σ; [reflexivity|].
  cbn [for_eachM fold_left]. unfold Heap.bind, modify at 1. simpl. apply IH.
Qed.

Lemma apply_all_recommended_run (u : loc) (recommended : recommendations) (σ : heap) :
  for_eachM (fun (_ : unit) item => apply_recommended u item) tt recommended σ
  = (fold_left
       (fun σ item =>
          fold_left (fun σ rt => store_departure σ u (fst item) (fst rt) (snd (snd rt)))
            (snd item) σ)
       recommended σ, Ok tt).
Proof.
  revert σ. induction recommended as [|item rest IH]; intros σ; [reflexivity|].
  cbn [for_eachM fold_left]. unfold Heap.bind. rewrite apply_recommended_run. apply IH.
Qed.

Lemma stores_read (u : loc) (contractor : string) (routes : list (string * (string * string))) :
  forall σ,
    NoDup (cfg_refs σ u) ->
    Forall (fun c => (c < length (cfg_dicts σ))%nat) (cfg_refs σ u) ->
    let σ' := fold_left (fun σ rt => store_departure σ u contractor (fst rt) (snd (snd rt)))
                routes σ in
    NoDup (cfg_refs σ' u)
    /\ Forall (fun c => (c < length (cfg_dicts σ'))%nat) (cfg_refs σ' u)
    /\ read_config σ' u = apply_route_times contractor (read_config σ u) routes.
Proof.
  induction routes as [|[route [cur opt]] rest IH]; intros σ Hnd Hin; [simpl; auto|].
  cbn [fold_left fst snd]. unfold apply_route_times. cbn [fold_left fst snd].
  destruct (store_departure_refs σ u contractor route opt) as [Erefs Elen].
  rewrite <- (store_departure_read σ u contractor route opt Hnd Hin).
  apply IH; rewrite Erefs; [exact Hnd|]. rewrite Elen. exact Hin.
Qed.

Lemma all_stores_read (u : loc) (recommended : recommendations) :
  forall σ,
    NoDup (cfg_refs σ u) ->
    Forall (fun c => (c < length (cfg_dicts σ))%nat) (cfg_refs σ u) ->
    let σ' := fold_left
                (fun σ item =>
                   fold_left
                     (fun σ rt => store_departure σ u (fst item) (fst rt) (snd (snd rt)))
                     (snd item) σ)
                recommended σ in
    NoDup (cfg_refs σ' u)
    /\ Forall (fun c => (c < length (cfg_dicts σ'))%nat) (cfg_refs σ' u)
    /\ read_config σ' u = apply_times recommended (read_config σ u).
Proof.
  induction recommended as [|[contractor routes] rest IH]; intros σ Hnd Hin; [simpl; auto|].
  cbn [fold_left fst snd]. unfold apply_times. cbn [fold_left fst snd].
  destruct (stores_read u contractor routes σ Hnd Hin) as (Hnd' & Hin' & <-).
  apply IH; assumption.
Qed.

(** X19: of the three results of [optimise_departure_times], the
    baseline waits are the simulation of the configuration as given,
    and the optimised waits are the simulation of that configuration
    with every recommended time written in at once: each route's
    departure time replaced by its [optimal], nothing else changed. *)
Theorem optimised_waits_simulate_all_recommended
    (dump_points : hierarchy) (empty_speed loaded_speed : Q)
    (lookup : option RouteTimeLookup) (spacing : Q)
    (σ σ' : heap) (contractor_configs : loc) (candidate_times : list string)
    (recommended : recommendations) (baseline_waits optimised_waits : list (string * Q)) :
  wf_config σ contractor_configs = true ->
  unshared σ contractor_configs ->
  optimise_departure_times dump_points empty_speed loaded_speed lookup spacing
    contractor_configs candidate_times σ
  = (σ', Ok (recommended, baseline_waits, optimised_waits)) ->
  simulate_wait_times dump_points empty_speed loaded_speed lookup spacing
    (read_config σ contractor_configs) = Ok baseline_waits
  /\ simulate_wait_times dump_points empty_speed loaded_speed lookup spacing
       (apply_times recommended (read_config σ contractor_configs)) = Ok optimised_waits.
Proof.
  intros Hwf Hunshared Hrun. unfold optimise_departure_times in Hrun.
  apply bind_ok_inv in Hrun as (σ1 & original & Hgets & Hrun). injection Hgets as <- <-.
  apply bind_ok_inv in Hrun as (σ2 & baseline & Hlift & Hrun).
  unfold lift in Hlift. injection Hlift as <- Hbase.
  apply bind_ok_inv in Hrun as (σ3 & top_items & Hgets & Hrun). injection Hgets as <- <-.
  apply bind_ok_inv in Hrun as (σ4 & rec & Hloop & Hrun).
  apply bind_ok_inv in Hrun as (σ5 & updated & Hcopy & Hrun).
  apply bind_ok_inv in Hrun as (σ6 & [] & Hstores & Hrun).
  apply bind_ok_inv in Hrun as (σ7 & updated_items & Hgets & Hrun). injection Hgets as <- <-.
  apply bind_ok_inv in Hrun as (σ8 & optimised & Hlift & Hrun).
  unfold lift in Hlift. injection Hlift as <- Hopt.
  injection Hrun as _ <- <- <-.
  split; [exact Hbase|]. rewrite <- Hopt. f_equal.
  assert (Hframe : frame σ σ4).
  { pose proof (keeps_for_eachM σ
                  (optimise_contractor dump_points empty_speed loaded_speed lookup spacing
                     contractor_configs candidate_times)
                  (get_top σ contractor_configs)
                  (fun s x => keeps_optimise_contractor dump_points empty_speed loaded_speed
                                lookup spacing σ contractor_configs candidate_times s x)
                  [] σ (frame_refl σ)) as [Hf _].
    rewrite Hloop in Hf. exact Hf. }
  pose proof (frame_extends _ _ Hframe) as Hext.
  destruct (extends_refs σ σ4 contractor_configs Hext Hwf) as [Er Ec].
  destruct (wf_config_refs σ contractor_configs Hwf) as [Hr Hc].
  destruct Hunshared as [Hnd_r Hnd_c].
  pose proof Hext as (Ht & Hrs & Hcs). apply prefix_length in Hrs, Hcs.
  unfold alloc_copy in Hcopy. rewrite (deepcopy_closed σ4 contractor_configs) in Hcopy.
  - injection Hcopy as <- <-.
    rewrite apply_all_recommended_run in Hstores. injection Hstores as <-.
    destruct (all_stores_read (length (top_dicts σ4)) rec
                (plain_copy σ4 contractor_configs)) as (_ & _ & ->).
    + apply plain_copy_unshared.
    + apply plain_copy_in_range.
    + rewrite plain_copy_read. f_equal. symmetry. apply extends_read_config; assumption.
  - rewrite Er. apply (Forall_impl_elem _ _ _ Hr). intros x _ Hx. lia.
  - rewrite Ec. apply (Forall_impl_elem _ _ _ Hc). intros x _ Hx. lia.
  - split; [rewrite Er|rewrite Ec]; assumption.
Qed.

Lemma optimised_waits_simulate_all_recommended_witness :
  wf_config small_heap 0 = true
  /\ exists recommended optimised_waits,
       simulate_wait_times FENI_DUMP_POINTS 40 30 None 0.02
         (apply_times recommended (read_config small_heap 0)) = Ok optimised_waits.
Proof.
  split; [reflexivity|].
  destruct (optimise_departure_times FENI_DUMP_POINTS 40 30 None 0.02 0%nat
              small_candidates small_heap) as [σ' [[[rec bw] ow]|e]] eqn:Hrun;
    [|vm_compute in Hrun; discriminate].
  exists rec, ow.
  apply (optimised_waits_simulate_all_recommended FENI_DUMP_POINTS 40 30 None 0.02
           small_heap σ' 0%nat small_candidates rec bw ow).
  - reflexivity.
  - split; apply (bool_decide_unpack _); vm_compute; exact I.
  - exact Hrun.
Defined.

(** ** Truck counts: simulated arrivals, weights and the UI's table *)

Lemma count_route_at (s : string) (acc : list (string * Z)) (route : string * route_cfg) :
  s <> "" ->
  default 0%Z (dict_get s (count_route acc route))
  = (default 0%Z (dict_get s acc)
     + (if String.eqb (dumping_location (snd route)) s then number_of_trucks (snd route)
        else 0))%Z.
Proof.
  intros Hs. unfold count_route.
  destruct (String.eqb_spec (dumping_location (snd route)) "") as [E|Hd].
  - rewrite E. destruct (String.eqb_spec "" s); [congruence|lia].
  - destruct (String.eqb_spec (dumping_location (snd route)) s) as [->|Hne].
    + rewrite dict_get_set_eq. reflexivity.
    + rewrite dict_get_set_ne by congruence. lia.
Qed.

Lemma count_trucks_at (s : string) (configs : contractor_configs) :
  s <> "" -> default 0%Z (dict_get s (count_trucks configs)) = trucks_at s configs.
Proof.
  intros Hs. unfold count_trucks, trucks_at, trucks_where.
  assert (Hroutes : forall routes acc,
            default 0%Z (dict_get s (fold_left count_route routes acc))
            = (default 0%Z (dict_get s acc)
               + fold_right
                   (fun route total =>
                      ((if true && String.eqb (dumping_location (snd route)) s
                        then number_of_trucks (snd route) else 0) + total)%Z)
                   0%Z routes)%Z).
  { induction routes as [|route rest IH]; intros acc; cbn [fold_left fold_right]; [lia|].
    rewrite IH, (count_route_at s acc route Hs), andb_true_l.
    destruct (String.eqb (dumping_location (snd route)) s); lia. }
  assert (Hall : forall acc,
            default 0%Z (dict_get s (fold_left (fun acc item =>
                                                  fold_left count_route (snd item) acc)
                                       configs acc))
            = (default 0%Z (dict_get s acc)
               + fold_right
                   (fun item total =>
                      (fold_right
                         (fun route total =>
                            ((if true && String.eqb (dumping_location (snd route)) s
                              then number_of_trucks (snd route) else 0) + total)%Z)
                         0%Z (snd item)
                       + total)%Z)
                   0%Z configs)%Z).
  { induction configs as [|item rest IH]; intros acc; cbn [fold_left fold_right]; [lia|].
    rewrite IH, Hroutes. lia. }
  rewrite Hall. cbn [dict_get default]. lia.
Qed.

Lemma add_route_accepted (points : hierarchy) (empty_speed loaded_speed : Q)
    (lookup : option RouteTimeLookup) (spacing : Q)
    (events : list (string * list (Q * Q))) (route : string * route_cfg) :
  if accepted points empty_speed loaded_speed lookup route
  then exists arrivals,
         Z.of_nat (length arrivals) = number_of_trucks (snd route)
         /\ add_route points empty_speed loaded_speed lookup spacing events route
            = Ok (dict_set (dumping_location (snd route))
                    (default [] (dict_get (dumping_location (snd route)) events) ++ arrivals)
                    events)
  else add_route points empty_speed loaded_speed lookup spacing events route = Ok events.
Proof.
  destruct route as [parking cfg]. unfold accepted, add_route, route_arrivals. simpl fst.
  simpl snd.
  destruct (String.eqb (dumping_location cfg) ""); [reflexivity|].
  destruct (String.eqb (loading_location cfg) ""); [reflexivity|].
  destruct (Z.leb_spec (number_of_trucks cfg) 0) as [Hle|Hpos].
  { replace (0 <? number_of_trucks cfg)%Z with false by (symmetry; apply Z.ltb_ge; lia).
    reflexivity. }
  replace (0 <? number_of_trucks cfg)%Z with true by (symmetry; apply Z.ltb_lt; lia).
  simpl orb. simpl andb. cbv iota.
  destruct (get_main_feni_from_sub_point points (dumping_location cfg)) as [main|] eqn:Hmain.
  2:{ rewrite bool_decide_eq_false_2; [reflexivity|]. intros [x Hx]. discriminate. }
  rewrite bool_decide_eq_true_2 by eauto. simpl andb.
  destruct (parse_departure (departure_time_or cfg "7:00")) as [depart|e]; [|reflexivity].
  rewrite bind_ok. simpl is_ok. simpl andb.
  destruct (compute_route_times parking (loading_location cfg) (dumping_location cfg)
              empty_speed loaded_speed lookup) as [[travel service]|e]; [|reflexivity].
  rewrite bind_ok. simpl is_ok. cbv iota.
  eexists. split; [|simpl try_except; f_equal].
  2:{ unfold dict_mem.
      destruct (dict_get (dumping_location cfg) events) as [old|] eqn:Hold.
      - rewrite Hold. reflexivity.
      - rewrite dict_get_set_eq, dict_set_twice. reflexivity. }
  rewrite length_map. unfold range. rewrite length_map, length_seq. lia.
Qed.

Lemma dict_get_map_values {V W : Type} (f : V -> W) (k : string) (d : list (string * V)) :
  dict_get k (map (fun kv => (fst kv, f (snd kv))) d) = option_map f (dict_get k d).
Proof.
  induction d as [|[k' v] d IH]; simpl; [reflexivity|].
  destruct (String.eqb k k'); [reflexivity|exact IH].
Qed.

Section Counts.
Variable dump_points : hierarchy.
Variables empty_speed loaded_speed : Q.
Variable lookup : option RouteTimeLookup.
Variable spacing : Q.

Let keep := accepted dump_points empty_speed loaded_speed lookup.
Let arrivals_at (s : string) (events : list (string * list (Q * Q))) : Z :=
  Z.of_nat (length (default [] (dict_get s events))).

Lemma add_route_count (s : string) (events events' : list (string * list (Q * Q)))
    (route : string * route_cfg) :
  add_route dump_points empty_speed loaded_speed lookup spacing events route = Ok events' ->
  arrivals_at s events'
  = (arrivals_at s events
     + (if keep route && String.eqb (dumping_location (snd route)) s
        then number_of_trucks (snd route) else 0))%Z.
Proof.
  pose proof (add_route_accepted dump_points empty_speed loaded_speed lookup spacing
                events route) as Hform.
  unfold keep. destruct (accepted dump_points empty_speed loaded_speed lookup route).
  - destruct Hform as (arrivals & Hlen & ->). intros [= <-]. unfold arrivals_at. simpl andb.
    destruct (String.eqb_spec (dumping_location (snd route)) s) as [->|Hne].
    + rewrite dict_get_set_eq. simpl. rewrite length_app. lia.
    + rewrite dict_get_set_ne by congruence. lia.
  - rewrite Hform. intros [= <-]. simpl. lia.
Qed.

Lemma build_arrival_events_count (s : string) (configs : contractor_configs)
    (events : list (string * list (Q * Q))) :
  build_arrival_events dump_points empty_speed loaded_speed lookup spacing configs
  = Ok events ->
  arrivals_at s events = trucks_where keep s configs.
Proof.
  unfold build_arrival_events.
  destruct (for_each _ [] configs) as [raw|e] eqn:Hraw; [|discriminate].
  rewrite bind_ok. intros [= <-].
  assert (Hsorted : arrivals_at s (map (fun kv => (fst kv, sort_by_arrival (snd kv))) raw)
                    = arrivals_at s raw).
  { unfold arrivals_at. rewrite dict_get_map_values.
    destruct (dict_get s raw) as [xs|]; simpl; [|reflexivity].
    rewrite (Permutation_length (sort_by_arrival_perm xs)). reflexivity. }
  rewrite Hsorted. clear Hsorted.
  assert (Hroutes : forall routes ev ev',
            for_each (add_route dump_points empty_speed loaded_speed lookup spacing) ev routes
            = Ok ev' ->
            arrivals_at s ev'
            = (arrivals_at s ev
               + fold_right
                   (fun route total =>
                      ((if keep route && String.eqb (dumping_location (snd route)) s
                        then number_of_trucks (snd route) else 0) + total)%Z)
                   0%Z routes)%Z).
  { induction routes as [|route rest IH]; intros ev ev' Hrun.
    - injection Hrun as <-. simpl. lia.
    - rewrite for_each_cons in Hrun.
      destruct (add_route _ _ _ _ _ ev route) as [ev1|e] eqn:Hstep; [|discriminate].
      rewrite bind_ok in Hrun. rewrite (IH _ _ Hrun), (add_route_count s _ _ _ Hstep).
      simpl. lia. }
  assert (Hall : forall items ev ev',
            for_each (add_contractor dump_points empty_speed loaded_speed lookup spacing)
              ev items = Ok ev' ->
            arrivals_at s ev' = (arrivals_at s ev + trucks_where keep s items)%Z).
  { induction items as [|[contractor routes] rest IH]; intros ev ev' Hrun.
    - injection Hrun as <-. unfold trucks_where. simpl. lia.
    - rewrite for_each_cons in Hrun.
      change (add_contractor dump_points empty_speed loaded_speed lookup spacing ev
                (contractor, routes))
        with (for_each (add_route dump_points empty_speed loaded_speed lookup spacing)
                ev routes) in Hrun.
      destruct (for_each (add_route dump_points empty_speed loaded_speed lookup spacing)
                  ev routes) as [ev1|e] eqn:Hstep; [|discriminate].
      rewrite bind_ok in Hrun. rewrite (IH _ _ Hrun), (Hroutes _ _ _ Hstep).
      unfold trucks_where. simpl. lia. }
  rewrite (Hall _ _ _ Hraw). unfold arrivals_at. simpl. lia.
Qed.

End Counts.

(** X20: at every sub-point, the number of arrivals
    [build_arrival_events] simulates is the total truck count of the
    accepted routes that dump there, while the weight
    [simulate_wait_times] gives the sub-point in the zone average
    ([trucks_per_subpoint]) is the total truck count of all routes that
    name it, accepted or not. *)
Theorem simulated_arrivals_and_weights (points : hierarchy) (empty_speed loaded_speed : Q)
    (lookup : option RouteTimeLookup) (spacing : Q) (configs : contractor_configs)
    (s : string) :
  s <> "" ->
  exists events,
    build_arrival_events points empty_speed loaded_speed lookup spacing configs = Ok events
    /\ Z.of_nat (length (default [] (dict_get s events)))
       = trucks_where (accepted points empty_speed loaded_speed lookup) s configs
    /\ default 0%Z (dict_get s (count_trucks configs)) = trucks_at s configs.
Proof.
  intros Hs.
  destruct (build_arrival_events_total points empty_speed loaded_speed lookup spacing configs)
    as [events Hrun].
  exists events. split; [exact Hrun|]. split.
  - exact (build_arrival_events_count points empty_speed loaded_speed lookup spacing s
             configs events Hrun).
  - apply count_trucks_at. exact Hs.
Qed.

Lemma simulated_arrivals_and_weights_witness :
  exists events,
    build_arrival_events FENI_DUMP_POINTS 40 30 None 0.02 (one_route "ab:cd") = Ok events
    /\ Z.of_nat (length (default [] (dict_get "FENI A (LINE 1-2)" events)))
       = trucks_where (accepted FENI_DUMP_POINTS 40 30 None) "FENI A (LINE 1-2)"
           (one_route "ab:cd")
    /\ default 0%Z (dict_get "FENI A (LINE 1-2)" (count_trucks (one_route "ab:cd")))
       = trucks_at "FENI A (LINE 1-2)" (one_route "ab:cd").
Proof.
  apply (simulated_arrivals_and_weights FENI_DUMP_POINTS 40 30 None 0.02 (one_route "ab:cd")
           "FENI A (LINE 1-2)").
  discriminate.
Defined.

Lemma use_route_at (points : hierarchy) (main s : string) (used : list (string * Z))
    (route : string * route_cfg) :
  default 0%Z (dict_get s (use_route points main used route))
  = (default 0%Z (dict_get s used)
     + (if bool_decide (get_main_feni_from_sub_point points s = Some main)
           && (0 <? number_of_trucks (snd route))%Z
           && String.eqb (dumping_location (snd route)) s
        then number_of_trucks (snd route) else 0))%Z.
Proof.
  unfold use_route.
  destruct (String.eqb_spec (dumping_location (snd route)) s) as [->|Hne].
  - destruct (get_main_feni_from_sub_point points s) as [m|]; [|simpl; lia].
    destruct (String.eqb_spec m main) as [->|Hm].
    + rewrite bool_decide_eq_true_2 by reflexivity. simpl andb.
      destruct (0 <? number_of_trucks (snd route))%Z; [|simpl; lia]. simpl andb. cbv iota.
      destruct (dict_get s used) as [n|] eqn:Hn; rewrite dict_get_set_eq; simpl; lia.
    + rewrite bool_decide_eq_false_2 by congruence. simpl. lia.
  - rewrite !andb_false_r.
    destruct (get_main_feni_from_sub_point points (dumping_location (snd route))) as [m|];
      [|lia].
    destruct (String.eqb m main); [|lia].
    destruct (0 <? number_of_trucks (snd route))%Z; [|lia].
    destruct (dict_get (dumping_location (snd route)) used);
      rewrite dict_get_set_ne by congruence; lia.
Qed.

Lemma use_route_positive (points : hierarchy) (main : string) (used : list (string * Z))
    (route : string * route_cfg) :
  Forall (fun kv => get_main_feni_from_sub_point points (fst kv) = Some main
                    /\ (0 < snd kv)%Z) used ->
  Forall (fun kv => get_main_feni_from_sub_point points (fst kv) = Some main
                    /\ (0 < snd kv)%Z) (use_route points main used route).
Proof.
  intros Hall. unfold use_route.
  destruct (get_main_feni_from_sub_point points (dumping_location (snd route)))
    as [m|] eqn:Hm; [|exact Hall].
  destruct (String.eqb_spec m main) as [->|]; [|exact Hall].
  destruct (Z.ltb_spec 0 (number_of_trucks (snd route))) as [Hpos|]; [|exact Hall].
  destruct (dict_get (dumping_location (snd route)) used) as [n|] eqn:Hn.
  - apply dict_set_Forall; [|exact Hall]. simpl. split; [exact Hm|].
    assert (0 < n)%Z; [|lia].
    apply (dict_get_Forall (fun v => (0 < v)%Z) (dumping_location (snd route)) used n);
      [|exact Hn].
    apply (Forall_impl _ _ _ Hall). intros kv [_ H]. exact H.
  - apply dict_set_Forall; [|exact Hall]. simpl. auto.
Qed.

(** X21: the table of used dump locations that the UI shows for a zone
    lists only sub-points of that zone, each with a positive count; and
    when no route has a negative truck count, its count at a sub-point
    of the zone is the weight [simulate_wait_times] gives that sub-point
    in the zone average. *)
Theorem used_locations_match_weights (points : hierarchy) (configs : contractor_configs)
    (main_dump_site s : string) :
  Forall (fun kv => get_main_feni_from_sub_point points (fst kv) = Some main_dump_site
                    /\ (0 < snd kv)%Z)
    (get_used_individual_dump_locations points configs main_dump_site)
  /\ (Forall (fun item => Forall (fun route => (0 <= number_of_trucks (snd route))%Z)
                            (snd item)) configs ->
      s <> "" ->
      get_main_feni_from_sub_point points s = Some main_dump_site ->
      default 0%Z (dict_get s (get_used_individual_dump_locations points configs
                                 main_dump_site))
      = default 0%Z (dict_get s (count_trucks configs))).
Proof.
  assert (Hfold : get_used_individual_dump_locations points configs main_dump_site
                  = fold_left
                      (fun used item =>
                         fold_left (use_route points main_dump_site) (snd item) used)
                      configs []).
  { destruct configs; reflexivity. }
  rewrite Hfold. clear Hfold. split.
  - assert (Hgen : forall used,
              Forall (fun kv => get_main_feni_from_sub_point points (fst kv)
                                = Some main_dump_site /\ (0 < snd kv)%Z) used ->
              Forall (fun kv => get_main_feni_from_sub_point points (fst kv)
                                = Some main_dump_site /\ (0 < snd kv)%Z)
                (fold_left
                   (fun used item =>
                      fold_left (use_route points main_dump_site) (snd item) used)
                   configs used)).
    { induction configs as [|[contractor routes] rest IH]; intros used Hused; [exact Hused|].
      cbn [fold_left snd]. apply IH. clear IH. revert used Hused.
      induction routes as [|route routes IHr]; intros used Hused; [exact Hused|].
      cbn [fold_left]. apply IHr. apply use_route_positive. exact Hused. }
    apply Hgen. constructor.
  - intros Hnonneg Hs Hzone. rewrite (count_trucks_at s configs Hs).
    unfold trucks_at, trucks_where.
    assert (Hgen : forall used,
              default 0%Z
                (dict_get s (fold_left
                               (fun used item =>
                                  fold_left (use_route points main_dump_site) (snd item) used)
                               configs used))
              = (default 0%Z (dict_get s used)
                 + fold_right
                     (fun item total =>
                        (fold_right
                           (fun route total =>
                              ((if true && String.eqb (dumping_location (snd route)) s
                                then number_of_trucks (snd route) else 0) + total)%Z)
                           0%Z (snd item)
                         + total)%Z)
                     0%Z configs)%Z).
    { induction Hnonneg as [|[contractor routes] rest Hroutes _ IH]; intros used;
        cbn [fold_left fold_right snd]; [lia|].
      rewrite IH. clear IH. simpl in Hroutes.
      assert (Hr : forall used,
                default 0%Z (dict_get s (fold_left (use_route points main_dump_site)
                                           routes used))
                = (default 0%Z (dict_get s used)
                   + fold_right
                       (fun route total =>
                          ((if true && String.eqb (dumping_location (snd route)) s
                            then number_of_trucks (snd route) else 0) + total)%Z)
                       0%Z routes)%Z).
      { clear used. induction Hroutes as [|route routes Hroute _ IHr]; intros used;
          cbn [fold_left fold_right]; [lia|].
        rewrite IHr, use_route_at, andb_true_l.
        rewrite bool_decide_eq_true_2 by exact Hzone. simpl andb.
        destruct (String.eqb (dumping_location (snd route)) s);
          destruct (Z.ltb_spec 0 (number_of_trucks (snd route))); simpl; lia. }
      rewrite Hr. lia. }
    rewrite Hgen. cbn [dict_get default]. lia.
Qed.

Lemma used_locations_match_weights_witness :
  default 0%Z (dict_get "FENI U1 (LINE 65-66)"
                 (get_used_individual_dump_locations FENI_DUMP_POINTS
                    (read_config small_heap 0) "FENI KM 15"))
  = default 0%Z (dict_get "FENI U1 (LINE 65-66)" (count_trucks (read_config small_heap 0))).
Proof.
  apply (used_locations_match_weights FENI_DUMP_POINTS (read_config small_heap 0)
           "FENI KM 15" "FENI U1 (LINE 65-66)").
  - repeat constructor; simpl; lia.
  - discriminate.
  - reflexivity.
Defined.

(** ** Zone waits are not negative *)

Lemma assign_loop_wait_nonneg (arrivals : list (Q * Q)) (st st' : list Q * Q) :
  for_each assign st arrivals = Ok st' -> (snd st <= snd st')%Q.
Proof.
  intros Hrun.
  eapply for_each_inv with (P := fun x : list Q * Q => (snd st <= snd x)%Q);
    [|apply Qle_refl|exact Hrun].
  intros [fs tw] [a s] [fs' tw'] Hle Hstep. simpl in Hle. unfold assign in Hstep.
  destruct (min_index fs) as [idx|e]; [|discriminate]. rewrite bind_ok in Hstep.
  destruct (list_item idx fs) as [free|e]; [|discriminate]. rewrite bind_ok in Hstep.
  injection Hstep as _ <-. simpl. pose proof (max_float_l a free). lra.
Qed.

Lemma subpoint_wait_nonneg (points : hierarchy) (waits waits' : list (string * Q))
    (item : string * list (Q * Q)) :
  Forall (fun kv => (0 <= snd kv)%Q) waits ->
  subpoint_wait points waits item = Ok waits' ->
  Forall (fun kv => (0 <= snd kv)%Q) waits'.
Proof.
  intros Hall. destruct item as [subpoint arrivals]. unfold subpoint_wait.
  destruct (_num_servers_for points subpoint) as [n|e]; [|discriminate]. rewrite bind_ok.
  destruct arrivals as [|ev rest].
  - intros [= <-]. apply dict_set_Forall; [simpl; lra|exact Hall].
  - destruct (for_each assign _ (ev :: rest)) as [[fs tw]|e] eqn:Hloop; [|discriminate].
    rewrite bind_ok. intros [= <-]. apply dict_set_Forall; [|exact Hall].
    apply assign_loop_wait_nonneg in Hloop. simpl in Hloop.
    simpl snd. apply average_nonneg. exact Hloop.
Qed.

Lemma count_trucks_nonneg (configs : contractor_configs) :
  Forall (fun item => Forall (fun route => (0 <= number_of_trucks (snd route))%Z)
                        (snd item)) configs ->
  Forall (fun kv => (0 <= snd kv)%Z) (count_trucks configs).
Proof.
  intros Hall. unfold count_trucks.
  assert (Hgen : forall acc,
            Forall (fun kv => (0 <= snd kv)%Z) acc ->
            Forall (fun kv => (0 <= snd kv)%Z)
              (fold_left (fun acc item => fold_left count_route (snd item) acc) configs acc)).
  { induction Hall as [|[contractor routes] rest Hroutes _ IH]; intros acc Hacc;
      [exact Hacc|].
    cbn [fold_left snd]. apply IH. clear IH. simpl in Hroutes. revert acc Hacc.
    induction Hroutes as [|route routes Hroute _ IHr]; intros acc Hacc; [exact Hacc|].
    cbn [fold_left]. apply IHr. unfold count_route.
    destruct (String.eqb (dumping_location (snd route)) ""); [exact Hacc|].
    apply dict_set_Forall; [|exact Hacc]. simpl.
    assert (0 <= default 0%Z (dict_get (dumping_location (snd route)) acc))%Z; [|lia].
    destruct (dict_get (dumping_location (snd route)) acc) as [n|] eqn:Hn; simpl; [|lia].
    exact (dict_get_Forall (fun v => (0 <= v)%Z) _ acc n Hacc Hn). }
  apply Hgen. constructor.
Qed.

Lemma spec_zone_nonneg (points : hierarchy) (zone : string) (waits : list (string * Q))
    (trucks : list (string * Z)) :
  Forall (fun kv => (0 <= snd kv)%Q) waits ->
  Forall (fun kv => (0 <= snd kv)%Z) trucks ->
  (0 <= spec_zone_wait points zone waits trucks)%Q
  /\ (0 <= spec_zone_average points zone waits trucks)%Q.
Proof.
  intros Hwaits Htrucks.
  assert (Hw : (0 <= spec_zone_wait points zone waits trucks)%Q).
  { induction Hwaits as [|[subpoint w] rest Hw _ IH]; simpl; [lra|].
    destruct (in_zone points zone subpoint); [|lra].
    assert (Ht : (0 <= default 0 (dict_get subpoint trucks))%Z).
    { destruct (dict_get subpoint trucks) as [n|] eqn:Hn; simpl; [|lia].
      exact (dict_get_Forall (fun v => (0 <= v)%Z) _ trucks n Htrucks Hn). }
    assert (0 <= inject_Z (default 0%Z (dict_get subpoint trucks)))%Q
      by (replace 0%Q with (inject_Z 0) by reflexivity; rewrite <- Zle_Qle; exact Ht).
    simpl in Hw. nra. }
  split; [exact Hw|]. unfold spec_zone_average.
  destruct (Z.ltb_spec 0 (spec_zone_trucks points zone waits trucks)) as [Hpos|]; [|lra].
  apply Qle_shift_div_l; [|lra].
  replace 0%Q with (inject_Z 0) by reflexivity. rewrite <- Zlt_Qlt. exact Hpos.
Qed.

(** X22: on the hierarchy of [config.py], when no route has a negative
    truck count, [simulate_wait_times] returns the two zones
    ['FENI KM 0'] and ['FENI KM 15'], each with an average wait that is
    not negative. *)
Theorem simulate_wait_times_nonneg (empty_speed loaded_speed : Q)
    (lookup : option RouteTimeLookup) (spacing : Q) (configs : contractor_configs) :
  Forall (fun item => Forall (fun route => (0 <= number_of_trucks (snd route))%Z)
                        (snd item)) configs ->
  exists wait_km0 wait_km15,
    simulate_wait_times FENI_DUMP_POINTS empty_speed loaded_speed lookup spacing configs
    = Ok [("FENI KM 0", wait_km0); ("FENI KM 15", wait_km15)]
    /\ (0 <= wait_km0)%Q /\ (0 <= wait_km15)%Q.
Proof.
  intros Hnonneg.
  destruct (feni_simulate_wait_times_total empty_speed loaded_speed lookup spacing configs)
    as [wait_times Hrun].
  pose proof Hrun as Hsteps. unfold simulate_wait_times in Hsteps.
  destruct (build_arrival_events _ _ _ _ _ configs) as [events|e]; [|discriminate].
  rewrite bind_ok in Hsteps.
  destruct (for_each (subpoint_wait FENI_DUMP_POINTS) [] events) as [waits|e] eqn:Hwaits;
    [|discriminate].
  rewrite bind_ok in Hsteps.
  assert (Hw : Forall (fun kv => (0 <= snd kv)%Q) waits).
  { eapply for_each_inv with (P := Forall (fun kv : string * Q => (0 <= snd kv)%Q));
      [|constructor|exact Hwaits].
    intros s x s' Hs Hstep. eapply subpoint_wait_nonneg; eauto. }
  pose proof (count_trucks_nonneg configs Hnonneg) as Ht.
  destruct (aggregate_zones_run waits (count_trucks configs))
    as (a0 & a15 & Hagg & E0 & E15 & _).
  rewrite Hagg in Hsteps. injection Hsteps as <-.
  exists a0, a15. split; [exact Hrun|].
  destruct (spec_zone_nonneg FENI_DUMP_POINTS "FENI KM 0" waits (count_trucks configs) Hw Ht)
    as [_ H0].
  destruct (spec_zone_nonneg FENI_DUMP_POINTS "FENI KM 15" waits (count_trucks configs) Hw Ht)
    as [_ H15].
  split; [rewrite E0; exact H0|rewrite E15; exact H15].
Qed.

Lemma simulate_wait_times_nonneg_witness :
  exists wait_km0 wait_km15,
    simulate_wait_times FENI_DUMP_POINTS 40 30 None 0.02 (one_route "7:00")
    = Ok [("FENI KM 0", wait_km0); ("FENI KM 15", wait_km15)]
    /\ (0 <= wait_km0)%Q /\ (0 <= wait_km15)%Q.
Proof.
  apply (simulate_wait_times_nonneg 40 30 None 0.02 (one_route "7:00")).
  repeat constructor; simpl; lia.
Defined.

(** ** The timing table *)

Lemma key_eqb_eq (a b : string * string * string) : key_eqb a b = true <-> a = b.
Proof.
  destruct a as [[p l] d], b as [[p' l'] d']. unfold key_eqb.
  rewrite !andb_true_iff, !String.eqb_eq. split.
  - intros [[-> ->] ->]. reflexivity.
  - intros [= -> -> ->]. auto.
Qed.

Lemma find_row_key_set (key k : string * string * string) (row : time_row)
    (rows : list ((string * string * string) * time_row)) :
  find_row key (key_set k row rows)
  = if key_eqb key k then Some row else find_row key rows.
Proof.
  induction rows as [|[k' r] rest IH]; simpl.
  - reflexivity.
  - destruct (key_eqb k k') eqn:Hkk'; simpl.
    + apply key_eqb_eq in Hkk'. subst k'. destruct (key_eqb key k); reflexivity.
    + rewrite IH. destruct (key_eqb key k') eqn:Hk'; [|reflexivity].
      destruct (key_eqb key k) eqn:Hk; [|reflexivity].
      apply key_eqb_eq in Hk', Hk. rewrite <- Hk', <- Hk in Hkk'.
      rewrite (proj2 (key_eqb_eq key key) eq_refl) in Hkk'. discriminate.
Qed.

Lemma find_row_built (key : string * string * string) (rows : list table_row) :
  forall lookup,
    find_row key
      (fold_left (fun lookup row => key_set (row_key row) (timing row) lookup) rows lookup)
    = match last_row_named key rows with
      | Some row => Some (timing row)
      | None => find_row key lookup
      end.
Proof.
  induction rows as [|row rest IH]; intros lookup; simpl; [reflexivity|].
  rewrite IH. destruct (last_row_named key rest); [reflexivity|].
  rewrite find_row_key_set. destruct (key_eqb key (row_key row)); reflexivity.
Qed.

Lemma last_row_named_own (row : table_row) (rows : list table_row) :
  row ∈ rows -> is_Some (last_row_named (row_key row) rows).
Proof.
  induction rows as [|r rest IH]; intros Hin; [apply elem_of_nil in Hin; contradiction|].
  cbn [last_row_named]. apply elem_of_cons in Hin as [->|Hin].
  - destruct (last_row_named (row_key r) rest); [eauto|].
    rewrite (proj2 (key_eqb_eq (row_key r) (row_key r)) eq_refl). eauto.
  - destruct (IH Hin) as [x ->]. eauto.
Qed.

(** X23: a lookup built from the sheet finds, for a parking, loading
    and dump name, the last row whose three names are the same up to
    letter case and surrounding white space, and nothing if there is
    none; in particular every row of the sheet is found under its own
    names. *)
Theorem get_row_finds_last_row_named (rows : list table_row)
    (parking loading dump : string) :
  get_row (RouteTimeLookup_init (Some rows)) parking loading dump
  = option_map timing
      (last_row_named (upper (strip parking), upper (strip loading), upper (strip dump))
         rows)
  /\ forall row, row ∈ rows ->
       is_Some (get_row (RouteTimeLookup_init (Some rows))
                  (parking_origin row) (loading_origin row) (dumping_destination row)).
Proof.
  assert (Hget : forall p l d,
            get_row (RouteTimeLookup_init (Some rows)) p l d
            = option_map timing
                (last_row_named (upper (strip p), upper (strip l), upper (strip d)) rows)).
  { intros p l d. unfold get_row, RouteTimeLookup_init. simpl lookup_rows.
    rewrite find_row_built. destruct (last_row_named _ rows); reflexivity. }
  split; [apply Hget|].
  intros row Hin. rewrite Hget. change (upper (strip (parking_origin row)),
                                        upper (strip (loading_origin row)),
                                        upper (strip (dumping_destination row)))
    with (row_key row).
  destruct (last_row_named_own row rows Hin) as [x ->]. simpl. eauto.
Qed.

Lemma get_row_finds_last_row_named_witness :
  is_Some (get_row (RouteTimeLookup_init (Some [sample_row])) " tf " "Kr" "FENI KM0").
Proof.
  apply (proj2 (get_row_finds_last_row_named [sample_row] "" "" "") sample_row). left.
Defined.

Lemma is_space_upper (c : ascii) : is_space (upper_ascii c) = is_space c.
Proof. destruct c as [[] [] [] [] [] [] [] []]; reflexivity. Qed.

Lemma upper_ascii_twice (c : ascii) : upper_ascii (upper_ascii c) = upper_ascii c.
Proof. destruct c as [[] [] [] [] [] [] [] []]; reflexivity. Qed.

Lemma upper_twice (s : string) : upper (upper s) = upper s.
Proof. induction s as [|c s IH]; simpl; [reflexivity|]. rewrite upper_ascii_twice, IH. reflexivity. Qed.

Lemma lstrip_upper (s : string) : lstrip (upper s) = upper (lstrip s).
Proof.
  induction s as [|c s IH]; simpl; [reflexivity|].
  rewrite is_space_upper. destruct (is_space c); [exact IH|reflexivity].
Qed.

Lemma rstrip_upper (s : string) : rstrip (upper s) = upper (rstrip s).
Proof.
  induction s as [|c s IH]; simpl; [reflexivity|].
  rewrite IH, is_space_upper. destruct (rstrip s); simpl; [|reflexivity].
  destruct (is_space c); reflexivity.
Qed.

Lemma strip_upper (s : string) : strip (upper s) = upper (strip s).
Proof. unfold strip. rewrite lstrip_upper, rstrip_upper. reflexivity. Qed.

Lemma lstrip_head (s : string) :
  match lstrip s with
  | EmptyString => True
  | String c _ => is_space c = false
  end.
Proof.
  induction s as [|c s IH]; simpl; [exact I|].
  destruct (is_space c) eqn:Hc; [exact IH|exact Hc].
Qed.

Lemma rstrip_twice (s : string) : rstrip (rstrip s) = rstrip s.
Proof.
  induction s as [|c s IH]; simpl; [reflexivity|].
  destruct (rstrip s) as [|c' r] eqn:Hr.
  - destruct (is_space c) eqn:Hc; simpl; [reflexivity|]. rewrite Hc. reflexivity.
  - cbn [rstrip]. cbn [rstrip] in IH. rewrite IH. reflexivity.
Qed.

Lemma lstrip_rstrip_lstrip (s : string) : lstrip (rstrip (lstrip s)) = rstrip (lstrip s).
Proof.
  pose proof (lstrip_head s) as Hhead. destruct (lstrip s) as [|c t]; [reflexivity|].
  cbn [rstrip]. destruct (rstrip t); rewrite ?Hhead; cbn [lstrip]; rewrite Hhead; reflexivity.
Qed.

Lemma strip_twice (s : string) : strip (strip s) = strip s.
Proof. unfold strip. rewrite lstrip_rstrip_lstrip, rstrip_twice. reflexivity. Qed.

(** X24: [get_row] ignores the letter case of the three names it is
    asked for and the white space around them: asking with the names in
    upper case, or already stripped, finds the same row. *)
Theorem get_row_ignores_case_and_blanks (self : RouteTimeLookup)
    (parking loading dump : string) :
  get_row self (upper parking) (upper loading) (upper dump)
  = get_row self parking loading dump
  /\ get_row self (strip parking) (strip loading) (strip dump)
     = get_row self parking loading dump.
Proof.
  unfold get_row. split.
  - rewrite !strip_upper, !upper_twice. reflexivity.
  - rewrite !strip_twice. reflexivity.
Qed.

(** ** Evaluating a route that is not there, and what evaluation leaves alone *)

Lemma with_departure_route_missing (route t : string) (routes : list (string * route_cfg)) :
  dict_get route routes = None -> with_departure_route route t routes = routes.
Proof.
  induction routes as [|[k c] rest IH]; simpl; [reflexivity|].
  destruct (String.eqb route k); [discriminate|]. intros H. rewrite (IH H). reflexivity.
Qed.

Lemma with_departure_missing (contractor route t : string) (config : contractor_configs) :
  entry_of contractor route config = None -> with_departure contractor route t config = config.
Proof.
  unfold entry_of. induction config as [|[k routes] rest IH]; simpl; [reflexivity|].
  destruct (String.eqb contractor k).
  - intros H. rewrite (with_departure_route_missing _ _ _ H). reflexivity.
  - intros H. rewrite (IH H). reflexivity.
Qed.

(** X25: asked to evaluate a contractor or a route that the
    configuration does not have, [evaluate_departure_for_route] does not
    raise on that account and assigns nothing: whatever the candidate
    time, its outcome is that of simulating the configuration as it
    is. *)
Theorem evaluate_missing_route_is_baseline
    (dump_points : hierarchy) (empty_speed loaded_speed : Q)
    (lookup : option RouteTimeLookup) (spacing : Q)
    (σ : heap) (contractor_configs : loc) (contractor route candidate_time : string) :
  wf_config σ contractor_configs = true ->
  unshared σ contractor_configs ->
  entry_of contractor route (read_config σ contractor_configs) = None ->
  snd (evaluate_departure_for_route dump_points empty_speed loaded_speed lookup spacing
         contractor_configs contractor route candidate_time (Some contractor_configs) σ)
  = (wait_times ← simulate_wait_times dump_points empty_speed loaded_speed lookup spacing
                    (read_config σ contractor_configs);
     Ok (weighted_total dump_points (read_config σ contractor_configs) wait_times,
         wait_times)).
Proof.
  intros Hwf Hunshared Hentry.
  pose proof (evaluate_run dump_points empty_speed loaded_speed lookup spacing σ
                contractor_configs Hwf Hunshared contractor route candidate_time σ
                (extends_refl σ)) as Hrun.
  cbv beta zeta in Hrun. rewrite Hrun, (with_departure_missing _ _ _ _ Hentry).
  reflexivity.
Qed.

Lemma evaluate_missing_route_is_baseline_witness :
  snd (evaluate_departure_for_route FENI_DUMP_POINTS 40 30 None 0.02
         0%nat "RIM" "BLB" "6:00" (Some 0%nat) small_heap)
  = (wait_times ← simulate_wait_times FENI_DUMP_POINTS 40 30 None 0.02
                    (read_config small_heap 0);
     Ok (weighted_total FENI_DUMP_POINTS (read_config small_heap 0) wait_times, wait_times)).
Proof.
  apply (evaluate_missing_route_is_baseline FENI_DUMP_POINTS 40 30 None 0.02
           small_heap 0%nat "RIM" "BLB" "6:00").
  - reflexivity.
  - split; apply (bool_decide_unpack _); vm_compute; exact I.
  - reflexivity.
Defined.

(** X26: [evaluate_departure_for_route] works on a copy: every
    dictionary that existed before the call is unchanged after it,
    whether the call returns or raises and whatever sub-dictionaries the
    configuration shares, so the caller's configuration reads as
    before. *)
Theorem evaluate_departure_for_route_preserves_config
    (dump_points : hierarchy) (empty_speed loaded_speed : Q)
    (lookup : option RouteTimeLookup) (spacing : Q)
    (σ : heap) (contractor_configs : loc) (contractor route candidate_time : string)
    (baseline_configs : option loc) :
  wf_config σ contractor_configs = true ->
  forall σ' outcome,
    evaluate_departure_for_route dump_points empty_speed loaded_speed lookup spacing
      contractor_configs contractor route candidate_time baseline_configs σ
    = (σ', outcome) ->
    extends σ σ'
    /\ read_config σ' contractor_configs = read_config σ contractor_configs.
Proof.
  intros Hwf σ' outcome Hrun.
  destruct (keeps_evaluate dump_points empty_speed loaded_speed lookup spacing σ
              contractor_configs contractor route candidate_time baseline_configs σ
              (frame_refl σ)) as [Hframe _].
  rewrite Hrun in Hframe. simpl in Hframe.
  pose proof (frame_extends _ _ Hframe) as Hext.
  split; [exact Hext|]. apply extends_read_config; assumption.
Qed.

Lemma evaluate_departure_for_route_preserves_config_witness :
  read_config
    (fst (evaluate_departure_for_route FENI_DUMP_POINTS 40 30 None 0.02
            0%nat "RIM" "TF" "6:00" None small_heap)) 0
  = read_config small_heap 0.
Proof.
  apply (evaluate_departure_for_route_preserves_config FENI_DUMP_POINTS 40 30 None 0.02
           small_heap 0%nat "RIM" "TF" "6:00" None eq_refl
           (fst (evaluate_departure_for_route FENI_DUMP_POINTS 40 30 None 0.02
                   0%nat "RIM" "TF" "6:00" None small_heap))
           (snd (evaluate_departure_for_route FENI_DUMP_POINTS 40 30 None 0.02
                   0%nat "RIM" "TF" "6:00" None small_heap))).
  apply surjective_pairing.
Defined.

(** ** On the shipped hierarchy nothing raises *)

(** X28: on the hierarchy [FENI_DUMP_POINTS] of [config.py], neither
    [simulate_wait_times] nor [evaluate_departure_for_route] nor
    [optimise_departure_times] ever raises: whatever the configuration
    (unknown dump locations, unparsable departure times, truck counts of
    any sign), the speeds (zero included), the timing table and the
    candidate list, each returns a result. *)
Theorem feni_pipeline_never_raises (empty_speed loaded_speed : Q)
    (lookup : option RouteTimeLookup) (spacing : Q) :
  (forall configs,
     exists wait_times,
       simulate_wait_times FENI_DUMP_POINTS empty_speed loaded_speed lookup spacing configs
       = Ok wait_times)
  /\ (forall σ contractor_configs contractor route candidate_time baseline_configs,
        exists σ' outcome,
          evaluate_departure_for_route FENI_DUMP_POINTS empty_speed loaded_speed lookup
            spacing contractor_configs contractor route candidate_time baseline_configs σ
          = (σ', Ok outcome))
  /\ (forall σ contractor_configs candidate_times,
        exists σ' outcome,
          optimise_departure_times FENI_DUMP_POINTS empty_speed loaded_speed lookup spacing
            contractor_configs candidate_times σ
          = (σ', Ok outcome)).
Proof.
  split; [|split].
  - intros configs. apply feni_simulate_wait_times_total.
  - intros σ contractor_configs contractor route candidate_time baseline_configs.
    exact (feni_evaluate_returns empty_speed loaded_speed lookup spacing contractor_configs
             contractor route candidate_time baseline_configs σ).
  - intros σ contractor_configs candidate_times.
    exact (feni_optimise_returns empty_speed loaded_speed lookup spacing contractor_configs
             candidate_times σ).
Qed.
